(** * IT ticketing system: the ticket routes (server/routes/tickets.js)

    A shallow embedding of the Express handlers of [tickets.js] together
    with the two tables they touch ([tickets], [ticket_updates], as declared
    in the schema of the database module), and the properties of the ticket
    number allocator, the ticket lifecycle and the access scoping that
    follow from the code.

    Conventions of the embedding.
    - A handler is a computation over a [World]: the committed rows, the
      connection the handler holds (if any) with the rows of its open
      transaction (if any), the AUTO_INCREMENT counters, the upload
      directory and the number of driver calls made so far.
    - Every call into the MySQL driver ([pool.execute], [conn.execute],
      [getConnection], [beginTransaction], [commit]) may reject: a fault
      plan [Faults] tells, for the n-th driver call of the request,
      whether it rejects and with which error.  Constraint violations that
      the routes themselves can cause (the UNIQUE key on [ticket_number],
      the foreign key of [ticket_updates]) are part of the statement
      semantics and need no fault.  What the server makes of a value that
      does not fit its column (a text outside an ENUM, a text longer than
      the column, a date it cannot read) depends on its SQL mode; where it
      rejects, that is a rejection of the fault plan.
    - Strings are sequences of bytes, texts in UTF-8, as they are sent to
      the server.
    - Numbers are JavaScript Numbers; those that are integers are held as
      integers, and the operations round as IEEE 754 binary64 does.
    - The handlers run after the middleware chain ([auth], [requireUser] or
      [requireAdmin], the validators); [req.user] is the authenticated
      caller.  The validators are embedded, the authentication middleware is
      not part of the sources and is not modelled. *)

From Stdlib Require Import ZArith List String Ascii Bool Lia DecimalString DecimalPos.
From stdpp Require Import base gmap strings.
Import ListNotations.

Local Open Scope string_scope.
Local Open Scope Z_scope.

(** ** JavaScript primitives used by the routes *)

Module Js.

(** *** Strings *)

(** The white space that [trim] removes and [parseInt] skips is WhiteSpace
    and LineTerminator of the language.  Of these TAB, LF, VT, FF, CR and
    SPACE are single bytes. *)
Definition isWhiteSpace (c : ascii) : bool :=
  let n := nat_of_ascii c in
  ((9 <=? n) && (n <=? 13))%nat || (n =? 32)%nat.

(** U+00A0 (no-break space) takes two bytes. *)
Definition isWhiteSpace2 (a b : ascii) : bool :=
  ((nat_of_ascii a =? 194) && (nat_of_ascii b =? 160))%nat.

(** U+1680, U+2000 to U+200A, U+2028, U+2029, U+202F, U+205F, U+3000 and
    U+FEFF take three. *)
Definition isWhiteSpace3 (a b c : ascii) : bool :=
  let '(x, y, z) := (nat_of_ascii a, nat_of_ascii b, nat_of_ascii c) in
  ((x =? 225) && (y =? 154) && (z =? 128) ||
   (x =? 226) && (y =? 128) &&
     ((128 <=? z) && (z <=? 138) || (z =? 168) || (z =? 169) || (z =? 175)) ||
   (x =? 226) && (y =? 129) && (z =? 159) ||
   (x =? 227) && (y =? 128) && (z =? 128) ||
   (x =? 239) && (y =? 187) && (z =? 191))%nat.

(** Is [s] one white space character? *)
Definition isWhiteSpaceString (s : string) : bool :=
  match s with
  | String a EmptyString => isWhiteSpace a
  | String a (String b EmptyString) => isWhiteSpace2 a b
  | String a (String b (String c EmptyString)) => isWhiteSpace3 a b c
  | _ => false
  end.

Definition isDigit (c : ascii) : bool :=
  let n := nat_of_ascii c in ((48 <=? n) && (n <=? 57))%nat.

Definition digitValue (c : ascii) : Z := Z.of_nat (nat_of_ascii c) - 48.

Fixpoint trimStart (s : string) : string :=
  match s with
  | String a s1 =>
      if isWhiteSpace a then trimStart s1
      else
        match s1 with
        | String b s2 =>
            if isWhiteSpace2 a b then trimStart s2
            else
              match s2 with
              | String c s3 => if isWhiteSpace3 a b c then trimStart s3 else s
              | EmptyString => s
              end
        | EmptyString => s
        end
  | EmptyString => EmptyString
  end.

(** [trimEnd] drops a character when it is white space and nothing remains
    after it. *)
Fixpoint trimEnd (s : string) : string :=
  match s with
  | String c s' =>
      let t := String c (trimEnd s') in
      if isWhiteSpaceString t then EmptyString else t
  | EmptyString => EmptyString
  end.

Definition trim (s : string) : string := trimEnd (trimStart s).

Definition toLowerCaseChar (c : ascii) : ascii :=
  let n := nat_of_ascii c in
  if ((65 <=? n) && (n <=? 90))%nat then ascii_of_nat (n + 32) else c.

(** [s.toLowerCase()] on the letters of ASCII (the routes apply it to role
    names). *)
Fixpoint toLowerCase (s : string) : string :=
  match s with
  | String c s' => String (toLowerCaseChar c) (toLowerCase s')
  | EmptyString => EmptyString
  end.

Fixpoint repeat (c : ascii) (n : nat) : string :=
  match n with
  | O => EmptyString
  | S n' => String c (repeat c n')
  end.

(** [s.padStart(n, c)] for a one-character pad string. *)
Definition padStart (n : nat) (c : ascii) (s : string) : string :=
  repeat c (n - String.length s) ++ s.

Fixpoint drop (n : nat) (s : string) : string :=
  match n, s with
  | S n', String _ s' => drop n' s'
  | _, _ => s
  end.

(** [s.replace(pat, by)] with a string pattern: the first occurrence of
    [pat] only. *)
Fixpoint replace (pat by_ s : string) : string :=
  if String.prefix pat s then by_ ++ drop (String.length pat) s
  else match s with
       | String c s' => String c (replace pat by_ s')
       | EmptyString => EmptyString
       end.

(** *** Numbers *)

(** [Number.MAX_SAFE_INTEGER], 2^53 - 1. *)
Definition MAX_SAFE_INTEGER : Z := 9007199254740991.

(** The Number nearest to the integer [v], a tie going to the even
    significand.  Up to 2^53 in size every integer is a Number; a greater
    one keeps its 53 leading bits, [q], and the [e] bits below them decide
    the rounding.  (Beyond the largest finite Number, about 1.8e308, the
    language has [Infinity]; such values are outside the embedding.) *)
Definition toNumber (v : Z) : Z :=
  let a := Z.abs v in
  if a <=? MAX_SAFE_INTEGER then v
  else
    let e := Z.log2 a - 52 in
    let q := a / 2 ^ e in
    let r := a mod 2 ^ e in
    let half := 2 ^ (e - 1) in
    let q' := if (half <? r) || ((r =? half) && Z.odd q) then q + 1 else q in
    Z.sgn v * (q' * 2 ^ e).

(** [a + b] on Numbers: the exact sum, rounded. *)
Definition plus (a b : Z) : Z := toNumber (a + b).

(** The digits at the head of [s], folded into [acc]; the flag tells
    whether at least one digit was read. *)
Fixpoint readDigits (s : string) (seen : bool) (acc : Z) : bool * Z :=
  match s with
  | String c s' =>
      if isDigit c then readDigits s' true (10 * acc + digitValue c)
      else (seen, acc)
  | EmptyString => (seen, acc)
  end.

(** [parseInt(s, 10)]: leading white space is skipped, one sign is
    accepted, the longest run of digits is read and the rest is ignored;
    the integer read is rounded to the nearest Number; [None] is NaN. *)
Definition parseInt (s : string) : option Z :=
  let s1 := trimStart s in
  let '(neg, s2) :=
    match s1 with
    | String "-"%char r => (true, r)
    | String "+"%char r => (false, r)
    | _ => (false, s1)
    end in
  match readDigits s2 false 0 with
  | (true, v) => Some (toNumber (if neg then - v else v))
  | (false, _) => None
  end.

(** The decimal digits of an integer. *)
Definition decimal (n : Z) : string := NilZero.string_of_int (Z.to_int n).

(** The decimal with the fewest significant digits that reads back as the
    Number [x]: with [j] zeros at the end the candidates are the two
    multiples of 10^j next to [x]; when both read back as [x] the nearer
    one is taken, and the one with the even last digit when they are
    equally near.  [j] goes down from the number of digits of [x] less
    one. *)
Fixpoint shortest (x : Z) (j : nat) : Z :=
  let p := 10 ^ Z.of_nat j in
  let lo := x / p * p in
  let hi := lo + p in
  let here :=
    match toNumber lo =? x, toNumber hi =? x with
    | true, true =>
        if x - lo <? hi - x then Some lo
        else if hi - x <? x - lo then Some hi
        else if Z.even (x / p) then Some lo else Some hi
    | true, false => Some lo
    | false, true => Some hi
    | false, false => None
    end in
  match here with
  | Some v => v
  | None => match j with
            | S j' => shortest x j'
            | O => x
            end
  end.

(** [s] without the zeros at its end. *)
Fixpoint stripZeros (s : string) : string :=
  match s with
  | String c s' =>
      match stripZeros s' with
      | EmptyString => if Ascii.eqb c "0" then EmptyString else String c EmptyString
      | r => String c r
      end
  | EmptyString => EmptyString
  end.

(** The exponent notation of a decimal of more than 21 digits:
    [d.ddde+n]. *)
Definition exponential (v : Z) : string :=
  let d := decimal v in
  let n := decimal (Z.of_nat (String.length d) - 1) in
  match stripZeros d with
  | String c EmptyString => String c ("e+" ++ n)
  | String c r => String c ("." ++ r ++ "e+" ++ n)
  | EmptyString => d
  end.

(** [n.toString()] for a Number [n] that is an integer: the shortest
    decimal that reads back as [n], written out in full below 10^21 and in
    exponent notation from there on. *)
Definition toString (n : Z) : string :=
  let x := Z.abs n in
  let v := shortest x (String.length (decimal x) - 1) in
  let s := if v <? 10 ^ 21 then decimal v else exponential v in
  if n <? 0 then "-" ++ s else s.

End Js.

(** ** Data model: the rows of [tickets] and [ticket_updates] *)

(** [users.role ENUM('user','admin','it')]. *)
Inductive Role := user | admin | it.

Definition role_name (r : Role) : string :=
  match r with user => "user" | admin => "admin" | it => "it" end.

(** [tickets.status ENUM('Pending','In Progress','On Hold','Done','Closed')]. *)
Inductive Status := Pending | InProgress | OnHold | Done | Closed.

Definition status_name (s : Status) : string :=
  match s with
  | Pending => "Pending" | InProgress => "In Progress" | OnHold => "On Hold"
  | Done => "Done" | Closed => "Closed"
  end.

Definition all_status : list Status := [Pending; InProgress; OnHold; Done; Closed].

(** The enum member with a given name, if any
    ([isIn(['Pending', 'In Progress', 'On Hold', 'Done', 'Closed'])]). *)
Definition status_of_name (s : string) : option Status :=
  List.find (fun st => String.eqb (status_name st) s) all_status.

Inductive Priority := Low | Medium | High | Critical.

(** [ticket_updates.update_type ENUM('status_change','note','assignment')]. *)
Inductive UpdateType := status_change | note | assignment.

(** A TIMESTAMP: the calendar year ([YEAR(created_at)]) and the position of
    the instant inside that year. *)
Record DateTime := { year : Z; instant : Z }.

(** [a] is strictly later than [b]. *)
Definition later (a b : DateTime) : bool :=
  (year b <? year a) || ((year b =? year a) && (instant b <? instant a)).

(** The authenticated caller [req.user]. *)
Module User.
Record t := mk {
  id : Z;
  department : string;
  role : option Role          (* the column is nullable *)
}.
End User.

Module Ticket.
Record t := mk {
  id : Z;
  ticket_number : string;
  department : string;
  equipment_type : string;
  problem_description : string;
  issue_date : string;
  photo_url : option string;
  status : Status;
  priority : Priority;
  assigned_to : option Z;
  created_by : Z;
  created_at : DateTime;
  updated_at : DateTime
}.

Definition set_status (s : Status) (now : DateTime) (x : t) : t :=
  mk (id x) (ticket_number x) (department x) (equipment_type x)
     (problem_description x) (issue_date x) (photo_url x) s (priority x)
     (assigned_to x) (created_by x) (created_at x) now.
End Ticket.

Module Update.
Record t := mk {
  id : Z;
  ticket_id : Z;
  user_id : Z;
  update_type : UpdateType;
  old_value : option string;
  new_value : option string;
  notes : option string;
  created_at : DateTime
}.
End Update.

(** The two tables. *)
Record DB := { tickets : list Ticket.t; ticket_updates : list Update.t }.

(** The AUTO_INCREMENT counters; they are not part of a transaction. *)
Record Autos := { tickets_auto : Z; updates_auto : Z }.

(** An entry of the upload directory: [unlinkSync] removes a [Removable]
    entry and throws on a [Stuck] one (a directory, a file in a read-only
    directory). *)
Inductive Entry := Removable | Stuck.

(** A JavaScript exception, as far as the handlers look at it:
    [error.code]. *)
Record Error := { code : string }.

(** A TypeError carries no code. *)
Definition TypeError : Error := {| code := "" |}.
Definition ER_DUP_ENTRY : Error := {| code := "ER_DUP_ENTRY" |}.
Definition ER_NO_REFERENCED_ROW : Error := {| code := "ER_NO_REFERENCED_ROW_2" |}.
Definition EPERM : Error := {| code := "EPERM" |}.
Definition ENOENT : Error := {| code := "ENOENT" |}.

(** For the n-th driver call of a request: the error it rejects with. *)
Definition Faults := nat -> option Error.

Definition no_faults : Faults := fun _ => None.

(** Only the [n]-th driver call rejects, with [e]. *)
Definition fault_at (n : nat) (e : Error) : Faults :=
  fun k => if Nat.eqb k n then Some e else None.

(** The connection a handler holds: in autocommit mode, as the pool hands
    it out, or inside a transaction, with the rows the transaction sees. *)
Inductive Connection := Autocommit | Transaction (rows : DB).

Record World := {
  db : DB;                       (* committed rows *)
  conn : option Connection;      (* the handler's variable [conn] *)
  autos : Autos;
  uploads : gmap string Entry;   (* files below the server directory *)
  calls : nat                    (* driver calls made by this request *)
}.

Definition with_db (d : DB) (w : World) : World :=
  {| db := d; conn := conn w; autos := autos w; uploads := uploads w; calls := calls w |}.
Definition with_conn (c : option Connection) (w : World) : World :=
  {| db := db w; conn := c; autos := autos w; uploads := uploads w; calls := calls w |}.
Definition with_autos (a : Autos) (w : World) : World :=
  {| db := db w; conn := conn w; autos := a; uploads := uploads w; calls := calls w |}.
Definition with_uploads (u : gmap string Entry) (w : World) : World :=
  {| db := db w; conn := conn w; autos := autos w; uploads := u; calls := calls w |}.
Definition tick (w : World) : World :=
  {| db := db w; conn := conn w; autos := autos w; uploads := uploads w; calls := S (calls w) |}.
(** The world as a new request finds it: no driver call made yet. *)
Definition restart (w : World) : World :=
  {| db := db w; conn := conn w; autos := autos w; uploads := uploads w; calls := 0 |}.

(** ** Responses *)

(** One entry of [errors.array()]. *)
Record FieldError := { msg : string; param : string }.

(** The ticket object of the 201 response. *)
Record CreatedTicket := {
  ct_id : Z;
  ct_ticket_number : string;
  ct_department : string;
  ct_equipment_type : string;
  ct_problem_description : string;
  ct_issue_date : string;
  ct_photo_url : option string;
  ct_status : string
}.

Record Pagination := { current : Z; total : Z; totalItems : Z }.

Inductive Body :=
| Message (m : string)
| Errors (errors : list FieldError)
| Created (m : string) (ticket : CreatedTicket)
| TicketList (rows : list Ticket.t) (pagination : Pagination)
| TicketDetail (ticket : Ticket.t) (updates : list Update.t)
| History (updates : list Update.t).

Record Response := { http : Z; body : Body }.

Definition json (b : Body) : Response := {| http := 200; body := b |}.
Definition status_json (st : Z) (b : Body) : Response := {| http := st; body := b |}.

(** ** Handler computations *)

(** A step of an [async] handler either goes on with a value, has sent the
    response ([return res...json(...)]) or has thrown. *)
Inductive Outcome (A : Type) :=
| Next (a : A)
| Sent (r : Response)
| Thrown (e : Error).
Arguments Next {A} a.
Arguments Sent {A} r.
Arguments Thrown {A} e.

Definition Handler (A : Type) : Type := World -> World * Outcome A.

#[global] Instance handler_ret : MRet Handler := fun A a w => (w, Next a).
#[global] Instance handler_bind : MBind Handler := fun A B k m w =>
  match m w with
  | (w', Next a) => k a w'
  | (w', Sent r) => (w', Sent r)
  | (w', Thrown e) => (w', Thrown e)
  end.

Definition send {A} (r : Response) : Handler A := fun w => (w, Sent r).
Definition throw {A} (e : Error) : Handler A := fun w => (w, Thrown e).
Definition get_world : Handler World := fun w => (w, Next w).
Definition when (b : bool) (h : Handler unit) : Handler unit :=
  if b then h else mret tt.

(** [try { body } catch (error) { handler }] around a body that always
    responds or throws; the [catch] blocks of the routes only respond. *)
Definition try_catch (body : Handler Empty_set)
    (handler : Error -> World -> World * Response) : World -> World * Response :=
  fun w =>
    match body w with
    | (_, Next a) => match a with end
    | (w', Sent r) => (w', r)
    | (w', Thrown e) => handler e w'
    end.


(** ** The MySQL driver *)

(** A driver call: the fault plan is consulted first, then the operation
    runs; either way the call is counted. *)
Definition driver_call {A} (F : Faults) (op : World -> World * (Error + A)) : Handler A :=
  fun w =>
    match F (calls w) with
    | Some e => (tick w, Thrown e)
    | None =>
        match op (tick w) with
        | (w', inl e) => (w', Thrown e)
        | (w', inr a) => (w', Next a)
        end
    end.

(** A statement reads and writes the rows it is executed on and may draw
    from the AUTO_INCREMENT counters. *)
Definition Sql (A : Type) : Type := DB -> Autos -> Autos * (Error + DB * A).

Definition query {A} (f : DB -> A) : Sql A := fun d a => (a, inr (d, f d)).

(** [pool.execute]: autocommit, on the committed rows. *)
Definition pool_execute {A} (F : Faults) (q : Sql A) : Handler A :=
  driver_call F (fun w =>
    match q (db w) (autos w) with
    | (a, inl e) => (with_autos a w, inl e)
    | (a, inr (d, x)) => (with_db d (with_autos a w), inr x)
    end).

(** The driver refuses a bind parameter that is [undefined] ("Bind
    parameters must not contain undefined") with a TypeError; nothing is
    sent to the server. *)
Definition undefined_parameter {A} : Sql A := fun d a => (a, inl TypeError).

(** [conn.execute]: inside a transaction the statement works on the rows
    of the transaction; on a connection in autocommit mode it works on the
    committed rows, as [pool.execute] does. *)
Definition conn_execute {A} (F : Faults) (q : Sql A) : Handler A :=
  driver_call F (fun w =>
    match conn w with
    | Some (Transaction c) =>
        match q c (autos w) with
        | (a, inl e) => (with_autos a w, inl e)
        | (a, inr (d, x)) => (with_conn (Some (Transaction d)) (with_autos a w), inr x)
        end
    | Some Autocommit =>
        match q (db w) (autos w) with
        | (a, inl e) => (with_autos a w, inl e)
        | (a, inr (d, x)) => (with_db d (with_autos a w), inr x)
        end
    | None => (w, inl {| code := "PROTOCOL_CONNECTION_LOST" |})
    end).

(** [conn = await pool.getConnection()]: a connection in autocommit
    mode. *)
Definition getConnection (F : Faults) : Handler unit :=
  driver_call F (fun w => (with_conn (Some Autocommit) w, inr tt)).

(** [await conn.beginTransaction()]: from here on the statements of the
    connection work on rows of their own, which start as the committed
    rows.  (Beginning a transaction inside a transaction commits the open
    one first.) *)
Definition beginTransaction (F : Faults) : Handler unit :=
  driver_call F (fun w =>
    match conn w with
    | Some Autocommit => (with_conn (Some (Transaction (db w))) w, inr tt)
    | Some (Transaction c) => (with_conn (Some (Transaction c)) (with_db c w), inr tt)
    | None => (w, inl {| code := "PROTOCOL_CONNECTION_LOST" |})
    end).

(** [await conn.commit()]: the rows of the transaction become the committed
    rows, or the call rejects and none of them does. *)
Definition commit (F : Faults) : Handler unit :=
  driver_call F (fun w =>
    match conn w with
    | Some (Transaction c) => (with_conn (Some Autocommit) (with_db c w), inr tt)
    | Some Autocommit => (w, inr tt)
    | None => (w, inl {| code := "PROTOCOL_CONNECTION_LOST" |})
    end).

(** [conn.release(); conn = null]. *)
Definition release : Handler unit := fun w => (with_conn None w, Next tt).

(** [if (conn) { try { await conn.rollback(); conn.release(); } catch (e) {} }]:
    the uncommitted rows are dropped, also when the rollback call itself
    rejects (the server discards them with the connection). *)
Definition rollback_release (w : World) : World :=
  match conn w with
  | Some _ => with_conn None (tick w)
  | None => w
  end.

(** ** The statements of the routes *)

(** The greatest string in byte order, if any. *)
Definition greatest (l : list string) : option string :=
  fold_left (fun acc s =>
               match acc with
               | None => Some s
               | Some m => if String.ltb m s then Some s else Some m
               end) l None.

(** [SELECT ticket_number FROM tickets WHERE YEAR(created_at) = ?
     ORDER BY ticket_number DESC LIMIT 1 FOR UPDATE]: at most one row.  The
    numbers the allocator writes are made of [TKT], digits and [-], on
    which the column's collation orders as the bytes do. *)
Definition last_ticket_number (y : Z) (d : DB) : list string :=
  let numbers :=
    map Ticket.ticket_number
        (List.filter (fun t => year (Ticket.created_at t) =? y) (tickets d)) in
  match greatest numbers with
  | Some n => [n]
  | None => []
  end.

Definition select_last_ticket_number (y : Z) : Sql (list string) :=
  query (last_ticket_number y).

(** [INSERT INTO tickets (ticket_number, department, equipment_type,
     problem_description, issue_date, photo_url, created_by) VALUES (...)]:
    the remaining columns take their defaults; the UNIQUE key on
    [ticket_number] rejects a number already present.  The counter is
    drawn before the key is checked. *)
Definition insert_ticket (ticket_number department equipment_type
    problem_description issue_date : string) (photo_url : option string)
    (created_by : Z) (now : DateTime) : Sql Z :=
  fun d a =>
    let insertId := tickets_auto a in
    let a' := {| tickets_auto := insertId + 1; updates_auto := updates_auto a |} in
    if existsb (fun t => String.eqb (Ticket.ticket_number t) ticket_number) (tickets d)
    then (a', inl ER_DUP_ENTRY)
    else
      let row := Ticket.mk insertId ticket_number department equipment_type
                   problem_description issue_date photo_url Pending Medium None
                   created_by now now in
      (a', inr ({| tickets := tickets d ++ [row];
                   ticket_updates := ticket_updates d |}, insertId)).

(** [INSERT INTO ticket_updates (ticket_id, user_id, update_type, old_value,
     new_value, notes) VALUES (...)]; the foreign key wants the ticket. *)
Definition insert_update (ticket_id user_id : Z) (update_type : UpdateType)
    (old_value new_value notes : option string) (now : DateTime) : Sql unit :=
  fun d a =>
    let insertId := updates_auto a in
    let a' := {| tickets_auto := tickets_auto a; updates_auto := insertId + 1 |} in
    if existsb (fun t => Ticket.id t =? ticket_id) (tickets d)
    then
      let row := Update.mk insertId ticket_id user_id update_type old_value
                   new_value notes now in
      (a', inr ({| tickets := tickets d;
                   ticket_updates := ticket_updates d ++ [row] |}, tt))
    else (a', inl ER_NO_REFERENCED_ROW).

(** [... FROM tickets WHERE id = ?], with [AND created_by = ?] when an
    owner is given. *)
Definition find_tickets (id : Z) (owner : option Z) (d : DB) : list Ticket.t :=
  List.filter (fun t =>
      (Ticket.id t =? id) &&
      match owner with
      | Some o => Ticket.created_by t =? o
      | None => true
      end) (tickets d).

Definition select_ticket (id : Z) (owner : option Z) : Sql (list Ticket.t) :=
  query (find_tickets id owner).

#[global] Instance Status_eq_dec : EqDecision Status.
Proof. solve_decision. Defined.

(** [UPDATE tickets SET status = ? WHERE id = ?]; [updated_at] follows only
    when the row changes. *)
Definition update_status (id : Z) (s : Status) (now : DateTime) : Sql unit :=
  fun d a =>
    (a, inr ({| tickets :=
                  map (fun t =>
                         if (Ticket.id t =? id) && negb (bool_decide (Ticket.status t = s))
                         then Ticket.set_status s now t else t) (tickets d);
                ticket_updates := ticket_updates d |}, tt)).

(** [DELETE FROM tickets WHERE id = ?], with the ON DELETE CASCADE of
    [ticket_updates.ticket_id]. *)
Definition delete_ticket_row (id : Z) : Sql unit :=
  fun d a =>
    (a, inr ({| tickets := List.filter (fun t => negb (Ticket.id t =? id)) (tickets d);
                ticket_updates :=
                  List.filter (fun x => negb (Update.ticket_id x =? id)) (ticket_updates d) |},
             tt)).

(** Stable insertion sort: [x] goes before the first row that is not
    strictly [before] it. *)
Fixpoint insert_by {A} (before : A -> A -> bool) (x : A) (l : list A) : list A :=
  match l with
  | [] => [x]
  | y :: l' => if before y x then y :: insert_by before x l' else x :: l
  end.

Definition sort_by {A} (before : A -> A -> bool) (l : list A) : list A :=
  fold_right (insert_by before) [] l.

(** [SELECT tu.* ... FROM ticket_updates tu JOIN users u ON tu.user_id = u.id
     WHERE tu.ticket_id = ? ORDER BY tu.created_at ASC|DESC].  The joined
    user columns are for display and are left out; the foreign key on
    [user_id] makes the join total. *)
Definition updates_of (ticket_id : Z) (descending : bool) (d : DB) : list Update.t :=
  let rows := List.filter (fun x => Update.ticket_id x =? ticket_id) (ticket_updates d) in
  if descending
  then sort_by (fun x y => later (Update.created_at x) (Update.created_at y)) rows
  else sort_by (fun x y => later (Update.created_at y) (Update.created_at x)) rows.

Definition select_updates (ticket_id : Z) (descending : bool) : Sql (list Update.t) :=
  query (updates_of ticket_id descending).

(** ** POST /: create a ticket *)

(** A field of the multipart body as the parser delivers it: missing, one
    text value, or something that is not a string (a repeated field). *)
Inductive FormValue := Absent | Text (s : string) | NonText.

Module CreateBody.
Record t := mk {
  department : FormValue;
  equipment_type : option string;
  problem_description : option string;
  issue_date : option string
}.
End CreateBody.

Definition field_error (m p : string) : FieldError := {| msg := m; param := p |}.

(** [String(req.user.role || '').toLowerCase() === 'admin']. *)
Definition is_admin (u : User.t) : bool :=
  String.eqb
    (Js.toLowerCase (match User.role u with Some r => role_name r | None => "" end))
    "admin".

(** [req.user.role === 'user']. *)
Definition is_user (u : User.t) : bool :=
  match User.role u with
  | Some r => String.eqb (role_name r) "user"
  | None => false
  end.

(** The allocator: the sequence that follows the row read under the lock. *)
Definition next_count (y : Z) (rows : list string) : Z :=
  match rows with
  | last :: _ =>
      if negb (String.eqb last "") then
        let lastNumStr := Js.replace ("TKT" ++ Js.toString y) "" last in
        match Js.parseInt lastNumStr with
        | Some parsed => Js.plus parsed 1
        | None => 1
        end
      else 1
  | [] => 1
  end.

(** [`${prefix}${year}${nextCount.toString().padStart(4, '0')}`]. *)
Definition format_ticket_number (y nextCount : Z) : string :=
  "TKT" ++ Js.toString y ++ Js.padStart 4 "0" (Js.toString nextCount).

Definition next_ticket_number (y : Z) (rows : list string) : string :=
  format_ticket_number y (next_count y rows).

Section Create.

(** The ISO 8601 test of the validator library. *)
Variable isISO8601 : string -> bool.

(** The validator chain of the route, in order; a failing validator adds
    its message and the chain goes on. *)
Definition validate_create (b : CreateBody.t) : list FieldError :=
  (match CreateBody.department b with
   | NonText => [field_error "Invalid value" "department"]
   | _ => []
   end) ++
  (match CreateBody.equipment_type b with
   | None => [field_error "Equipment type is required" "equipment_type";
              field_error "Invalid value" "equipment_type"]
   | Some "" => [field_error "Equipment type is required" "equipment_type"]
   | Some _ => []
   end) ++
  (match CreateBody.problem_description b with
   | None | Some "" => [field_error "Problem description is required" "problem_description"]
   | Some _ => []
   end) ++
  (match CreateBody.issue_date b with
   | Some s => if isISO8601 s then [] else [field_error "Valid issue date is required" "issue_date"]
   | None => [field_error "Valid issue date is required" "issue_date"]
   end).

Definition text_of (v : option string) : string := default "" v.

(** The department of the new ticket: the one of the body for an admin
    (which must be given), the caller's own otherwise. *)
Definition determine_department (u : User.t) (b : CreateBody.t) : Handler string :=
  if is_admin u then
    match CreateBody.department b with
    | Text d =>
        if String.eqb d ""
        then send (status_json 400
               (Errors [field_error "Department is required for admin" "department"]))
        else mret d
    | _ => send (status_json 400
               (Errors [field_error "Department is required for admin" "department"]))
    end
  else mret (User.department u).

(** The transaction: the last number of the year is read under the lock,
    the ticket and its first update are inserted, and all is committed.
    Yields [result.insertId] and the ticket number. *)
Definition create_transaction (F : Faults) (now : DateTime) (u : User.t)
    (department equipment_type problem_description issue_date : string)
    (photo_url : option string) : Handler (Z * string) :=
  getConnection F ;;
  beginTransaction F ;;
  let y := year now in
  rows ← conn_execute F (select_last_ticket_number y);
  let ticket_number := next_ticket_number y rows in
  insertId ← conn_execute F
    (insert_ticket ticket_number department equipment_type problem_description
       issue_date photo_url (User.id u) now);
  conn_execute F
    (insert_update insertId (User.id u) status_change None (Some "Pending")
       (Some "Ticket created") now) ;;
  commit F ;;
  release ;;
  mret (insertId, ticket_number).

(** The body of the [try] block. *)
Definition post_ticket_try (F : Faults) (now : DateTime) (u : User.t)
    (b : CreateBody.t) (file : option string) : Handler Empty_set :=
  let errors := validate_create b in
  when (negb (bool_decide (errors = [])))
       (send (status_json 400 (Errors errors))) ;;
  department ← determine_department u b;
  let equipment_type := Js.trim (text_of (CreateBody.equipment_type b)) in
  let problem_description := text_of (CreateBody.problem_description b) in
  let issue_date := text_of (CreateBody.issue_date b) in
  let photo_url := (fun filename => "/uploads/" ++ filename) <$> file in
  '(insertId, ticket_number) ←
    create_transaction F now u department equipment_type problem_description
      issue_date photo_url;
  send (status_json 201
    (Created "Ticket created successfully"
       {| ct_id := insertId; ct_ticket_number := ticket_number;
          ct_department := department; ct_equipment_type := equipment_type;
          ct_problem_description := problem_description;
          ct_issue_date := issue_date; ct_photo_url := photo_url;
          ct_status := "Pending" |})).

(** The [catch] block. *)
Definition post_ticket_catch (error : Error) (w : World) : World * Response :=
  let w' := rollback_release w in
  if String.eqb (code error) "ER_DUP_ENTRY"
  then (w', status_json 409 (Message "Duplicate ticket number generated; please retry"))
  else (w', status_json 500 (Message "Server error")).

Definition post_ticket (F : Faults) (now : DateTime) (u : User.t)
    (b : CreateBody.t) (file : option string) : World -> World * Response :=
  try_catch (post_ticket_try F now u b file) post_ticket_catch.

End Create.

(** ** GET /: list tickets *)

Module ListQuery.
Record t := mk {
  page : option string;
  limit : option string;
  status : option string;
  department : option string;
  search : option string;
  created_by : option string
}.
End ListQuery.

(** [a LIKE b]: [%] stands for any run of characters, [_] for one, a
    backslash takes the next character literally; letters match without
    regard to case. *)
Fixpoint like (pattern : string) : string -> bool :=
  match pattern with
  | EmptyString => fun s => match s with EmptyString => true | _ => false end
  | String "%" p =>
      fix star (s : string) : bool :=
        like p s || match s with String _ s' => star s' | EmptyString => false end
  | String "_" p =>
      fun s => match s with String _ s' => like p s' | EmptyString => false end
  | String "\" (String c p) =>
      fun s => match s with
               | String d s' =>
                   Ascii.eqb (Js.toLowerCaseChar c) (Js.toLowerCaseChar d) && like p s'
               | EmptyString => false
               end
  | String c p =>
      fun s => match s with
               | String d s' =>
                   Ascii.eqb (Js.toLowerCaseChar c) (Js.toLowerCaseChar d) && like p s'
               | EmptyString => false
               end
  end.

(** [Math.max(1, parseInt(v, 10) || fallback)]. *)
Definition positive_param (v : option string) (fallback : Z) : Z :=
  Z.max 1 (match v ≫= Js.parseInt with
           | Some 0 | None => fallback
           | Some n => n
           end).

(** A non-empty query parameter ([if (status)]). *)
Definition truthy (v : option string) : option string :=
  match v with
  | Some "" | None => None
  | Some s => Some s
  end.

Section List.

(** [Number(s)]: the numeric value of a string, [None] for NaN. *)
Variable Number : string -> option Z.

(** The conditions pushed on [where], in order. *)
Definition list_where (u : User.t) (q : ListQuery.t) : list (Ticket.t -> bool) :=
  (if negb (is_admin u)
   then [fun t => Ticket.created_by t =? User.id u]
   else match truthy (ListQuery.created_by q) with
        | Some c =>
            if (0 <? Z.of_nat (String.length (Js.trim c)))
            then match Number c with
                 | Some n => [fun t => Ticket.created_by t =? n]
                 | None => []
                 end
            else []
        | None => []
        end) ++
  (match truthy (ListQuery.status q) with
   | Some s => [fun t => String.eqb (status_name (Ticket.status t)) s]
   | None => []
   end) ++
  (match truthy (ListQuery.department q) with
   | Some d => [fun t => String.eqb (Ticket.department t) d]
   | None => []
   end) ++
  (match truthy (ListQuery.search q) with
   | Some s =>
       if (0 <? Z.of_nat (String.length (Js.trim s)))
       then let term := "%" ++ Js.trim s ++ "%" in
            [fun t => like term (Ticket.ticket_number t)
                      || like term (Ticket.problem_description t)
                      || like term (Ticket.equipment_type t)
                      || like term (Ticket.department t)]
       else []
   | None => []
   end).

(** [WHERE c1 AND c2 AND ...] (no clause when [where] is empty). *)
Definition where_sql (conds : list (Ticket.t -> bool)) (t : Ticket.t) : bool :=
  forallb (fun c => c t) conds.

(** The count query over the same [WHERE] clause. *)
Definition count_tickets (conds : list (Ticket.t -> bool)) : Sql Z :=
  query (fun d => Z.of_nat (length (List.filter (where_sql conds) (tickets d)))).

(** [SELECT t.* FROM tickets t WHERE ... ORDER BY t.created_at DESC
     LIMIT ? OFFSET ?]. *)
Definition list_tickets (conds : list (Ticket.t -> bool)) (limit offset : Z) : Sql (list Ticket.t) :=
  query (fun d =>
    take (Z.to_nat limit)
      (drop (Z.to_nat offset)
         (sort_by (fun x y => later (Ticket.created_at x) (Ticket.created_at y))
            (List.filter (where_sql conds) (tickets d))))).

(** [Math.ceil(totalItems / limit)] for [limit >= 1]. *)
Definition ceil_div (a b : Z) : Z := (a + b - 1) / b.

Definition get_tickets_try (F : Faults) (u : User.t) (q : ListQuery.t) : Handler Empty_set :=
  let page := positive_param (ListQuery.page q) 1 in
  let limit := positive_param (ListQuery.limit q) 10 in
  let offset := (page - 1) * limit in
  let conds := list_where u q in
  totalItems ← pool_execute F (count_tickets conds);
  let totalPages := Z.max 1 (ceil_div totalItems limit) in
  rows ← pool_execute F (list_tickets conds limit offset);
  send (json (TicketList rows
    {| current := page; total := totalPages; totalItems := totalItems |})).

Definition server_error (error : Error) (w : World) : World * Response :=
  (w, status_json 500 (Message "Server error")).

Definition get_tickets (F : Faults) (u : User.t) (q : ListQuery.t) : World -> World * Response :=
  try_catch (get_tickets_try F u q) server_error.

End List.

(** The owner filter of the single-ticket routes: [AND created_by = ?] for
    the role [user] only. *)
Definition owner_filter (u : User.t) : option Z :=
  if is_user u then Some (User.id u) else None.

(** ** GET /:id: one ticket with its updates *)

Definition get_ticket_try (F : Faults) (u : User.t) (id : Z) : Handler Empty_set :=
  found ← pool_execute F (select_ticket id (owner_filter u));
  match found with
  | [] => send (status_json 404 (Message "Ticket not found"))
  | ticket :: _ =>
      updates ← pool_execute F (select_updates id true);
      send (json (TicketDetail ticket updates))
  end.

Definition get_ticket (F : Faults) (u : User.t) (id : Z) : World -> World * Response :=
  try_catch (get_ticket_try F u id) server_error.

(** ** PUT /:id/status: change the status *)

(** [body('status').isIn([...])]; a missing value is tested as the empty
    string.  [body('notes').optional().isString()] accepts every text and
    lets a missing value pass: [notes] is then [undefined]. *)
Definition validate_status (status : option string) : list FieldError :=
  match status_of_name (text_of status) with
  | Some _ => []
  | None => [field_error "Invalid status" "status"]
  end.

Definition put_status_try (F : Faults) (now : DateTime) (u : User.t) (id : Z)
    (status notes : option string) : Handler Empty_set :=
  let errors := validate_status status in
  when (negb (bool_decide (errors = [])))
       (send (status_json 400 (Errors errors))) ;;
  found ← pool_execute F (select_ticket id None);
  match found with
  | [] => send (status_json 404 (Message "Ticket not found"))
  | ticket :: _ =>
      if bool_decide (Ticket.status ticket = Closed)
      then send (status_json 400 (Message "Cannot modify a closed ticket"))
      else
        let oldStatus := status_name (Ticket.status ticket) in
        pool_execute F
          (update_status id (default Pending (status_of_name (text_of status))) now) ;;
        pool_execute F
          (match notes with
           | Some _ =>
               insert_update id (User.id u) status_change (Some oldStatus) status
                 notes now
           | None => undefined_parameter
           end) ;;
        send (json (Message "Ticket status updated successfully"))
  end.

Definition put_status (F : Faults) (now : DateTime) (u : User.t) (id : Z)
    (status notes : option string) : World -> World * Response :=
  try_catch (put_status_try F now u id status notes) server_error.

(** ** POST /:id/notes: add a note *)

(** [body('notes').notEmpty()]. *)
Definition validate_notes (notes : option string) : list FieldError :=
  match notes with
  | None | Some "" => [field_error "Notes are required" "notes"]
  | Some _ => []
  end.

Definition post_notes_try (F : Faults) (now : DateTime) (u : User.t) (id : Z)
    (notes : option string) : Handler Empty_set :=
  let errors := validate_notes notes in
  when (negb (bool_decide (errors = [])))
       (send (status_json 400 (Errors errors))) ;;
  found ← pool_execute F (select_ticket id (owner_filter u));
  match found with
  | [] => send (status_json 404 (Message "Ticket not found"))
  | ticket :: _ =>
      if bool_decide (Ticket.status ticket = Closed)
      then send (status_json 400 (Message "Cannot modify a closed ticket"))
      else
        pool_execute F (insert_update id (User.id u) note None None notes now) ;;
        send (json (Message "Note added successfully"))
  end.

Definition post_notes (F : Faults) (now : DateTime) (u : User.t) (id : Z)
    (notes : option string) : World -> World * Response :=
  try_catch (post_notes_try F now u id notes) server_error.

(** ** GET /:id/history *)

Definition get_history_try (F : Faults) (u : User.t) (id : Z) : Handler Empty_set :=
  found ← pool_execute F (select_ticket id (owner_filter u));
  match found with
  | [] => send (status_json 404 (Message "Ticket not found"))
  | _ :: _ =>
      updates ← pool_execute F (select_updates id false);
      send (json (History updates))
  end.

Definition get_history (F : Faults) (u : User.t) (id : Z) : World -> World * Response :=
  try_catch (get_history_try F u id) server_error.

(** ** DELETE /:id *)

(** [fs.existsSync(p)]. *)
Definition existsSync (p : string) (w : World) : bool :=
  bool_decide (is_Some (uploads w !! p)).

(** [fs.unlinkSync(p)]. *)
Definition unlinkSync (p : string) : Handler unit :=
  fun w =>
    match uploads w !! p with
    | Some Removable => (with_uploads (delete p (uploads w)) w, Next tt)
    | Some Stuck => (w, Thrown EPERM)
    | None => (w, Thrown ENOENT)
    end.

(** The upload directory is keyed by the path below the server directory,
    which is what [path.join(__dirname, '..', ticket.photo_url)] names. *)
Definition delete_ticket_try (F : Faults) (u : User.t) (id : Z) : Handler Empty_set :=
  found ← pool_execute F (select_ticket id (owner_filter u));
  match found with
  | [] => send (status_json 404 (Message "Ticket not found"))
  | ticket :: _ =>
      if bool_decide (Ticket.status ticket = Closed)
      then send (status_json 400 (Message "Cannot delete a closed ticket"))
      else
        (match truthy (Ticket.photo_url ticket) with
         | Some photoPath =>
             w ← get_world;
             when (existsSync photoPath w) (unlinkSync photoPath)
         | None => mret tt
         end) ;;
        pool_execute F (delete_ticket_row id) ;;
        send (json (Message "Ticket deleted successfully"))
  end.

Definition delete_ticket (F : Faults) (u : User.t) (id : Z) : World -> World * Response :=
  try_catch (delete_ticket_try F u id) server_error.

(** * Specification vocabulary *)

(** [wp m Q w]: running [m] on [w] ends in a world and an outcome that
    satisfy [Q]. *)
Definition wp {A} (m : Handler A) (Q : World -> Outcome A -> Prop) (w : World) : Prop :=
  Q (m w).1 (m w).2.

(** The rows a committed creation adds to [d]. *)
Definition created_rows (now : DateTime) (u : User.t)
    (department equipment_type problem_description issue_date : string)
    (photo_url : option string) (a : Autos) (d : DB) : DB :=
  let number := next_ticket_number (year now) (last_ticket_number (year now) d) in
  {| tickets := tickets d ++
       [Ticket.mk (tickets_auto a) number department equipment_type
          problem_description issue_date photo_url Pending Medium None
          (User.id u) now now];
     ticket_updates := ticket_updates d ++
       [Update.mk (updates_auto a) (tickets_auto a) (User.id u) status_change
          None (Some "Pending") (Some "Ticket created") now] |}.

(** Is the number taken already? *)
Definition number_taken (n : string) (d : DB) : bool :=
  existsb (fun t => String.eqb (Ticket.ticket_number t) n) (tickets d).

(** [determine_department] yields [dep]. *)
Definition department_is (u : User.t) (b : CreateBody.t) (dep : string) : Prop :=
  (is_admin u = false /\ dep = User.department u) \/
  (is_admin u = true /\ CreateBody.department b = Text dep /\ dep <> "").

(** The 201 response for a ticket created with these values. *)
Definition created_response (insertId : Z) (number department : string)
    (b : CreateBody.t) (file : option string) : Response :=
  status_json 201
    (Created "Ticket created successfully"
       {| ct_id := insertId; ct_ticket_number := number;
          ct_department := department;
          ct_equipment_type := Js.trim (text_of (CreateBody.equipment_type b));
          ct_problem_description := text_of (CreateBody.problem_description b);
          ct_issue_date := text_of (CreateBody.issue_date b);
          ct_photo_url := (fun filename => "/uploads/" ++ filename) <$> file;
          ct_status := "Pending" |}).

(** The rows a creation by [u] with body [b] commits. *)
Definition created_by_request (now : DateTime) (u : User.t) (dep : string)
    (b : CreateBody.t) (file : option string) (a : Autos) (d : DB) : DB :=
  created_rows now u dep (Js.trim (text_of (CreateBody.equipment_type b)))
    (text_of (CreateBody.problem_description b))
    (text_of (CreateBody.issue_date b))
    ((fun filename => "/uploads/" ++ filename) <$> file) a d.

(** What the [try] block of the creation route can do. *)
Definition create_outcome (isISO8601 : string -> bool) (now : DateTime)
    (u : User.t) (b : CreateBody.t) (file : option string)
    (w w' : World) (o : Outcome Empty_set) : Prop :=
  match o with
  | Next _ => True
  | Sent r =>
      (exists dep,
          validate_create isISO8601 b = [] /\
          department_is u b dep /\
          number_taken (next_ticket_number (year now)
                          (last_ticket_number (year now) (db w))) (db w) = false /\
          r = created_response (tickets_auto (autos w))
                (next_ticket_number (year now) (last_ticket_number (year now) (db w)))
                dep b file /\
          db w' = created_by_request now u dep b file (autos w) (db w))
      \/ (http r = 400 /\ w' = w)
  | Thrown e => db w' = db w
  end.

(** The two responses of the [catch] block of the creation route. *)
Definition conflict : Response :=
  status_json 409 (Message "Duplicate ticket number generated; please retry").
Definition internal_error : Response :=
  status_json 500 (Message "Server error").

(** The sequence part of a ticket number. *)
Definition sequence_suffix (k : Z) : string := Js.padStart 4 "0" (Js.toString k).

(** [start], [start + 1], ... ([n] numbers). *)
Fixpoint zrange (start : Z) (n : nat) : list Z :=
  match n with
  | O => []
  | S n' => start :: zrange (start + 1) n'
  end.

(** The numbers of the first [n] tickets of year [y], in order of creation. *)
Definition year_numbers (y : Z) (n : nat) : list string :=
  map (format_ticket_number y) (zrange 1 n).

(** The tickets of [d] are those of [n] creations in year [y] on empty
    tables. *)
Definition numbered (y : Z) (n : nat) (d : DB) : Prop :=
  Forall (fun t => year (Ticket.created_at t) = y) (tickets d) /\
  map Ticket.ticket_number (tickets d) = year_numbers y n.

(** Checks that run over every sequence of up to four digits. *)
Definition suffixes_parse (n : nat) : bool :=
  forallb (fun k => match Js.parseInt (sequence_suffix k) with
                    | Some v => v =? k
                    | None => false
                    end) (zrange 1 n).

Definition suffixes_ascend (n : nat) : bool :=
  forallb (fun k => String.ltb (sequence_suffix k) (sequence_suffix (k + 1)))
          (zrange 1 n).

(** ** Sample data *)

Definition sample_now : DateTime := {| year := 2025; instant := 500 |}.

(** A ticket of user 2 (department Sales), as in the dump of the schema. *)
Definition sample_ticket (st : Status) (photo : option string) : Ticket.t :=
  Ticket.mk 1 "TKT20250001" "Sales" "PC" "The fan is not functioning"
    "2025-07-17 08:30:00" photo st Medium None 2
    {| year := 2025; instant := 100 |} {| year := 2025; instant := 100 |}.

Definition sample_update : Update.t :=
  Update.mk 1 1 2 status_change None (Some "Pending") (Some "Ticket created")
    {| year := 2025; instant := 100 |}.

Definition sample_world (st : Status) (photo : option string)
    (files : gmap string Entry) : World :=
  {| db := {| tickets := [sample_ticket st photo]; ticket_updates := [sample_update] |};
     conn := None;
     autos := {| tickets_auto := 2; updates_auto := 2 |};
     uploads := files;
     calls := 0 |}.

Definition empty_world : World :=
  {| db := {| tickets := []; ticket_updates := [] |};
     conn := None;
     autos := {| tickets_auto := 1; updates_auto := 1 |};
     uploads := ∅;
     calls := 0 |}.

Definition sample_admin : User.t := User.mk 1 "IT Department" (Some admin).
Definition sample_owner : User.t := User.mk 2 "Sales" (Some user).
Definition sample_stranger : User.t := User.mk 3 "Finance" (Some user).
Definition sample_it : User.t := User.mk 4 "IT Department" (Some it).

Definition sample_body (d : FormValue) : CreateBody.t :=
  CreateBody.mk d (Some "PC") (Some "The fan is not functioning") (Some "2025-07-17").

(** The error of a lost connection. *)
Definition connection_lost : Error := {| code := "PROTOCOL_CONNECTION_LOST" |}.

(** The forbidden-state responses. *)
Definition closed_modify : Response :=
  status_json 400 (Message "Cannot modify a closed ticket").
Definition closed_delete : Response :=
  status_json 400 (Message "Cannot delete a closed ticket").
Definition not_found : Response :=
  status_json 404 (Message "Ticket not found").

(** Every row of [d] with this id is closed. *)
Definition closed_in (id : Z) (d : DB) : Prop :=
  forall t, In t (tickets d) -> Ticket.id t = id -> Ticket.status t = Closed.

(** A handler run that neither succeeds nor changes rows or files. *)
Definition rejected (w : World) (r : World * Response) : Prop :=
  http r.2 <> 200 /\ db r.1 = db w /\ uploads r.1 = uploads w.

(** The photo of [t], if any, is not an entry that refuses removal. *)
Definition photo_removable (t : Ticket.t) (w : World) : Prop :=
  forall p, truthy (Ticket.photo_url t) = Some p -> uploads w !! p <> Some Stuck.

(** The rows left by [DELETE FROM tickets WHERE id = ?]. *)
Definition rows_without (id : Z) (d : DB) : DB :=
  {| tickets := List.filter (fun t => negb (Ticket.id t =? id)) (tickets d);
     ticket_updates :=
       List.filter (fun x => negb (Update.ticket_id x =? id)) (ticket_updates d) |}.

(** The rows after a note of [u] on ticket [id]. *)
Definition rows_with_note (now : DateTime) (u : User.t) (id : Z)
    (notes : option string) (a : Autos) (d : DB) : DB :=
  {| tickets := tickets d;
     ticket_updates := ticket_updates d ++
       [Update.mk (updates_auto a) id (User.id u) note None None notes now] |}.

(** The world after [n] creations in a row, each without driver faults. *)
Definition creations (isISO8601 : string -> bool) (now : DateTime) (u : User.t)
    (b : CreateBody.t) (file : option string) (n : nat) (w0 : World) : World :=
  Nat.iter n (fun w => (post_ticket isISO8601 no_faults now u b file w).1) w0.


(** [b] with another client-supplied department. *)
Definition with_department (d : FormValue) (b : CreateBody.t) : CreateBody.t :=
  CreateBody.mk d (CreateBody.equipment_type b) (CreateBody.problem_description b)
    (CreateBody.issue_date b).

(** An upload directory where the photo of the sample ticket cannot be
    removed. *)
Definition sample_photo : string := "/uploads/ticket-1752668447091-852235345.PNG".
Definition stuck_files : gmap string Entry := {[ sample_photo := Stuck ]}.
Definition removable_files : gmap string Entry := {[ sample_photo := Removable ]}.

(** ** Vocabulary for the lifecycle routes *)

(** The rows after [UPDATE tickets SET status = ? WHERE id = ?]. *)
Definition rows_with_status (id : Z) (s : Status) (now : DateTime) (d : DB) : DB :=
  {| tickets :=
       map (fun t =>
              if (Ticket.id t =? id) && negb (bool_decide (Ticket.status t = s))
              then Ticket.set_status s now t else t) (tickets d);
     ticket_updates := ticket_updates d |}.

(** The rows after the audit row of a status change is appended. *)
Definition rows_with_audit (now : DateTime) (u : User.t) (id : Z)
    (old_value new_value notes : option string) (a : Autos) (d : DB) : DB :=
  {| tickets := tickets d;
     ticket_updates := ticket_updates d ++
       [Update.mk (updates_auto a) id (User.id u) status_change old_value
          new_value notes now] |}.

(** Everything of a world but the count of driver calls. *)
Definition same_state (w w' : World) : Prop :=
  db w' = db w /\ conn w' = conn w /\ autos w' = autos w /\ uploads w' = uploads w.

(** No row of [l] comes strictly [before] the row in front of it. *)
Fixpoint ordered {A} (before : A -> A -> bool) (l : list A) : Prop :=
  match l with
  | x :: l' =>
      match l' with
      | y :: _ => before y x = false
      | [] => True
      end /\ ordered before l'
  | [] => True
  end.

(** Newest first. *)
Definition newest_first_tickets (l : list Ticket.t) : Prop :=
  ordered (fun x y => later (Ticket.created_at x) (Ticket.created_at y)) l.
Definition newest_first_updates (l : list Update.t) : Prop :=
  ordered (fun x y => later (Update.created_at x) (Update.created_at y)) l.
Definition oldest_first_updates (l : list Update.t) : Prop :=
  ordered (fun x y => later (Update.created_at y) (Update.created_at x)) l.

(** ** The router *)

(** A request that reached one of the handlers of the router, with the
    behaviour of the driver during that request. *)
Inductive Request :=
| PostTicket (F : Faults) (now : DateTime) (u : User.t) (b : CreateBody.t)
    (file : option string)
| GetTickets (F : Faults) (u : User.t) (q : ListQuery.t)
| GetTicket (F : Faults) (u : User.t) (id : Z)
| PutStatus (F : Faults) (now : DateTime) (u : User.t) (id : Z)
    (status notes : option string)
| PostNotes (F : Faults) (now : DateTime) (u : User.t) (id : Z)
    (notes : option string)
| GetHistory (F : Faults) (u : User.t) (id : Z)
| DeleteTicket (F : Faults) (u : User.t) (id : Z).

Section Router.

Variable isISO8601 : string -> bool.
Variable Number : string -> option Z.

(** The handler of the request is run; its driver calls are counted from
    zero. *)
Definition serve (r : Request) (w : World) : World * Response :=
  let w := restart w in
  match r with
  | PostTicket F now u b file => post_ticket isISO8601 F now u b file w
  | GetTickets F u q => get_tickets Number F u q w
  | GetTicket F u id => get_ticket F u id w
  | PutStatus F now u id status notes => put_status F now u id status notes w
  | PostNotes F now u id notes => post_notes F now u id notes w
  | GetHistory F u id => get_history F u id w
  | DeleteTicket F u id => delete_ticket F u id w
  end.

(** The world after a sequence of requests, one after the other. *)
Definition serve_all (rs : list Request) (w : World) : World :=
  fold_left (fun w r => (serve r w).1) rs w.

(** The answers to these requests, in order. *)
Fixpoint answers (rs : list Request) (w : World) : list Response :=
  match rs with
  | r :: rs' => (serve r w).2 :: answers rs' (serve r w).1
  | [] => []
  end.

(** A creation request that passes the validators, with a department to
    file the ticket under, and during which the driver answers every
    call. *)
Definition answered_creation (r : Request) : Prop :=
  match r with
  | PostTicket F now u b file =>
      (forall n, F n = None) /\ validate_create isISO8601 b = [] /\
      exists dep, department_is u b dep
  | _ => False
  end.

End Router.

(** A creation request made in year [y]. *)
Definition creation_in (y : Z) (r : Request) : Prop :=
  match r with
  | PostTicket _ now _ _ _ => year now = y
  | _ => False
  end.

(** Did the request create a ticket? *)
Definition created (a : Response) : bool := http a =? 201.

(** The tickets created in year [y], in table order. *)
Definition tickets_of_year (y : Z) (d : DB) : list Ticket.t :=
  List.filter (fun t => year (Ticket.created_at t) =? y) (tickets d).

(** The updates of ticket [id], in table order. *)
Definition history_rows (id : Z) (d : DB) : list Update.t :=
  List.filter (fun x => Update.ticket_id x =? id) (ticket_updates d).

(** [id] is not in use: no ticket has it and no update refers to it. *)
Definition unused_id (id : Z) (d : DB) : Prop :=
  (forall t, In t (tickets d) -> Ticket.id t <> id) /\
  (forall x, In x (ticket_updates d) -> Update.ticket_id x <> id).

(** The ticket row a creation stores. *)
Definition created_ticket (now : DateTime) (u : User.t) (dep : string)
    (b : CreateBody.t) (file : option string) (a : Autos) (d : DB) : Ticket.t :=
  Ticket.mk (tickets_auto a)
    (next_ticket_number (year now) (last_ticket_number (year now) d)) dep
    (Js.trim (text_of (CreateBody.equipment_type b)))
    (text_of (CreateBody.problem_description b))
    (text_of (CreateBody.issue_date b))
    ((fun filename => "/uploads/" ++ filename) <$> file)
    Pending Medium None (User.id u) now now.

(** Its first update row. *)
Definition created_update (now : DateTime) (u : User.t) (a : Autos) : Update.t :=
  Update.mk (updates_auto a) (tickets_auto a) (User.id u) status_change None
    (Some "Pending") (Some "Ticket created") now.

(** The closed ticket [t] is in the table under its id alone, every id is
    below the counter, and the history of [t] is [h]. *)
Definition sealed (t : Ticket.t) (h : list Update.t) (w : World) : Prop :=
  In t (tickets (db w)) /\
  (forall t', In t' (tickets (db w)) -> Ticket.id t' = Ticket.id t -> t' = t) /\
  (forall t', In t' (tickets (db w)) -> Ticket.id t' < tickets_auto (autos w)) /\
  history_rows (Ticket.id t) (db w) = h.

(** Is there a digit at all? *)
Definition nonnil (d : Decimal.uint) : bool :=
  match d with Decimal.Nil => false | _ => true end.





(** * Reasoning about handlers *)

Lemma wp_bind {A B} (m : Handler A) (k : A -> Handler B) Q w :
  wp m (fun w1 o =>
          match o with
          | Next a => wp (k a) Q w1
          | Sent r => Q w1 (Sent r)
          | Thrown e => Q w1 (Thrown e)
          end) w ->
  wp (m ≫= k) Q w.
Proof.
  unfold wp, mbind, handler_bind. destruct (m w) as [w1 [a|r|e]]; simpl; auto.
Qed.

Lemma wp_ret {A} (a : A) (Q : World -> Outcome A -> Prop) w :
  Q w (Next a) -> wp (mret a) Q w.
Proof. auto. Qed.

Lemma wp_send {A} r (Q : World -> Outcome A -> Prop) w :
  Q w (Sent r) -> wp (send r) Q w.
Proof. auto. Qed.

Lemma wp_when b h (Q : World -> Outcome unit -> Prop) w :
  (b = true -> wp h Q w) -> (b = false -> Q w (Next tt)) -> wp (when b h) Q w.
Proof. intros H1 H2. destruct b; [by apply H1 | by apply H2]. Qed.

Lemma wp_driver_call {A} F (op : World -> World * (Error + A)) Q w :
  (forall e, F (calls w) = Some e -> Q (tick w) (Thrown e)) ->
  (F (calls w) = None ->
   Q (op (tick w)).1
     (match (op (tick w)).2 with inl e => Thrown e | inr a => Next a end)) ->
  wp (driver_call F op) Q w.
Proof.
  unfold wp, driver_call. intros Hf Hok.
  destruct (F (calls w)) as [e|]; [by apply Hf|].
  specialize (Hok eq_refl). by destruct (op (tick w)) as [w' [e|a]].
Qed.

Lemma wp_mono {A} (m : Handler A) (Q Q' : World -> Outcome A -> Prop) w :
  wp m Q w -> (forall w' o, Q w' o -> Q' w' o) -> wp m Q' w.
Proof. unfold wp. auto. Qed.

(** The response of a route, from what its [try] block does. *)
Lemma try_catch_wp (body : Handler Empty_set) handler (Q : World -> Response -> Prop) w :
  wp body (fun w' o =>
             match o with
             | Next a => True
             | Sent r => Q w' r
             | Thrown e => Q (handler e w').1 (handler e w').2
             end) w ->
  Q (try_catch body handler w).1 (try_catch body handler w).2.
Proof.
  unfold wp, try_catch. destruct (body w) as [w' [[]|r|e]]; simpl; auto.
Qed.

(** ** The creation transaction *)

Lemma existsb_id_snoc (l : list Ticket.t) (t : Ticket.t) (i : Z) :
  Ticket.id t = i ->
  existsb (fun x => Ticket.id x =? i) (l ++ [t]) = true.
Proof.
  intros <-. rewrite existsb_app. simpl. rewrite Z.eqb_refl. by rewrite orb_true_r.
Qed.

(** Whatever the driver does, the transaction either commits exactly the
    ticket and its first update, or throws and leaves the committed rows
    as they were. *)
Lemma create_transaction_wp F now u dep eq pd idate photo w :
  wp (create_transaction F now u dep eq pd idate photo)
     (fun w' o =>
        match o with
        | Next (insertId, number) =>
            insertId = tickets_auto (autos w) /\
            number = next_ticket_number (year now) (last_ticket_number (year now) (db w)) /\
            number_taken number (db w) = false /\
            db w' = created_rows now u dep eq pd idate photo (autos w) (db w)
        | Sent _ => False
        | Thrown e => db w' = db w
        end) w.
Proof.
  unfold create_transaction.
  apply wp_bind, wp_driver_call; [done|intros _; simpl].
  apply wp_bind, wp_driver_call; [done|intros _; simpl].
  apply wp_bind, wp_driver_call; [done|intros _; simpl].
  apply wp_bind, wp_driver_call; [done|intros _; simpl].
  unfold insert_ticket. fold (number_taken (next_ticket_number (year now) (last_ticket_number (year now) (db w))) (db w)).
  destruct (number_taken _ (db w)) eqn:Htaken; simpl; [done|].
  apply wp_bind, wp_driver_call; [done|intros _; simpl].
  unfold insert_update. simpl. rewrite existsb_id_snoc by done. simpl.
  apply wp_bind, wp_driver_call; [done|intros _; simpl].
  apply wp_bind. unfold wp. simpl. done.
Qed.

Lemma determine_department_wp u b w :
  wp (determine_department u b)
     (fun w' o =>
        w' = w /\
        match o with
        | Next dep => department_is u b dep
        | Sent r => http r = 400
        | Thrown _ => False
        end) w.
Proof.
  unfold determine_department, department_is, wp.
  destruct (is_admin u); [|simpl; auto].
  destruct (CreateBody.department b) as [|d|]; simpl; auto.
  destruct (String.eqb_spec d ""); simpl; auto.
Qed.

Lemma post_ticket_try_wp isISO8601 F now u b file w :
  wp (post_ticket_try isISO8601 F now u b file)
     (create_outcome isISO8601 now u b file w) w.
Proof.
  unfold post_ticket_try.
  apply wp_bind, wp_when; [intros _; apply wp_send; right; by split|].
  intros Hval. apply negb_false_iff, bool_decide_eq_true in Hval.
  apply wp_bind.
  eapply wp_mono; [apply determine_department_wp|].
  intros w1 [dep|r|e] [-> Hdep]; simpl; [|by right|done].
  apply wp_bind.
  eapply wp_mono; [apply create_transaction_wp|].
  intros w2 [[insertId number]|r|e]; simpl; [|done|done].
  intros (-> & -> & Hfree & Hdb).
  apply wp_send. left. exists dep. by repeat split.
Qed.

Lemma rollback_release_db w : db (rollback_release w) = db w.
Proof. unfold rollback_release. by destruct (conn w). Qed.


Lemma post_ticket_catch_spec e w :
  db (post_ticket_catch e w).1 = db w /\
  (post_ticket_catch e w).2 =
    if String.eqb (code e) "ER_DUP_ENTRY" then conflict else internal_error.
Proof.
  unfold post_ticket_catch.
  destruct (String.eqb (code e) "ER_DUP_ENTRY"); simpl;
    by rewrite rollback_release_db.
Qed.

(** A creation either commits the ticket with its first update and answers
    201, or answers 400, 409 or 500 and leaves the committed rows alone. *)
Lemma post_ticket_cases isISO8601 F now u b file w :
  let r := post_ticket isISO8601 F now u b file w in
  (exists dep,
      validate_create isISO8601 b = [] /\
      department_is u b dep /\
      number_taken (next_ticket_number (year now)
                      (last_ticket_number (year now) (db w))) (db w) = false /\
      r.2 = created_response (tickets_auto (autos w))
              (next_ticket_number (year now) (last_ticket_number (year now) (db w)))
              dep b file /\
      db r.1 = created_by_request now u dep b file (autos w) (db w))
  \/ (db r.1 = db w /\ (http r.2 = 400 \/ r.2 = conflict \/ r.2 = internal_error)).
Proof.
  intros r. subst r. unfold post_ticket.
  apply (try_catch_wp _ _ (fun w' r =>
    (exists dep, _ /\ _ /\ _ /\ r = _ /\ db w' = _) \/
    (db w' = db w /\ (http r = 400 \/ r = conflict \/ r = internal_error)))).
  eapply wp_mono; [apply post_ticket_try_wp|].
  intros w' [[]|r|e]; simpl.
  - intros [H|[H ->]]; [by left|right; auto].
  - intros Hdb. right.
    destruct (post_ticket_catch_spec e w') as [-> ->].
    split; [done|]. destruct (String.eqb _ _); auto.
Qed.

(** When the driver answers every call, the creation of a valid request is
    decided by the UNIQUE key alone. *)
Lemma post_ticket_answered isISO8601 F now u b file w dep :
  (forall n, F n = None) ->
  validate_create isISO8601 b = [] ->
  department_is u b dep ->
  let number := next_ticket_number (year now) (last_ticket_number (year now) (db w)) in
  let r := post_ticket isISO8601 F now u b file w in
  if number_taken number (db w)
  then r.2 = conflict /\ db r.1 = db w
  else r.2 = created_response (tickets_auto (autos w)) number dep b file /\
       db r.1 = created_by_request now u dep b file (autos w) (db w).
Proof.
  intros HF Hval Hdep number r. subst r.
  unfold post_ticket, try_catch, post_ticket_try.
  rewrite Hval. simpl.
  assert (Hd : determine_department u b = mret dep).
  { unfold determine_department.
    destruct Hdep as [[-> ->]|(-> & -> & Hne)]; [done|].
    by destruct (String.eqb_spec dep ""). }
  rewrite Hd.
  unfold mbind, handler_bind, mret, handler_ret, create_transaction.
  unfold mbind, handler_bind, mret, handler_ret, getConnection, beginTransaction,
    conn_execute, commit, release, driver_call.
  rewrite !HF. simpl. rewrite !HF. simpl.
  unfold insert_ticket.
  fold (number_taken (next_ticket_number (year now) (last_ticket_number (year now) (db w))) (db w)).
  fold number.
  destruct (number_taken number (db w)) eqn:Htaken; simpl.
  - done.
  - rewrite !HF. simpl.
    unfold insert_update. simpl. rewrite existsb_id_snoc by done. simpl.
    rewrite !HF. simpl. done.
Qed.

Lemma post_ticket_no_faults isISO8601 now u b file w dep :
  validate_create isISO8601 b = [] ->
  department_is u b dep ->
  let number := next_ticket_number (year now) (last_ticket_number (year now) (db w)) in
  let r := post_ticket isISO8601 no_faults now u b file w in
  if number_taken number (db w)
  then r.2 = conflict /\ db r.1 = db w
  else r.2 = created_response (tickets_auto (autos w)) number dep b file /\
       db r.1 = created_by_request now u dep b file (autos w) (db w).
Proof. by apply post_ticket_answered. Qed.

(** ** Numbers *)

Lemma toNumber_safe (v : Z) :
  Z.abs v <= Js.MAX_SAFE_INTEGER -> Js.toNumber v = v.
Proof.
  intros H. unfold Js.toNumber.
  by replace (Z.abs v <=? Js.MAX_SAFE_INTEGER) with true by (symmetry; lia).
Qed.

Lemma plus_safe (a b : Z) :
  Z.abs (a + b) <= Js.MAX_SAFE_INTEGER -> Js.plus a b = a + b.
Proof. apply toNumber_safe. Qed.

(** Past the safe integers: 2^53 + 1 is no Number, and 2^60 is written
    with the 16 digits that tell it from its neighbours. *)
Example toNumber_rounds :
  Js.toNumber 9007199254740993 = 9007199254740992 /\
  Js.plus 9007199254740994 1 = 9007199254740996 /\
  Js.toString (2 ^ 60) = "1152921504606847000" /\
  Js.parseInt "1152921504606847000" = Some (2 ^ 60) /\
  Js.toString (10 ^ 21) = "1e+21".
Proof. vm_compute. done. Qed.

(** ** The allocator over one year *)

Lemma in_zrange (z start : Z) (n : nat) :
  In z (zrange start n) <-> start <= z < start + Z.of_nat n.
Proof.
  revert start. induction n as [|n IH]; intros start; simpl; [lia|].
  rewrite IH. lia.
Qed.

Lemma zrange_S (start : Z) (n : nat) :
  zrange start (S n) = (zrange start n ++ [start + Z.of_nat n])%list.
Proof.
  revert start. induction n as [|n IH]; intros start.
  - simpl. by rewrite Z.add_0_r.
  - change (zrange start (S (S n))) with (start :: zrange (start + 1) (S n)).
    rewrite IH. simpl. do 3 f_equal. lia.
Qed.

Lemma suffixes_parse_10000 : suffixes_parse (Z.to_nat 10000) = true.
Proof. vm_compute. reflexivity. Qed.

Lemma suffixes_ascend_9998 : suffixes_ascend (Z.to_nat 9998) = true.
Proof. vm_compute. reflexivity. Qed.

Lemma suffixes_parse_sound (n : nat) (k : Z) :
  suffixes_parse n = true -> 1 <= k <= Z.of_nat n ->
  Js.parseInt (sequence_suffix k) = Some k.
Proof.
  unfold suffixes_parse. rewrite forallb_forall. intros H Hk.
  specialize (H k). rewrite in_zrange in H. specialize (H ltac:(lia)).
  destruct (Js.parseInt _) as [v|]; [|done].
  apply Z.eqb_eq in H. by subst.
Qed.

Lemma suffixes_ascend_sound (n : nat) (k : Z) :
  suffixes_ascend n = true -> 1 <= k <= Z.of_nat n ->
  String.ltb (sequence_suffix k) (sequence_suffix (k + 1)) = true.
Proof.
  unfold suffixes_ascend. rewrite forallb_forall. intros H Hk.
  apply H. rewrite in_zrange. lia.
Qed.

Lemma suffix_parse (k : Z) :
  1 <= k <= 10000 -> Js.parseInt (sequence_suffix k) = Some k.
Proof.
  intros Hk. apply (suffixes_parse_sound _ _ suffixes_parse_10000). lia.
Qed.

Lemma suffix_ascend (k : Z) :
  1 <= k <= 9998 ->
  String.ltb (sequence_suffix k) (sequence_suffix (k + 1)) = true.
Proof.
  intros Hk. apply (suffixes_ascend_sound _ _ suffixes_ascend_9998). lia.
Qed.

(** Four digits against five: in byte order 9999 is above 10000. *)
Lemma suffix_9999_10000 :
  String.ltb (sequence_suffix 9999) (sequence_suffix 10000) = false.
Proof. vm_compute. reflexivity. Qed.

Lemma ascii_compare_refl (c : ascii) : Ascii.compare c c = Eq.
Proof.
  pose proof (Ascii.compare_antisym c c) as H.
  destruct (Ascii.compare c c); simpl in H; congruence.
Qed.

Lemma ltb_app (p a b : string) : String.ltb (p ++ a) (p ++ b) = String.ltb a b.
Proof.
  unfold String.ltb. induction p as [|c p IH]; simpl; [done|].
  by rewrite ascii_compare_refl.
Qed.

Lemma prefix_app (p s : string) : String.prefix p (p ++ s) = true.
Proof.
  induction p as [|c p IH]; simpl; [by destruct s|].
  by destruct (ascii_dec c c).
Qed.

Lemma drop_app (p s : string) : Js.drop (String.length p) (p ++ s) = s.
Proof. induction p as [|c p IH]; simpl; [by destruct s|done]. Qed.

Lemma replace_unfold (p r x : string) :
  Js.replace p r x =
    if String.prefix p x then r ++ Js.drop (String.length p) x
    else match x with
         | String c x' => String c (Js.replace p r x')
         | EmptyString => EmptyString
         end.
Proof. by destruct x. Qed.

Lemma replace_prefix (p s : string) : Js.replace p "" (p ++ s) = s.
Proof. by rewrite replace_unfold, prefix_app, drop_app. Qed.

Lemma string_app_inv (p a b : string) : p ++ a = p ++ b -> a = b.
Proof. induction p as [|c p IH]; simpl; [done|]. intros [=]. auto. Qed.

Lemma format_ticket_number_split y k :
  format_ticket_number y k = ("TKT" ++ Js.toString y) ++ sequence_suffix k.
Proof. reflexivity. Qed.

(** After a row numbered [k] the allocator counts [k + 1]. *)
Lemma next_count_after y (k : Z) :
  1 <= k <= 10000 ->
  next_count y [format_ticket_number y k] = k + 1.
Proof.
  intros Hk. unfold next_count.
  replace (negb (String.eqb (format_ticket_number y k) "")) with true
    by reflexivity.
  rewrite format_ticket_number_split, replace_prefix, suffix_parse by done.
  apply plus_safe. unfold Js.MAX_SAFE_INTEGER. lia.
Qed.

Lemma format_ticket_number_inj y (j k : Z) :
  1 <= j <= 10000 -> 1 <= k <= 10000 ->
  format_ticket_number y j = format_ticket_number y k -> j = k.
Proof.
  intros Hj Hk. rewrite !format_ticket_number_split. intros H%string_app_inv.
  pose proof (suffix_parse j Hj) as Pj. pose proof (suffix_parse k Hk) as Pk.
  rewrite H in Pj. rewrite Pj in Pk. by injection Pk.
Qed.

Lemma greatest_snoc (l : list string) (x : string) :
  greatest (l ++ [x]) =
    match greatest l with
    | None => Some x
    | Some m => if String.ltb m x then Some x else Some m
    end.
Proof. unfold greatest. by rewrite fold_left_app. Qed.

Lemma year_numbers_S y n :
  year_numbers y (S n) =
  (year_numbers y n ++ [format_ticket_number y (Z.of_nat (S n))])%list.
Proof.
  unfold year_numbers. rewrite zrange_S, map_app. simpl. do 3 f_equal. lia.
Qed.

(** Up to 9999 tickets the greatest number in byte order is the last one. *)
Lemma greatest_year_numbers y (n : nat) :
  1 <= Z.of_nat n <= 9999 ->
  greatest (year_numbers y n) = Some (format_ticket_number y (Z.of_nat n)).
Proof.
  induction n as [|n IH]; [lia|]. intros Hn.
  rewrite year_numbers_S, greatest_snoc.
  destruct n as [|n]; [done|].
  rewrite IH by lia.
  replace (Z.of_nat (S (S n))) with (Z.of_nat (S n) + 1) by lia.
  by rewrite !format_ticket_number_split, ltb_app, suffix_ascend by lia.
Qed.

(** With 10000 tickets it still is the number 9999. *)
Lemma greatest_year_numbers_10000 y :
  greatest (year_numbers y (Z.to_nat 10000)) = Some (format_ticket_number y 9999).
Proof.
  replace (Z.to_nat 10000) with (S (Z.to_nat 9999)) by lia.
  rewrite year_numbers_S, greatest_snoc, greatest_year_numbers by lia.
  replace (Z.of_nat (Z.to_nat 9999)) with 9999 by lia.
  replace (Z.of_nat (S (Z.to_nat 9999))) with 10000 by lia.
  by rewrite !format_ticket_number_split, ltb_app, suffix_9999_10000.
Qed.

Lemma filter_year_all y (l : list Ticket.t) :
  Forall (fun t => year (Ticket.created_at t) = y) l ->
  List.filter (fun t => year (Ticket.created_at t) =? y) l = l.
Proof.
  induction 1 as [|t l Ht _ IH]; simpl; [done|].
  apply Z.eqb_eq in Ht. by rewrite Ht, IH.
Qed.

Lemma last_ticket_number_numbered y n d :
  numbered y n d ->
  last_ticket_number y d =
    match greatest (year_numbers y n) with Some m => [m] | None => [] end.
Proof.
  intros [Hy Hn]. unfold last_ticket_number. by rewrite filter_year_all, Hn.
Qed.

Lemma number_taken_iff n d :
  number_taken n d = true <-> In n (map Ticket.ticket_number (tickets d)).
Proof.
  unfold number_taken. rewrite existsb_exists, in_map_iff.
  split; intros (t & H1 & H2).
  - apply String.eqb_eq in H2. eauto.
  - exists t. split; [done|]. by apply String.eqb_eq.
Qed.

Lemma in_year_numbers y n s :
  In s (year_numbers y n) <->
  exists k, 1 <= k <= Z.of_nat n /\ s = format_ticket_number y k.
Proof.
  unfold year_numbers. rewrite in_map_iff. split.
  - intros (k & <- & Hk%in_zrange). exists k. split; [lia|done].
  - intros (k & Hk & ->). exists k. split; [done|]. apply in_zrange. lia.
Qed.

(** The number the allocator computes for the ticket after the [n]-th. *)
Lemma next_ticket_number_numbered y n d :
  Z.of_nat n <= 9999 -> numbered y n d ->
  next_ticket_number y (last_ticket_number y d) =
  format_ticket_number y (Z.of_nat n + 1).
Proof.
  intros Hn Hd. rewrite (last_ticket_number_numbered _ _ _ Hd).
  unfold next_ticket_number. destruct n as [|n]; [done|].
  by rewrite greatest_year_numbers, next_count_after by lia.
Qed.

(** Creation number [n + 1] of a year, [n < 10000], takes the next
    sequence and succeeds. *)
Lemma create_in_sequence isISO8601 now u b file dep w (n : nat) :
  validate_create isISO8601 b = [] ->
  department_is u b dep ->
  Z.of_nat n < 10000 ->
  numbered (year now) n (db w) ->
  let r := post_ticket isISO8601 no_faults now u b file w in
  r.2 = created_response (tickets_auto (autos w))
          (format_ticket_number (year now) (Z.of_nat n + 1)) dep b file /\
  numbered (year now) (S n) (db r.1).
Proof.
  intros Hval Hdep Hn Hd r. subst r.
  pose proof (post_ticket_no_faults isISO8601 now u b file w dep Hval Hdep) as H.
  simpl in H. rewrite (next_ticket_number_numbered (year now) n) in H by (done || lia).
  destruct (number_taken _ (db w)) eqn:Htaken.
  - apply number_taken_iff in Htaken. destruct Hd as [_ Hd]. rewrite Hd in Htaken.
    apply in_year_numbers in Htaken as (k & Hk & Heq).
    apply format_ticket_number_inj in Heq; lia.
  - destruct H as [-> ->]. split; [done|].
    destruct Hd as [Hy Hnum]. unfold created_by_request, created_rows. split; simpl.
    + apply Forall_app. split; [done|]. by constructor.
    + rewrite map_app, Hnum, year_numbers_S. simpl.
      rewrite (next_ticket_number_numbered (year now) n) by (done || lia).
      do 3 f_equal. lia.
Qed.

(** ** Queries through the pool *)

Lemma wp_pool_query {A} F (f : DB -> A) Q w :
  (forall e, F (calls w) = Some e -> Q (tick w) (Thrown e)) ->
  (F (calls w) = None -> Q (tick w) (Next (f (db w)))) ->
  wp (pool_execute F (query f)) Q w.
Proof.
  intros Hf Hok. apply wp_driver_call; [done|]. intros H. by apply Hok.
Qed.

Lemma find_tickets_head id owner d t rest :
  find_tickets id owner d = t :: rest ->
  In t (tickets d) /\ Ticket.id t = id /\
  match owner with Some o => Ticket.created_by t = o | None => True end.
Proof.
  intros H. assert (Hin : In t (find_tickets id owner d)) by (rewrite H; by left).
  unfold find_tickets in Hin. apply filter_In in Hin as [Hin Hc].
  apply andb_true_iff in Hc as [Hid Ho]. apply Z.eqb_eq in Hid.
  split; [done|]. split; [done|].
  destruct owner; [by apply Z.eqb_eq|done].
Qed.

Lemma closed_in_found id owner d t rest :
  closed_in id d -> find_tickets id owner d = t :: rest ->
  Ticket.status t = Closed.
Proof.
  intros Hc H. apply find_tickets_head in H as (Hin & Hid & _). by apply Hc.
Qed.

(** ** Closed tickets *)

Lemma put_status_closed F now u id status notes w :
  closed_in id (db w) ->
  rejected w (put_status F now u id status notes w) /\
  (F (calls w) = None -> find_tickets id None (db w) <> [] ->
   validate_status status = [] ->
   (put_status F now u id status notes w).2 = closed_modify).
Proof.
  intros Hc. unfold put_status.
  apply (try_catch_wp _ _ (fun w' r =>
    (http r <> 200 /\ db w' = db w /\ uploads w' = uploads w) /\
    (F (calls w) = None -> find_tickets id None (db w) <> [] ->
     validate_status status = [] -> r = closed_modify))).
  unfold put_status_try.
  apply wp_bind, wp_when.
  { intros Hv. apply wp_send. split; [done|]. intros _ _ Hval.
    rewrite Hval in Hv. done. }
  intros _. apply wp_bind, wp_pool_query.
  { intros e He. simpl. split; [done|]. intros HF. congruence. }
  intros HF. destruct (find_tickets id None (db w)) as [|t rest] eqn:Hfound.
  { apply wp_send. split; [done|]. intros _ Hne. done. }
  rewrite (closed_in_found _ _ _ _ _ Hc Hfound). simpl.
  apply wp_send. done.
Qed.

Lemma post_notes_closed F now u id notes w :
  closed_in id (db w) ->
  rejected w (post_notes F now u id notes w) /\
  (F (calls w) = None -> find_tickets id (owner_filter u) (db w) <> [] ->
   validate_notes notes = [] ->
   (post_notes F now u id notes w).2 = closed_modify).
Proof.
  intros Hc. unfold post_notes.
  apply (try_catch_wp _ _ (fun w' r =>
    (http r <> 200 /\ db w' = db w /\ uploads w' = uploads w) /\
    (F (calls w) = None -> find_tickets id (owner_filter u) (db w) <> [] ->
     validate_notes notes = [] -> r = closed_modify))).
  unfold post_notes_try.
  apply wp_bind, wp_when.
  { intros Hv. apply wp_send. split; [done|]. intros _ _ Hval.
    rewrite Hval in Hv. done. }
  intros _. apply wp_bind, wp_pool_query.
  { intros e He. simpl. split; [done|]. intros HF. congruence. }
  intros HF. destruct (find_tickets id (owner_filter u) (db w)) as [|t rest] eqn:Hfound.
  { apply wp_send. split; [done|]. intros _ Hne. done. }
  rewrite (closed_in_found _ _ _ _ _ Hc Hfound). simpl.
  apply wp_send. done.
Qed.

Lemma delete_ticket_closed F u id w :
  closed_in id (db w) ->
  rejected w (delete_ticket F u id w) /\
  (F (calls w) = None -> find_tickets id (owner_filter u) (db w) <> [] ->
   (delete_ticket F u id w).2 = closed_delete).
Proof.
  intros Hc. unfold delete_ticket.
  apply (try_catch_wp _ _ (fun w' r =>
    (http r <> 200 /\ db w' = db w /\ uploads w' = uploads w) /\
    (F (calls w) = None -> find_tickets id (owner_filter u) (db w) <> [] ->
     r = closed_delete))).
  unfold delete_ticket_try.
  apply wp_bind, wp_pool_query.
  { intros e He. simpl. split; [done|]. intros HF. congruence. }
  intros HF. destruct (find_tickets id (owner_filter u) (db w)) as [|t rest] eqn:Hfound.
  { apply wp_send. split; [done|]. intros _ Hne. done. }
  rewrite (closed_in_found _ _ _ _ _ Hc Hfound). simpl.
  apply wp_send. done.
Qed.

(** ** The single-ticket routes without driver faults *)

Ltac run_no_faults :=
  unfold try_catch, mbind, handler_bind, mret, handler_ret, pool_execute,
    driver_call, no_faults, select_ticket, select_updates, query, send; simpl.

Lemma find_tickets_exists id owner d t rest :
  find_tickets id owner d = t :: rest ->
  existsb (fun x => Ticket.id x =? id) (tickets d) = true.
Proof.
  intros (Hin & Hid & _)%find_tickets_head. apply existsb_exists.
  exists t. split; [done|]. by apply Z.eqb_eq.
Qed.

Lemma not_closed_decide (t : Ticket.t) :
  Ticket.status t <> Closed -> bool_decide (Ticket.status t = Closed) = false.
Proof. intros H. by apply bool_decide_eq_false. Qed.

Lemma get_ticket_found u id w t rest :
  find_tickets id (owner_filter u) (db w) = t :: rest ->
  (get_ticket no_faults u id w).2 = json (TicketDetail t (updates_of id true (db w))).
Proof.
  intros Hf. unfold get_ticket, get_ticket_try. run_no_faults.
  rewrite Hf. by run_no_faults.
Qed.

Lemma get_history_found u id w t rest :
  find_tickets id (owner_filter u) (db w) = t :: rest ->
  (get_history no_faults u id w).2 = json (History (updates_of id false (db w))).
Proof.
  intros Hf. unfold get_history, get_history_try. run_no_faults.
  rewrite Hf. by run_no_faults.
Qed.

Lemma post_notes_open now u id notes w t rest :
  find_tickets id (owner_filter u) (db w) = t :: rest ->
  Ticket.status t <> Closed ->
  validate_notes notes = [] ->
  let r := post_notes no_faults now u id notes w in
  r.2 = json (Message "Note added successfully") /\
  db r.1 = rows_with_note now u id notes (autos w) (db w).
Proof.
  intros Hf Hopen Hval r. subst r. unfold post_notes, post_notes_try.
  rewrite Hval. run_no_faults. rewrite Hf.
  rewrite (not_closed_decide _ Hopen). run_no_faults.
  unfold insert_update. rewrite (find_tickets_exists _ _ _ _ _ Hf). done.
Qed.

Lemma delete_ticket_open u id w t rest :
  find_tickets id (owner_filter u) (db w) = t :: rest ->
  Ticket.status t <> Closed ->
  photo_removable t w ->
  let r := delete_ticket no_faults u id w in
  r.2 = json (Message "Ticket deleted successfully") /\
  db r.1 = rows_without id (db w) /\
  (forall p, truthy (Ticket.photo_url t) = Some p -> uploads r.1 !! p = None).
Proof.
  intros Hf Hopen Hphoto r. subst r. unfold delete_ticket, delete_ticket_try.
  run_no_faults. rewrite Hf. rewrite (not_closed_decide _ Hopen). run_no_faults.
  destruct (truthy (Ticket.photo_url t)) as [p|] eqn:Hp; run_no_faults.
  - specialize (Hphoto p Hp).
    unfold get_world, when, existsSync, unlinkSync. simpl.
    destruct (uploads w !! p) as [[]|] eqn:Hup; simpl; rewrite ?Hup; simpl.
    + split; [done|]. split; [done|]. intros q [= <-]. apply lookup_delete_eq.
    + done.
    + split; [done|]. split; [done|]. by intros q [= <-].
  - done.
Qed.

Lemma delete_ticket_stuck u id w t rest p :
  find_tickets id (owner_filter u) (db w) = t :: rest ->
  Ticket.status t <> Closed ->
  truthy (Ticket.photo_url t) = Some p ->
  uploads w !! p = Some Stuck ->
  let r := delete_ticket no_faults u id w in
  r.2 = internal_error /\ db r.1 = db w /\ uploads r.1 = uploads w.
Proof.
  intros Hf Hopen Hp Hup r. subst r. unfold delete_ticket, delete_ticket_try.
  run_no_faults. rewrite Hf. rewrite (not_closed_decide _ Hopen). run_no_faults.
  rewrite Hp. run_no_faults.
  unfold get_world, when, existsSync, unlinkSync. simpl.
  rewrite Hup. simpl. by rewrite Hup.
Qed.

Lemma find_tickets_rows_without id owner d :
  find_tickets id owner (rows_without id d) = [].
Proof.
  unfold find_tickets, rows_without. simpl.
  induction (tickets d) as [|t l IH]; simpl; [done|].
  destruct (Ticket.id t =? id) eqn:E; simpl; [done|].
  by rewrite E.
Qed.

Lemma updates_rows_without id d :
  List.filter (fun x => Update.ticket_id x =? id) (ticket_updates (rows_without id d)) = [].
Proof.
  unfold rows_without. simpl.
  induction (ticket_updates d) as [|x l IH]; simpl; [done|].
  destruct (Update.ticket_id x =? id) eqn:E; simpl; [done|].
  by rewrite E.
Qed.

(** ** The list route *)

Lemma in_insert_by {A} (before : A -> A -> bool) (x y : A) (l : list A) :
  In x (insert_by before y l) <-> x = y \/ In x l.
Proof.
  induction l as [|z l IH]; simpl; [intuition congruence|].
  destruct (before z y); simpl; [rewrite IH|]; intuition congruence.
Qed.

Lemma in_sort_by {A} (before : A -> A -> bool) (x : A) (l : list A) :
  In x (sort_by before l) <-> In x l.
Proof.
  induction l as [|y l IH]; simpl; [done|].
  rewrite in_insert_by, IH. intuition congruence.
Qed.

Lemma in_take {A} (x : A) (n : nat) (l : list A) : In x (take n l) -> In x l.
Proof.
  revert n. induction l as [|y l IH]; intros [|n]; simpl; try done.
  intros [->|H]; [by left|right; eauto].
Qed.

Lemma in_drop {A} (x : A) (n : nat) (l : list A) : In x (drop n l) -> In x l.
Proof.
  revert n. induction l as [|y l IH]; intros [|n]; simpl; try done.
  intros H. right. eauto.
Qed.



Lemma is_admin_false u : User.role u <> Some admin -> is_admin u = false.
Proof. unfold is_admin. by destruct (User.role u) as [[]|]. Qed.

(** For a caller who is not an admin the first condition is the owner. *)
Lemma list_where_owner Number u q t :
  is_admin u = false ->
  where_sql (list_where Number u q) t = true ->
  Ticket.created_by t = User.id u.
Proof.
  intros Hu. unfold list_where. rewrite Hu. simpl.
  intros [H _]%andb_true_iff. by apply Z.eqb_eq.
Qed.

(** The rows of a list response are rows of the table that satisfy the
    [WHERE] clause. *)
Lemma get_tickets_rows Number F u q w rows p t :
  body (get_tickets Number F u q w).2 = TicketList rows p ->
  In t rows ->
  In t (tickets (db w)) /\ where_sql (list_where Number u q) t = true.
Proof.
  unfold get_tickets.
  apply (try_catch_wp _ _ (fun w' r =>
    body r = TicketList rows p -> In t rows ->
    In t (tickets (db w)) /\ where_sql (list_where Number u q) t = true)).
  unfold get_tickets_try.
  apply wp_bind, wp_pool_query; [done|]. intros _.
  apply wp_bind, wp_pool_query; [done|]. intros _.
  apply wp_send. simpl. intros [= <- _] Hin.
  apply in_take, in_drop, in_sort_by, filter_In in Hin. done.
Qed.

(** A caller who is not an admin is listed own tickets only. *)
Lemma list_only_own Number F u q w rows p :
  is_admin u = false ->
  body (get_tickets Number F u q w).2 = TicketList rows p ->
  Forall (fun t => Ticket.created_by t = User.id u) rows.
Proof.
  intros Hu Hbody. apply List.Forall_forall. intros t Hin.
  destruct (get_tickets_rows Number F u q w rows p t Hbody Hin) as [_ Hw].
  by apply (list_where_owner Number u q).
Qed.

(** ** Runs of creations *)

Lemma creations_S isISO8601 now u b file n w0 :
  creations isISO8601 now u b file (S n) w0 =
  (post_ticket isISO8601 no_faults now u b file
     (creations isISO8601 now u b file n w0)).1.
Proof. reflexivity. Qed.

Lemma creations_numbered isISO8601 now u b file dep w0 (n : nat) :
  validate_create isISO8601 b = [] ->
  department_is u b dep ->
  tickets (db w0) = [] ->
  Z.of_nat n <= 10000 ->
  numbered (year now) n (db (creations isISO8601 now u b file n w0)).
Proof.
  intros Hval Hdep Hempty. induction n as [|n IH]; intros Hn.
  - simpl. unfold numbered. by rewrite Hempty.
  - rewrite creations_S.
    apply (create_in_sequence isISO8601 now u b file dep); [done|done|lia|].
    apply IH. lia.
Qed.

(** * The claims *)

(** C1 (defect of the code).  Ticket numbers of a year are [TKT<Y><seq>]
    with [seq] padded to four digits, starting at 1 and growing by one per
    creation.  The allocator keeps this up to ticket 10000 of a year and
    no further: after 10000 creations on empty tables the row read back as
    the greatest of the year is number 9999 (byte order puts 9999 above
    10000), so creation 10001 computes the sequence 10000 again, runs into
    the UNIQUE key and is answered 409, with the rows left as they were; it
    never gets the sequence 10001. *)
Theorem C1_sequence_stalls_after_10000 isISO8601 now u b file dep w0 :
  validate_create isISO8601 b = [] ->
  department_is u b dep ->
  tickets (db w0) = [] ->
  let w := creations isISO8601 now u b file (Z.to_nat 10000) w0 in
  let r := post_ticket isISO8601 no_faults now u b file w in
  map Ticket.ticket_number (tickets (db w)) = year_numbers (year now) (Z.to_nat 10000) /\
  last_ticket_number (year now) (db w) = [format_ticket_number (year now) 9999] /\
  next_ticket_number (year now) (last_ticket_number (year now) (db w)) =
    format_ticket_number (year now) 10000 /\
  r.2 = conflict /\ db r.1 = db w.
Proof.
  intros Hval Hdep Hempty w r.
  assert (Hnum : numbered (year now) (Z.to_nat 10000) (db w)).
  { apply (creations_numbered isISO8601 now u b file dep); [done|done|done|lia]. }
  assert (Hlast : last_ticket_number (year now) (db w) =
                  [format_ticket_number (year now) 9999]).
  { rewrite (last_ticket_number_numbered _ _ _ Hnum).
    by rewrite greatest_year_numbers_10000. }
  assert (Hnext : next_ticket_number (year now) (last_ticket_number (year now) (db w)) =
                  format_ticket_number (year now) 10000).
  { rewrite Hlast. unfold next_ticket_number.
    by rewrite (next_count_after (year now) 9999) by lia. }
  split; [apply Hnum|]. split; [done|]. split; [done|].
  pose proof (post_ticket_no_faults isISO8601 now u b file w dep Hval Hdep) as H.
  simpl in H. rewrite Hnext in H.
  replace (number_taken (format_ticket_number (year now) 10000) (db w)) with true in H;
    [done|].
  symmetry. apply number_taken_iff. destruct Hnum as [_ ->].
  apply in_year_numbers. exists 10000. split; [lia|done].
Qed.

Lemma C1_sequence_stalls_witness :
  validate_create (fun _ => true) (sample_body Absent) = [] /\
  department_is sample_owner (sample_body Absent) "Sales" /\
  tickets (db empty_world) = [] /\
  (post_ticket (fun _ => true) no_faults sample_now sample_owner (sample_body Absent) None
     (creations (fun _ => true) sample_now sample_owner (sample_body Absent) None
        (Z.to_nat 10000) empty_world)).2 = conflict.
Proof.
  assert (H1 : validate_create (fun _ => true) (sample_body Absent) = [])
    by reflexivity.
  assert (H2 : department_is sample_owner (sample_body Absent) "Sales")
    by (left; split; reflexivity).
  assert (H3 : tickets (db empty_world) = []) by reflexivity.
  split; [exact H1|]. split; [exact H2|]. split; [exact H3|].
  exact (proj1 (proj2 (proj2 (proj2
    (C1_sequence_stalls_after_10000 (fun _ => true) sample_now sample_owner
       (sample_body Absent) None "Sales" empty_world H1 H2 H3))))).
Defined.

(** C2 (defect of the code).  A status change must write the new status
    and its audit row together or not at all.  The route issues the UPDATE
    and the INSERT as two autocommit statements: when the INSERT rejects
    (here the third driver call of the request is lost), the caller gets
    500, the ticket shows the new status and the audit trail has no row
    for it. *)
Theorem C2_status_written_without_audit_row :
  let w := sample_world Pending None ∅ in
  let r := put_status (fault_at 2 connection_lost) sample_now sample_admin 1
             (Some "Done") (Some "fan replaced") w in
  r.2 = internal_error /\
  map Ticket.status (tickets (db r.1)) = [Done] /\
  map Ticket.status (tickets (db w)) = [Pending] /\
  ticket_updates (db r.1) = ticket_updates (db w).
Proof. vm_compute. done. Qed.

(** C3, as stated, fails: a note on a closed ticket by a caller of role
    [user] who did not create the ticket is answered "not found", not with
    the forbidden-state error. *)
Lemma C3_not_found_before_closed :
  let w := sample_world Closed None ∅ in
  closed_in 1 (db w) /\
  (post_notes no_faults sample_now sample_stranger 1 (Some "any news?") w).2 = not_found /\
  not_found <> closed_modify.
Proof.
  split; [|split; [reflexivity|discriminate]].
  intros t [<-|[]] _. reflexivity.
Qed.

(** C3 (amended).  On a closed ticket a status change, a note and a
    deletion never succeed and change neither rows nor files, whoever calls
    and whatever the driver does; the answer is the forbidden-state error
    whenever the request passes the validators and the lookup finds the
    ticket for the caller (otherwise it is the validation, not-found or
    internal error that comes first). *)
Theorem C3_closed_ticket_rejects_changes F now u id status notes w :
  closed_in id (db w) ->
  (rejected w (put_status F now u id status notes w) /\
   rejected w (post_notes F now u id notes w) /\
   rejected w (delete_ticket F u id w)) /\
  (F (calls w) = None ->
   (find_tickets id None (db w) <> [] -> validate_status status = [] ->
    (put_status F now u id status notes w).2 = closed_modify) /\
   (find_tickets id (owner_filter u) (db w) <> [] -> validate_notes notes = [] ->
    (post_notes F now u id notes w).2 = closed_modify) /\
   (find_tickets id (owner_filter u) (db w) <> [] ->
    (delete_ticket F u id w).2 = closed_delete)).
Proof.
  intros Hc.
  destruct (put_status_closed F now u id status notes w Hc) as [R1 E1].
  destruct (post_notes_closed F now u id notes w Hc) as [R2 E2].
  destruct (delete_ticket_closed F u id w Hc) as [R3 E3].
  split; [done|]. intros HF. repeat split; auto.
Qed.

Lemma C3_closed_ticket_witness :
  closed_in 1 (db (sample_world Closed None ∅)) /\
  (put_status no_faults sample_now sample_admin 1 (Some "Done") None
     (sample_world Closed None ∅)).2 = closed_modify /\
  (post_notes no_faults sample_now sample_owner 1 (Some "any news?")
     (sample_world Closed None ∅)).2 = closed_modify /\
  (delete_ticket no_faults sample_owner 1 (sample_world Closed None ∅)).2 = closed_delete.
Proof.
  assert (Hc : closed_in 1 (db (sample_world Closed None ∅))).
  { intros t [<-|[]] _. reflexivity. }
  split; [exact Hc|].
  pose proof (proj2 (C3_closed_ticket_rejects_changes no_faults sample_now
    sample_admin 1 (Some "Done") None _ Hc) eq_refl) as Ha.
  pose proof (proj2 (C3_closed_ticket_rejects_changes no_faults sample_now
    sample_owner 1 None (Some "any news?") _ Hc) eq_refl) as Ho.
  split; [apply Ha; [discriminate|reflexivity]|].
  split; [apply Ho; [discriminate|reflexivity]|].
  apply Ho. discriminate.
Defined.

(** C4.  A creation answers 201 exactly when it has committed the new
    ticket, with status Pending, together with one update row for it of
    type status_change, no old value, new value "Pending" and notes
    "Ticket created"; in every other case (validation, a rejected driver
    call at any point, the UNIQUE key) neither row is in the tables
    afterwards.  The two INSERTs are issued on the handler's connection
    after [beginTransaction], so they stay uncommitted until [commit]; as
    the driver may reject any call, this covers the committed rows at
    every point between the two INSERTs.  A valid request whose number is
    free is answered 201 when the driver answers every call. *)
Theorem C4_ticket_and_first_update_together isISO8601 F now u b file w :
  let r := post_ticket isISO8601 F now u b file w in
  ((http r.2 = 201 /\
    exists t a,
      tickets (db r.1) = (tickets (db w) ++ [t])%list /\
      ticket_updates (db r.1) = (ticket_updates (db w) ++ [a])%list /\
      Ticket.status t = Pending /\
      Update.ticket_id a = Ticket.id t /\
      Update.update_type a = status_change /\
      Update.old_value a = None /\
      Update.new_value a = Some "Pending" /\
      Update.notes a = Some "Ticket created")
   \/ (http r.2 <> 201 /\ db r.1 = db w)) /\
  (forall dep,
     (forall n, F n = None) ->
     validate_create isISO8601 b = [] ->
     department_is u b dep ->
     number_taken (next_ticket_number (year now)
                     (last_ticket_number (year now) (db w))) (db w) = false ->
     http r.2 = 201).
Proof.
  intros r. subst r. split.
  - destruct (post_ticket_cases isISO8601 F now u b file w)
      as [(dep & _ & _ & _ & -> & ->)|[-> Hr]].
    + left. split; [done|]. unfold created_by_request, created_rows.
      eexists _, _. simpl. repeat split.
    + right. split; [|done]. destruct Hr as [->|[->| ->]]; done.
  - intros dep HF Hval Hdep Hfree.
    pose proof (post_ticket_answered isISO8601 F now u b file w dep HF Hval Hdep) as H.
    simpl in H. rewrite Hfree in H. by destruct H as [-> _].
Qed.

Lemma C4_created_together_witness :
  http (post_ticket (fun _ => true) no_faults sample_now sample_owner
          (sample_body Absent) None empty_world).2 = 201 /\
  (exists t a,
      tickets (db (post_ticket (fun _ => true) no_faults sample_now sample_owner
                     (sample_body Absent) None empty_world).1) = [t] /\
      ticket_updates (db (post_ticket (fun _ => true) no_faults sample_now sample_owner
                            (sample_body Absent) None empty_world).1) = [a] /\
      Ticket.status t = Pending /\
      Update.ticket_id a = Ticket.id t) /\
  http (post_ticket (fun _ => true) (fault_at 4 connection_lost) sample_now sample_owner
          (sample_body Absent) None empty_world).2 <> 201 /\
  db (post_ticket (fun _ => true) (fault_at 4 connection_lost) sample_now sample_owner
        (sample_body Absent) None empty_world).1 = db empty_world.
Proof.
  assert (H201 : http (post_ticket (fun _ => true) no_faults sample_now sample_owner
                         (sample_body Absent) None empty_world).2 = 201).
  { apply (proj2 (C4_ticket_and_first_update_together (fun _ => true) no_faults
      sample_now sample_owner (sample_body Absent) None empty_world) "Sales").
    - intros n. reflexivity.
    - reflexivity.
    - left. split; reflexivity.
    - reflexivity. }
  split; [exact H201|]. split.
  - destruct (proj1 (C4_ticket_and_first_update_together (fun _ => true) no_faults
      sample_now sample_owner (sample_body Absent) None empty_world))
      as [(_ & t & a & Ht & Ha & Hs & Hid & _)|[Hn _]].
    + exists t, a. split; [exact Ht|]. split; [exact Ha|]. split; [exact Hs|exact Hid].
    + destruct (Hn H201).
  - destruct (proj1 (C4_ticket_and_first_update_together (fun _ => true)
      (fault_at 4 connection_lost) sample_now sample_owner (sample_body Absent) None
      empty_world)) as [[H _]|H].
    + discriminate H.
    + exact H.
Defined.

(** C5.  For a caller who is not an admin the stored ticket (and the
    ticket of the 201 response) carries the caller's own department,
    whatever the body says about the department; two requests of the same
    caller that differ only in that field and both succeed end in the same
    tables and the same response. *)
Theorem C5_department_forced_for_non_admin isISO8601 F now u b d' file w :
  User.role u <> Some admin ->
  let r := post_ticket isISO8601 F now u b file w in
  let r' := post_ticket isISO8601 F now u (with_department d' b) file w in
  (http r.2 = 201 ->
   exists t n,
     tickets (db r.1) = (tickets (db w) ++ [t])%list /\
     Ticket.department t = User.department u /\
     r.2 = created_response (Ticket.id t) n (User.department u) b file) /\
  (http r.2 = 201 -> http r'.2 = 201 -> db r'.1 = db r.1 /\ r'.2 = r.2).
Proof.
  intros Hrole%is_admin_false r r'. subst r r'.
  assert (Hdep : forall b0 dep, department_is u b0 dep -> dep = User.department u).
  { intros b0 dep [[_ ->]|[H _]]; [done|congruence]. }
  destruct (post_ticket_cases isISO8601 F now u b file w)
    as [(dep & _ & Hd & _ & -> & ->)|[_ Hr]].
  - apply Hdep in Hd as ->. split.
    + intros _. unfold created_by_request, created_rows.
      eexists _, _. simpl. repeat split.
    + intros _.
      destruct (post_ticket_cases isISO8601 F now u (with_department d' b) file w)
        as [(dep' & _ & Hd' & _ & -> & ->)|[_ Hr']].
      * apply Hdep in Hd' as ->. done.
      * destruct Hr' as [->|[->| ->]]; done.
  - split; destruct Hr as [->|[->| ->]]; done.
Qed.

Lemma C5_department_forced_witness :
  User.role sample_owner <> Some admin /\
  exists t n,
    tickets (db (post_ticket (fun _ => true) no_faults sample_now sample_owner
                   (sample_body (Text "Finance")) None empty_world).1) =
      (tickets (db empty_world) ++ [t])%list /\
    Ticket.department t = "Sales" /\
    (post_ticket (fun _ => true) no_faults sample_now sample_owner
       (sample_body (Text "Finance")) None empty_world).2 =
      created_response (Ticket.id t) n "Sales" (sample_body (Text "Finance")) None.
Proof.
  assert (H : User.role sample_owner <> Some admin) by discriminate.
  split; [exact H|].
  exact (proj1 (C5_department_forced_for_non_admin (fun _ => true) no_faults
    sample_now sample_owner (sample_body (Text "Finance")) Absent None empty_world H)
    eq_refl).
Defined.

(** C6.  Every ticket in the list answered to a caller who is not an admin
    was created by that caller, for every combination of the query
    parameters status, department, search, created_by, page and limit. *)
Theorem C6_list_only_own_tickets Number F u q w rows p :
  User.role u <> Some admin ->
  body (get_tickets Number F u q w).2 = TicketList rows p ->
  Forall (fun t => Ticket.created_by t = User.id u) rows.
Proof. intros Hrole%is_admin_false. by apply list_only_own. Qed.

Lemma C6_list_only_own_witness :
  User.role sample_owner <> Some admin /\
  body (get_tickets (fun _ => Some 1) no_faults sample_owner
          (ListQuery.mk None None None None None (Some "1"))
          (sample_world Pending None ∅)).2 =
    TicketList [sample_ticket Pending None]
      {| current := 1; total := 1; totalItems := 1 |} /\
  Forall (fun t => Ticket.created_by t = User.id sample_owner)
    [sample_ticket Pending None].
Proof.
  assert (H : User.role sample_owner <> Some admin) by discriminate.
  assert (Hb : body (get_tickets (fun _ => Some 1) no_faults sample_owner
                       (ListQuery.mk None None None None None (Some "1"))
                       (sample_world Pending None ∅)).2 =
               TicketList [sample_ticket Pending None]
                 {| current := 1; total := 1; totalItems := 1 |})
    by reflexivity.
  split; [exact H|]. split; [exact Hb|].
  exact (C6_list_only_own_tickets _ _ _ _ _ _ _ H Hb).
Defined.

(** C7, as stated, fails: when the removal of the photo file throws, the
    request ends with 500 before the DELETE statement is issued and the
    ticket and its updates stay in the tables. *)
Lemma C7_failed_unlink_aborts_deletion :
  let w := sample_world Pending (Some sample_photo) stuck_files in
  let r := delete_ticket no_faults sample_owner 1 w in
  r.2 = internal_error /\ db r.1 = db w.
Proof. split; reflexivity. Qed.

(** C7 (amended).  For a ticket that is not closed and that the lookup
    finds for the caller, with the driver answering: the ticket row and its
    updates are deleted whether the ticket has no photo, the photo file is
    absent, or the file is there and is removed (and then the file is
    gone); when the removal of the file throws, the request is answered
    500 before the DELETE statement and rows and files stay as they were. *)
Theorem C7_deletion_and_photo_file u id w t rest :
  find_tickets id (owner_filter u) (db w) = t :: rest ->
  Ticket.status t <> Closed ->
  let r := delete_ticket no_faults u id w in
  (photo_removable t w ->
   r.2 = json (Message "Ticket deleted successfully") /\
   db r.1 = rows_without id (db w) /\
   find_tickets id None (db r.1) = [] /\
   List.filter (fun x => Update.ticket_id x =? id) (ticket_updates (db r.1)) = [] /\
   (forall p, truthy (Ticket.photo_url t) = Some p -> uploads r.1 !! p = None)) /\
  (forall p, truthy (Ticket.photo_url t) = Some p -> uploads w !! p = Some Stuck ->
   r.2 = internal_error /\ db r.1 = db w /\ uploads r.1 = uploads w).
Proof.
  intros Hf Hopen r. subst r. split.
  - intros Hp.
    destruct (delete_ticket_open u id w t rest Hf Hopen Hp) as (Hr & Hdb & Hup).
    rewrite Hdb. split; [done|]. split; [done|].
    split; [apply find_tickets_rows_without|].
    split; [apply updates_rows_without|done].
  - intros p Hp Hs. by apply (delete_ticket_stuck u id w t rest p).
Qed.

Lemma C7_deletion_witness :
  find_tickets 1 (owner_filter sample_owner)
    (db (sample_world Pending (Some sample_photo) removable_files)) =
    [sample_ticket Pending (Some sample_photo)] /\
  Ticket.status (sample_ticket Pending (Some sample_photo)) <> Closed /\
  photo_removable (sample_ticket Pending (Some sample_photo))
    (sample_world Pending (Some sample_photo) removable_files) /\
  (delete_ticket no_faults sample_owner 1
     (sample_world Pending (Some sample_photo) removable_files)).2 =
    json (Message "Ticket deleted successfully").
Proof.
  assert (H1 : find_tickets 1 (owner_filter sample_owner)
                 (db (sample_world Pending (Some sample_photo) removable_files)) =
               [sample_ticket Pending (Some sample_photo)]) by reflexivity.
  assert (H2 : Ticket.status (sample_ticket Pending (Some sample_photo)) <> Closed)
    by discriminate.
  assert (H3 : photo_removable (sample_ticket Pending (Some sample_photo))
                 (sample_world Pending (Some sample_photo) removable_files)).
  { intros p [= <-]. vm_compute. discriminate. }
  split; [exact H1|]. split; [exact H2|]. split; [exact H3|].
  exact (proj1 (proj1 (C7_deletion_and_photo_file sample_owner 1 _ _ _ H1 H2) H3)).
Defined.






(** C10.  The owner filter of the single-ticket routes is applied for the
    role [user] only, the list filters for every role but [admin].  So a
    caller of role [it] is listed only the tickets he created, yet, given
    the id, is shown any ticket, can add a note to any ticket that is not
    closed, and can delete any ticket that is not closed, whoever created
    it. *)
Theorem C10_it_role_scoping Number now u :
  User.role u = Some it ->
  (forall F q w rows p,
      body (get_tickets Number F u q w).2 = TicketList rows p ->
      Forall (fun t => Ticket.created_by t = User.id u) rows) /\
  owner_filter u = None /\
  (forall id w t rest,
      find_tickets id None (db w) = t :: rest ->
      (get_ticket no_faults u id w).2 =
        json (TicketDetail t (updates_of id true (db w))) /\
      (get_history no_faults u id w).2 = json (History (updates_of id false (db w))) /\
      (Ticket.status t <> Closed ->
       (forall notes, validate_notes notes = [] ->
          (post_notes no_faults now u id notes w).2 =
            json (Message "Note added successfully") /\
          db (post_notes no_faults now u id notes w).1 =
            rows_with_note now u id notes (autos w) (db w)) /\
       (photo_removable t w ->
          (delete_ticket no_faults u id w).2 =
            json (Message "Ticket deleted successfully") /\
          db (delete_ticket no_faults u id w).1 = rows_without id (db w)))).
Proof.
  intros Hrole.
  assert (Ho : owner_filter u = None) by (unfold owner_filter, is_user; by rewrite Hrole).
  split.
  { intros F q w rows p. apply list_only_own. unfold is_admin. by rewrite Hrole. }
  split; [done|].
  intros id w t rest Hf.
  assert (Hf' : find_tickets id (owner_filter u) (db w) = t :: rest) by (by rewrite Ho).
  split; [by apply (get_ticket_found u id w t rest)|].
  split; [by apply (get_history_found u id w t rest)|].
  intros Hopen. split.
  - intros notes Hval. by apply (post_notes_open now u id notes w t rest).
  - intros Hp.
    destruct (delete_ticket_open u id w t rest Hf' Hopen Hp) as (H1 & H2 & _). done.
Qed.

Lemma C10_it_role_witness :
  User.role sample_it = Some it /\
  (get_ticket no_faults sample_it 1 (sample_world Pending None ∅)).2 =
    json (TicketDetail (sample_ticket Pending None) [sample_update]) /\
  (delete_ticket no_faults sample_it 1 (sample_world Pending None ∅)).2 =
    json (Message "Ticket deleted successfully") /\
  body (get_tickets (fun _ => None) no_faults sample_it
          (ListQuery.mk None None None None None None)
          (sample_world Pending None ∅)).2 =
    TicketList [] {| current := 1; total := 1; totalItems := 0 |}.
Proof.
  assert (H : User.role sample_it = Some it) by reflexivity.
  split; [exact H|].
  pose proof (proj2 (proj2 (C10_it_role_scoping (fun _ => None) sample_now sample_it H))
                1 (sample_world Pending None ∅) (sample_ticket Pending None) []
                eq_refl) as (Hget & _ & Hopen).
  split; [exact Hget|].
  split; [|reflexivity].
  apply Hopen; [discriminate|]. intros p Hp. discriminate Hp.
Defined.

(** * Further properties of the routes *)

(** ** What each mutating route can do to the tables, whatever the driver does *)

Lemma wp_pool_execute {A} F (q : Sql A) Q w :
  (forall e, F (calls w) = Some e -> Q (tick w) (Thrown e)) ->
  (F (calls w) = None ->
   match q (db w) (autos w) with
   | (a, inl e) => Q (with_autos a (tick w)) (Thrown e)
   | (a, inr (d, x)) => Q (with_db d (with_autos a (tick w))) (Next x)
   end) ->
  wp (pool_execute F q) Q w.
Proof.
  intros Hf Hok. apply wp_driver_call; [done|]. intros H. specialize (Hok H).
  simpl. by destruct (q (db w) (autos w)) as [a [e|[d x]]].
Qed.

Lemma post_notes_cases F now u id notes w :
  let r := post_notes F now u id notes w in
  uploads r.1 = uploads w /\
  tickets_auto (autos r.1) = tickets_auto (autos w) /\
  (db r.1 = db w \/
   (exists t rest,
       find_tickets id (owner_filter u) (db w) = t :: rest /\
       Ticket.status t <> Closed /\
       validate_notes notes = [] /\
       r.2 = json (Message "Note added successfully") /\
       db r.1 = rows_with_note now u id notes (autos w) (db w))).
Proof.
  intros r. subst r. unfold post_notes.
  apply (try_catch_wp _ _ (fun w' r =>
    uploads w' = uploads w /\
    tickets_auto (autos w') = tickets_auto (autos w) /\
    (db w' = db w \/
     (exists t rest,
         find_tickets id (owner_filter u) (db w) = t :: rest /\
         Ticket.status t <> Closed /\
         validate_notes notes = [] /\
         r = json (Message "Note added successfully") /\
         db w' = rows_with_note now u id notes (autos w) (db w))))).
  unfold post_notes_try.
  apply wp_bind, wp_when; [intros _; apply wp_send; auto|].
  intros Hval. apply negb_false_iff, bool_decide_eq_true in Hval.
  apply wp_bind, wp_pool_query; [simpl; auto|]. intros _.
  destruct (find_tickets id (owner_filter u) (db w)) as [|t rest] eqn:Hf;
    [apply wp_send; simpl; auto|].
  destruct (bool_decide (Ticket.status t = Closed)) eqn:Hc;
    [apply wp_send; simpl; auto|].
  apply bool_decide_eq_false in Hc.
  apply wp_bind, wp_pool_execute; [simpl; auto|]. intros _.
  unfold insert_update. simpl. rewrite (find_tickets_exists _ _ _ _ _ Hf).
  apply wp_send. simpl. split; [done|]. split; [done|].
  right. exists t, rest. done.
Qed.

Lemma delete_ticket_cases F u id w :
  let r := delete_ticket F u id w in
  autos r.1 = autos w /\
  (db r.1 = db w \/
   (exists t rest,
       find_tickets id (owner_filter u) (db w) = t :: rest /\
       Ticket.status t <> Closed /\
       r.2 = json (Message "Ticket deleted successfully") /\
       db r.1 = rows_without id (db w))).
Proof.
  intros r. subst r. unfold delete_ticket.
  apply (try_catch_wp _ _ (fun w' r =>
    autos w' = autos w /\
    (db w' = db w \/
     (exists t rest,
         find_tickets id (owner_filter u) (db w) = t :: rest /\
         Ticket.status t <> Closed /\
         r = json (Message "Ticket deleted successfully") /\
         db w' = rows_without id (db w))))).
  unfold delete_ticket_try.
  apply wp_bind, wp_pool_query; [simpl; auto|]. intros _.
  destruct (find_tickets id (owner_filter u) (db w)) as [|t rest] eqn:Hf;
    [apply wp_send; simpl; auto|].
  destruct (bool_decide (Ticket.status t = Closed)) eqn:Hc;
    [apply wp_send; simpl; auto|].
  apply bool_decide_eq_false in Hc.
  apply wp_bind.
  apply (wp_mono _ (fun w1 o =>
    db w1 = db w /\ autos w1 = autos w /\
    match o with Sent _ => False | _ => True end)).
  { destruct (truthy (Ticket.photo_url t)) as [p|]; [|by apply wp_ret].
    unfold wp, mbind, handler_bind, get_world, when, existsSync, unlinkSync. simpl.
    destruct (uploads w !! p) as [[]|] eqn:Hup; simpl; rewrite ?Hup; simpl; done. }
  intros w1 [[]|r|e] (Hdb & Ha & Ho); simpl; [|done|auto].
  apply wp_bind, wp_pool_execute; [simpl; auto|]. intros _.
  unfold delete_ticket_row. simpl. apply wp_send. simpl.
  split; [done|]. right. exists t, rest. rewrite Hdb. done.
Qed.

Lemma ticket_exists_with_status id owner d t rest s now :
  find_tickets id owner d = t :: rest ->
  existsb (fun x => Ticket.id x =? id) (tickets (rows_with_status id s now d)) = true.
Proof.
  intros Hf. pose proof (find_tickets_exists _ _ _ _ _ Hf) as He.
  apply existsb_exists in He as (x & Hin & Hx). apply existsb_exists.
  eexists. split; [apply in_map, Hin|]. simpl. by destruct (_ && _).
Qed.

Lemma put_status_cases F now u id status notes w :
  let r := put_status F now u id status notes w in
  uploads r.1 = uploads w /\
  tickets_auto (autos r.1) = tickets_auto (autos w) /\
  (db r.1 = db w \/
   (exists t rest s,
       find_tickets id None (db w) = t :: rest /\
       Ticket.status t <> Closed /\
       status_of_name (text_of status) = Some s /\
       (db r.1 = rows_with_status id s now (db w) /\ r.2 = internal_error \/
        db r.1 = rows_with_audit now u id (Some (status_name (Ticket.status t)))
                   status notes (autos w) (rows_with_status id s now (db w)) /\
        r.2 = json (Message "Ticket status updated successfully") /\
        notes <> None))).
Proof.
  intros r. subst r. unfold put_status.
  set (Q := fun (w' : World) (r : Response) =>
    uploads w' = uploads w /\
    tickets_auto (autos w') = tickets_auto (autos w) /\
    (db w' = db w \/
     (exists t rest s,
         find_tickets id None (db w) = t :: rest /\
         Ticket.status t <> Closed /\
         status_of_name (text_of status) = Some s /\
         (db w' = rows_with_status id s now (db w) /\ r = internal_error \/
          db w' = rows_with_audit now u id (Some (status_name (Ticket.status t)))
                    status notes (autos w) (rows_with_status id s now (db w)) /\
          r = json (Message "Ticket status updated successfully") /\
          notes <> None)))).
  apply (try_catch_wp _ _ Q).
  assert (Hsame : forall w' r, uploads w' = uploads w -> autos w' = autos w ->
                               db w' = db w -> Q w' r).
  { intros w' r Hu Ha Hd. unfold Q. rewrite Hu, Ha. auto. }
  unfold put_status_try, validate_status.
  destruct (status_of_name (text_of status)) as [s|] eqn:Hs;
    [|apply wp_bind, wp_when; [intros _; by apply wp_send, Hsame|done]].
  apply wp_bind, wp_when; [done|]. intros _.
  apply wp_bind, wp_pool_query; [intros; by apply Hsame|]. intros _.
  destruct (find_tickets id None (db w)) as [|t rest] eqn:Hf;
    [by apply wp_send, Hsame|].
  destruct (bool_decide (Ticket.status t = Closed)) eqn:Hc;
    [by apply wp_send, Hsame|].
  apply bool_decide_eq_false in Hc.
  apply wp_bind, wp_pool_execute; [intros; by apply Hsame|]. intros _.
  unfold update_status. simpl.
  (* the UPDATE is committed: whatever stops the handler now answers 500 *)
  assert (Hstatus : forall w', uploads w' = uploads w -> autos w' = autos w ->
                               db w' = rows_with_status id s now (db w) ->
                               Q w' internal_error).
  { intros w' Hu Ha Hd. unfold Q. rewrite Hu, Ha. split; [done|]. split; [done|].
    right. exists t, rest, s. do 3 (split; [done|]). by left. }
  apply wp_bind, wp_pool_execute; [intros; by apply Hstatus|]. intros _.
  destruct notes as [n|]; [|by apply Hstatus].
  unfold insert_update. simpl.
  pose proof (ticket_exists_with_status id None (db w) t rest s now Hf) as He.
  unfold rows_with_status in He. simpl in He. rewrite He.
  apply wp_send. unfold Q. simpl. split; [done|]. split; [done|].
  right. exists t, rest, s. do 3 (split; [done|]). by right.
Qed.

(** ** The reading routes *)

Ltac same_state_done := unfold same_state; simpl; auto.

Lemma get_tickets_same_state Number F u q w :
  same_state w (get_tickets Number F u q w).1.
Proof.
  unfold get_tickets.
  apply (try_catch_wp _ _ (fun w' _ => same_state w w')).
  unfold get_tickets_try.
  apply wp_bind, wp_pool_query; [same_state_done|]. intros _.
  apply wp_bind, wp_pool_query; [same_state_done|]. intros _.
  apply wp_send. same_state_done.
Qed.

Lemma get_ticket_same_state F u id w : same_state w (get_ticket F u id w).1.
Proof.
  unfold get_ticket.
  apply (try_catch_wp _ _ (fun w' _ => same_state w w')).
  unfold get_ticket_try.
  apply wp_bind, wp_pool_query; [same_state_done|]. intros _.
  destruct (find_tickets id (owner_filter u) (db w));
    [apply wp_send; same_state_done|].
  apply wp_bind, wp_pool_query; [same_state_done|]. intros _.
  apply wp_send. same_state_done.
Qed.

Lemma get_history_same_state F u id w : same_state w (get_history F u id w).1.
Proof.
  unfold get_history.
  apply (try_catch_wp _ _ (fun w' _ => same_state w w')).
  unfold get_history_try.
  apply wp_bind, wp_pool_query; [same_state_done|]. intros _.
  destruct (find_tickets id (owner_filter u) (db w));
    [apply wp_send; same_state_done|].
  apply wp_bind, wp_pool_query; [same_state_done|]. intros _.
  apply wp_send. same_state_done.
Qed.

(** X1.  Listing tickets, showing one ticket and showing its history
    change nothing: rows, counters, files and the connection are as before,
    whatever the driver does. *)
Theorem reading_routes_change_nothing Number F u q id w :
  same_state w (get_tickets Number F u q w).1 /\
  same_state w (get_ticket F u id w).1 /\
  same_state w (get_history F u id w).1.
Proof.
  split; [apply get_tickets_same_state|].
  split; [apply get_ticket_same_state|apply get_history_same_state].
Qed.

Lemma later_asym a b : later a b = true -> later b a = false.
Proof. unfold later. lia. Qed.

Lemma ordered_insert_by {A} (before : A -> A -> bool) (x : A) (l : list A) :
  (forall a b, before a b = true -> before b a = false) ->
  ordered before l -> ordered before (insert_by before x l).
Proof.
  intros Hasym. induction l as [|y l IH]; simpl; [done|].
  intros [Hy Hl]. destruct (before y x) eqn:E.
  - simpl. split; [|by apply IH].
    destruct l as [|z l]; simpl; [by apply Hasym|].
    destruct (before z x); [done|by apply Hasym].
  - simpl. done.
Qed.

Lemma ordered_sort_by {A} (before : A -> A -> bool) (l : list A) :
  (forall a b, before a b = true -> before b a = false) ->
  ordered before (sort_by before l).
Proof.
  intros Hasym. induction l as [|x l IH]; simpl; [done|].
  by apply ordered_insert_by.
Qed.

Lemma in_updates_of x id desc d :
  In x (updates_of id desc d) <->
  In x (ticket_updates d) /\ Update.ticket_id x = id.
Proof.
  unfold updates_of. destruct desc; rewrite in_sort_by, filter_In, Z.eqb_eq; done.
Qed.

(** X2.  A 200 answer of GET /:id carries a ticket of the table with the
    asked id, created by the caller when the caller has role [user], and
    with it exactly the update rows of that ticket, newest first. *)
Theorem shown_ticket_is_the_asked_one F u id w t ups :
  body (get_ticket F u id w).2 = TicketDetail t ups ->
  In t (tickets (db w)) /\ Ticket.id t = id /\
  (User.role u = Some user -> Ticket.created_by t = User.id u) /\
  (forall x, In x ups <-> In x (ticket_updates (db w)) /\ Update.ticket_id x = id) /\
  newest_first_updates ups.
Proof.
  unfold get_ticket.
  apply (try_catch_wp _ _ (fun w' r =>
    body r = TicketDetail t ups ->
    In t (tickets (db w)) /\ Ticket.id t = id /\
    (User.role u = Some user -> Ticket.created_by t = User.id u) /\
    (forall x, In x ups <-> In x (ticket_updates (db w)) /\ Update.ticket_id x = id) /\
    newest_first_updates ups)).
  unfold get_ticket_try.
  apply wp_bind, wp_pool_query; [done|]. intros _.
  destruct (find_tickets id (owner_filter u) (db w)) as [|t0 rest] eqn:Hf;
    [by apply wp_send|].
  apply wp_bind, wp_pool_query; [done|]. intros _.
  apply wp_send. simpl. intros [= <- <-].
  apply find_tickets_head in Hf as (Hin & Hid & Ho).
  split; [done|]. split; [done|]. split.
  - intros Hrole. unfold owner_filter, is_user in Ho. by rewrite Hrole in Ho.
  - split; [intros x; apply (in_updates_of x id true (db w))|].
    apply ordered_sort_by. intros a b. apply later_asym.
Qed.

Lemma shown_ticket_witness :
  body (get_ticket no_faults sample_owner 1 (sample_world Pending None ∅)).2 =
    TicketDetail (sample_ticket Pending None) [sample_update] /\
  Ticket.id (sample_ticket Pending None) = 1.
Proof.
  assert (H : body (get_ticket no_faults sample_owner 1 (sample_world Pending None ∅)).2 =
              TicketDetail (sample_ticket Pending None) [sample_update]) by reflexivity.
  split; [exact H|].
  exact (proj1 (proj2 (shown_ticket_is_the_asked_one _ _ _ _ _ _ H))).
Defined.

(** ** Tickets outside the caller's scope *)

Ltac run_handler :=
  unfold try_catch, mbind, handler_bind, mret, handler_ret, pool_execute,
    driver_call, select_ticket, select_updates, query, send, server_error; simpl.

Lemma get_ticket_missing F u id w :
  find_tickets id (owner_filter u) (db w) = [] ->
  get_ticket F u id w =
    (tick w, match F (calls w) with Some _ => internal_error | None => not_found end).
Proof.
  intros Hf. unfold get_ticket, get_ticket_try. run_handler.
  destruct (F (calls w)); simpl; [done|]. by rewrite Hf.
Qed.

Lemma get_history_missing F u id w :
  find_tickets id (owner_filter u) (db w) = [] ->
  get_history F u id w =
    (tick w, match F (calls w) with Some _ => internal_error | None => not_found end).
Proof.
  intros Hf. unfold get_history, get_history_try. run_handler.
  destruct (F (calls w)); simpl; [done|]. by rewrite Hf.
Qed.

Lemma delete_ticket_missing F u id w :
  find_tickets id (owner_filter u) (db w) = [] ->
  delete_ticket F u id w =
    (tick w, match F (calls w) with Some _ => internal_error | None => not_found end).
Proof.
  intros Hf. unfold delete_ticket, delete_ticket_try. run_handler.
  destruct (F (calls w)); simpl; [done|]. by rewrite Hf.
Qed.

Lemma post_notes_missing F now u id notes w :
  find_tickets id (owner_filter u) (db w) = [] ->
  validate_notes notes = [] ->
  post_notes F now u id notes w =
    (tick w, match F (calls w) with Some _ => internal_error | None => not_found end).
Proof.
  intros Hf Hv. unfold post_notes, post_notes_try. rewrite Hv. run_handler.
  destruct (F (calls w)); simpl; [done|]. by rewrite Hf.
Qed.

Lemma post_notes_invalid F now u id notes w :
  validate_notes notes <> [] ->
  post_notes F now u id notes w = (w, status_json 400 (Errors (validate_notes notes))).
Proof.
  intros Hv. unfold post_notes, post_notes_try. run_handler.
  by rewrite bool_decide_eq_false_2.
Qed.

Lemma find_tickets_foreign u id d :
  User.role u = Some user ->
  (forall t, In t (tickets d) -> Ticket.id t = id -> Ticket.created_by t <> User.id u) ->
  find_tickets id (owner_filter u) d = [].
Proof.
  intros Hrole Hforeign.
  destruct (find_tickets id (owner_filter u) d) as [|t rest] eqn:Hf; [done|].
  apply find_tickets_head in Hf as (Hin & Hid & Ho).
  unfold owner_filter, is_user in Ho. rewrite Hrole in Ho. simpl in Ho.
  by destruct (Hforeign t Hin Hid).
Qed.

(** X3.  To a caller of role [user] a ticket created by someone else looks
    exactly like a ticket that does not exist: showing it, showing its
    history, adding a note and deleting it are answered as they would be if
    the rows of that id were not in the table (404 when the driver
    answers), and nothing is changed. *)
Theorem foreign_ticket_looks_missing F now u id notes w :
  User.role u = Some user ->
  (forall t, In t (tickets (db w)) -> Ticket.id t = id ->
             Ticket.created_by t <> User.id u) ->
  let w0 := with_db (rows_without id (db w)) w in
  ((get_ticket F u id w).2 = (get_ticket F u id w0).2 /\
   (get_history F u id w).2 = (get_history F u id w0).2 /\
   (post_notes F now u id notes w).2 = (post_notes F now u id notes w0).2 /\
   (delete_ticket F u id w).2 = (delete_ticket F u id w0).2) /\
  (same_state w (post_notes F now u id notes w).1 /\
   same_state w (delete_ticket F u id w).1) /\
  (F (calls w) = None ->
   (get_ticket F u id w).2 = not_found /\
   (get_history F u id w).2 = not_found /\
   (validate_notes notes = [] -> (post_notes F now u id notes w).2 = not_found) /\
   (delete_ticket F u id w).2 = not_found).
Proof.
  intros Hrole Hforeign w0.
  pose proof (find_tickets_foreign u id (db w) Hrole Hforeign) as Hf.
  assert (Hf0 : find_tickets id (owner_filter u) (db w0) = [])
    by apply find_tickets_rows_without.
  rewrite (get_ticket_missing F u id w Hf), (get_ticket_missing F u id w0 Hf0).
  rewrite (get_history_missing F u id w Hf), (get_history_missing F u id w0 Hf0).
  rewrite (delete_ticket_missing F u id w Hf), (delete_ticket_missing F u id w0 Hf0).
  destruct (decide (validate_notes notes = [])) as [Hv|Hv].
  - rewrite (post_notes_missing F now u id notes w Hf Hv),
      (post_notes_missing F now u id notes w0 Hf0 Hv).
    simpl. split; [done|]. split; [by unfold same_state|].
    intros HF. by rewrite HF.
  - rewrite (post_notes_invalid F now u id notes w Hv),
      (post_notes_invalid F now u id notes w0 Hv).
    simpl. split; [done|]. split; [by unfold same_state|].
    intros HF. by rewrite HF.
Qed.

Lemma foreign_ticket_witness :
  User.role sample_stranger = Some user /\
  (get_ticket no_faults sample_stranger 1 (sample_world Pending None ∅)).2 = not_found /\
  (delete_ticket no_faults sample_stranger 1 (sample_world Pending None ∅)).2 = not_found.
Proof.
  assert (H1 : User.role sample_stranger = Some user) by reflexivity.
  assert (H2 : forall t, In t (tickets (db (sample_world Pending None ∅))) ->
               Ticket.id t = 1 -> Ticket.created_by t <> User.id sample_stranger).
  { intros t [<-|[]] _. discriminate. }
  split; [exact H1|].
  pose proof (proj2 (proj2 (foreign_ticket_looks_missing no_faults sample_now
    sample_stranger 1 None _ H1 H2)) eq_refl) as (Hg & _ & _ & Hd).
  split; [exact Hg|exact Hd].
Defined.

(** ** Status changes *)

Lemma status_of_name_inv x s : status_of_name x = Some s -> x = status_name s.
Proof.
  unfold status_of_name. intros H. apply find_some in H as [_ H].
  symmetry. by apply String.eqb_eq.
Qed.

Lemma status_of_text_inv status s :
  status_of_name (text_of status) = Some s -> status = Some (status_name s).
Proof.
  destruct status as [x|]; simpl; [|done]. by intros ->%status_of_name_inv.
Qed.

Lemma put_status_open now u id status notes w t rest s :
  find_tickets id None (db w) = t :: rest ->
  Ticket.status t <> Closed ->
  status_of_name (text_of status) = Some s ->
  let r := put_status no_faults now u id status notes w in
  match notes with
  | Some _ =>
      r.2 = json (Message "Ticket status updated successfully") /\
      db r.1 = rows_with_audit now u id (Some (status_name (Ticket.status t))) status
                 notes (autos w) (rows_with_status id s now (db w))
  | None =>
      r.2 = internal_error /\ db r.1 = rows_with_status id s now (db w)
  end.
Proof.
  intros Hf Hopen Hs r. subst r. unfold put_status, put_status_try, validate_status.
  rewrite Hs. run_no_faults. rewrite Hf, (not_closed_decide _ Hopen). run_no_faults.
  destruct notes as [n|]; [|done].
  unfold update_status, insert_update. simpl.
  pose proof (ticket_exists_with_status id None (db w) t rest s now Hf) as He.
  unfold rows_with_status in He. simpl in He. rewrite He. done.
Qed.

Lemma rows_with_status_at id s now d t :
  In t (tickets (rows_with_status id s now d)) -> Ticket.id t = id ->
  Ticket.status t = s.
Proof.
  unfold rows_with_status. simpl. intros (x & <- & Hin)%in_map_iff.
  destruct (Ticket.id x =? id) eqn:Hid; simpl.
  - destruct (bool_decide (Ticket.status x = s)) eqn:Hs; simpl; [|done].
    by apply bool_decide_eq_true in Hs.
  - intros H. apply Z.eqb_neq in Hid. done.
Qed.

Lemma rows_with_status_others id s now d :
  List.filter (fun t => negb (Ticket.id t =? id)) (tickets (rows_with_status id s now d)) =
  List.filter (fun t => negb (Ticket.id t =? id)) (tickets d).
Proof.
  unfold rows_with_status. simpl.
  induction (tickets d) as [|t l IH]; simpl; [done|].
  destruct (Ticket.id t =? id) eqn:Hid; simpl.
  - destruct (negb (bool_decide _)); simpl; by rewrite Hid.
  - by rewrite Hid, IH.
Qed.

(** X4.  A status change on a ticket that is not closed, with a status of
    the enumeration and the driver answering, goes from any status to any
    status (no order is enforced, the same status and [Closed] included):
    every row of that id then has the new status and the other tickets are
    as before.  With notes in the body the answer is 200 and exactly one
    update row is appended, of type status_change, by the caller, with the
    old and the new status name and the notes.  Without notes in the body
    the INSERT is given an undefined bind parameter, which the driver
    refuses: the status is changed all the same, no update row is written
    and the answer is 500. *)
Theorem status_change_effect now u id status notes w t rest s :
  find_tickets id None (db w) = t :: rest ->
  Ticket.status t <> Closed ->
  status_of_name (text_of status) = Some s ->
  let r := put_status no_faults now u id status notes w in
  (forall t', In t' (tickets (db r.1)) -> Ticket.id t' = id -> Ticket.status t' = s) /\
  List.filter (fun t' => negb (Ticket.id t' =? id)) (tickets (db r.1)) =
    List.filter (fun t' => negb (Ticket.id t' =? id)) (tickets (db w)) /\
  match notes with
  | Some n =>
      r.2 = json (Message "Ticket status updated successfully") /\
      ticket_updates (db r.1) =
        (ticket_updates (db w) ++
         [Update.mk (updates_auto (autos w)) id (User.id u) status_change
            (Some (status_name (Ticket.status t))) (Some (status_name s))
            (Some n) now])%list
  | None =>
      r.2 = internal_error /\
      ticket_updates (db r.1) = ticket_updates (db w)
  end.
Proof.
  intros Hf Hopen Hs r.
  pose proof (put_status_open now u id status notes w t rest s Hf Hopen Hs) as H.
  fold r in H. destruct notes as [n|]; destruct H as [Hr Hdb]; rewrite Hr, Hdb.
  - unfold rows_with_audit. simpl. split; [|split; [|split]].
    + intros t'. apply rows_with_status_at.
    + apply rows_with_status_others.
    + done.
    + by rewrite (status_of_text_inv _ _ Hs).
  - split; [|split; [|done]].
    + intros t'. apply rows_with_status_at.
    + apply rows_with_status_others.
Qed.

Lemma status_change_witness :
  find_tickets 1 None (db (sample_world Done None ∅)) = [sample_ticket Done None] /\
  Ticket.status (sample_ticket Done None) <> Closed /\
  status_of_name (text_of (Some "In Progress")) = Some InProgress /\
  (put_status no_faults sample_now sample_admin 1 (Some "In Progress")
     (Some "the fan fails again") (sample_world Done None ∅)).2 =
    json (Message "Ticket status updated successfully") /\
  (put_status no_faults sample_now sample_admin 1 (Some "In Progress") None
     (sample_world Done None ∅)).2 = internal_error.
Proof.
  assert (H1 : find_tickets 1 None (db (sample_world Done None ∅)) =
               [sample_ticket Done None]) by reflexivity.
  assert (H2 : Ticket.status (sample_ticket Done None) <> Closed) by discriminate.
  assert (H3 : status_of_name (text_of (Some "In Progress")) = Some InProgress)
    by reflexivity.
  split; [exact H1|]. split; [exact H2|]. split; [exact H3|]. split.
  - exact (proj1 (proj2 (proj2 (status_change_effect sample_now sample_admin 1
      (Some "In Progress") (Some "the fan fails again") _ _ _ _ H1 H2 H3)))).
  - exact (proj1 (proj2 (proj2 (status_change_effect sample_now sample_admin 1
      (Some "In Progress") None _ _ _ _ H1 H2 H3)))).
Defined.

(** ** Requests that fail validation *)

Lemma post_ticket_invalid isISO8601 F now u b file w :
  validate_create isISO8601 b <> [] ->
  post_ticket isISO8601 F now u b file w =
    (w, status_json 400 (Errors (validate_create isISO8601 b))).
Proof.
  intros Hv. unfold post_ticket, post_ticket_try. run_handler.
  by rewrite bool_decide_eq_false_2.
Qed.

Lemma put_status_invalid F now u id status notes w :
  status_of_name (text_of status) = None ->
  put_status F now u id status notes w =
    (w, status_json 400 (Errors [field_error "Invalid status" "status"])).
Proof.
  intros Hv. unfold put_status, put_status_try, validate_status. rewrite Hv.
  by run_handler.
Qed.

(** X5.  A request that fails the validators of its route is answered 400
    with the list of field errors before the driver is called at all: the
    world is exactly as it was.  The same holds for an admin who creates a
    ticket without naming a department. *)
Theorem invalid_requests_touch_nothing isISO8601 F now u id b file status notes w :
  (validate_create isISO8601 b <> [] ->
   post_ticket isISO8601 F now u b file w =
     (w, status_json 400 (Errors (validate_create isISO8601 b)))) /\
  (validate_create isISO8601 b = [] -> is_admin u = true ->
   (forall d, CreateBody.department b = Text d -> d = "") ->
   post_ticket isISO8601 F now u b file w =
     (w, status_json 400
           (Errors [field_error "Department is required for admin" "department"]))) /\
  (status_of_name (text_of status) = None ->
   put_status F now u id status notes w =
     (w, status_json 400 (Errors [field_error "Invalid status" "status"]))) /\
  ((notes = None \/ notes = Some "") ->
   post_notes F now u id notes w =
     (w, status_json 400 (Errors [field_error "Notes are required" "notes"]))).
Proof.
  split; [apply post_ticket_invalid|]. split; [|split].
  - intros Hv Ha Hd. unfold post_ticket, post_ticket_try, determine_department.
    rewrite Hv, Ha. run_handler.
    destruct (CreateBody.department b) as [|d|] eqn:E; [done| |done].
    by rewrite (Hd d eq_refl).
  - apply put_status_invalid.
  - intros Hn. rewrite post_notes_invalid; by destruct Hn as [-> | ->].
Qed.

Lemma invalid_requests_witness :
  status_of_name (text_of (Some "Reopened")) = None /\
  put_status no_faults sample_now sample_admin 1 (Some "Reopened") None
    (sample_world Pending None ∅) =
    (sample_world Pending None ∅,
     status_json 400 (Errors [field_error "Invalid status" "status"])).
Proof.
  assert (H : status_of_name (text_of (Some "Reopened")) = None) by reflexivity.
  split; [exact H|].
  exact (proj1 (proj2 (proj2 (invalid_requests_touch_nothing (fun _ => true)
    no_faults sample_now sample_admin 1 (sample_body Absent) None (Some "Reopened")
    None (sample_world Pending None ∅)))) H).
Defined.

(** ** The audit trail *)

(** X6.  The audit trail is append-only for creation, status change and
    note: whatever the driver does, the update rows after the request are
    the rows before it followed by at most one new row. *)
Theorem audit_trail_is_append_only isISO8601 F now u id b file status notes w :
  let grows (w' : World) :=
    exists l, ticket_updates (db w') = (ticket_updates (db w) ++ l)%list /\
              (length l <= 1)%nat in
  grows (post_ticket isISO8601 F now u b file w).1 /\
  grows (put_status F now u id status notes w).1 /\
  grows (post_notes F now u id notes w).1.
Proof.
  intros grows. subst grows. simpl. split; [|split].
  - destruct (post_ticket_cases isISO8601 F now u b file w)
      as [(dep & _ & _ & _ & _ & ->)|[-> _]].
    + eexists. split; [reflexivity|]. simpl. lia.
    + exists []. split; [by rewrite app_nil_r|simpl; lia].
  - destruct (put_status_cases F now u id status notes w)
      as (_ & _ & [->|(t & rest & s & _ & _ & _ & [[-> _]|[-> _]])]).
    + exists []. split; [by rewrite app_nil_r|simpl; lia].
    + exists []. split; [by rewrite app_nil_r|simpl; lia].
    + eexists. split; [reflexivity|]. simpl. lia.
  - destruct (post_notes_cases F now u id notes w)
      as (_ & _ & [->|(t & rest & _ & _ & _ & _ & ->)]).
    + exists []. split; [by rewrite app_nil_r|simpl; lia].
    + eexists. split; [reflexivity|]. simpl. lia.
Qed.

Lemma rows_with_status_rows id s now d :
  Forall2 (fun t t' => t' = t \/ (Ticket.id t = id /\ t' = Ticket.set_status s now t))
    (tickets d) (tickets (rows_with_status id s now d)).
Proof.
  unfold rows_with_status. simpl.
  induction (tickets d) as [|t l IH]; simpl; constructor; [|done].
  destruct (Ticket.id t =? id) eqn:Hid; simpl; [|by left].
  apply Z.eqb_eq in Hid. destruct (negb _); [by right|by left].
Qed.

Lemma Forall2_same_or {A} (P : A -> A -> Prop) (l : list A) :
  Forall2 (fun t t' => t' = t \/ P t t') l l.
Proof. induction l; constructor; auto. Qed.

(** X7.  A status change and a note never add, remove or reorder tickets,
    whatever the driver does: a note leaves the tickets table as it is, and
    after a status change every row is the row before it or, for rows of
    the asked id only, that row with status and [updated_at] set; the
    ticket number and every other column stay. *)
Theorem tickets_keep_their_columns F now u id status notes w :
  tickets (db (post_notes F now u id notes w).1) = tickets (db w) /\
  Forall2 (fun t t' =>
             t' = t \/
             (Ticket.id t = id /\
              exists s, status_of_name (text_of status) = Some s /\
                        t' = Ticket.set_status s now t))
    (tickets (db w)) (tickets (db (put_status F now u id status notes w).1)).
Proof.
  split.
  - destruct (post_notes_cases F now u id notes w)
      as (_ & _ & [->|(t & rest & _ & _ & _ & _ & ->)]); done.
  - destruct (put_status_cases F now u id status notes w)
      as (_ & _ & [->|(t & rest & s & _ & _ & Hs & [[-> _]|[-> _]])]).
    + apply Forall2_same_or.
    + eapply Forall2_impl; [apply rows_with_status_rows|].
      intros x y [->|[Hid ->]]; [by left|right; eauto].
    + unfold rows_with_audit. simpl.
      eapply Forall2_impl; [apply rows_with_status_rows|].
      intros x y [->|[Hid ->]]; [by left|right; eauto].
Qed.

(** ** Deletion *)

Lemma find_tickets_other id id' owner d :
  id' <> id ->
  find_tickets id' owner (rows_without id d) = find_tickets id' owner d.
Proof.
  intros Hne. unfold find_tickets, rows_without. simpl.
  induction (tickets d) as [|t l IH]; simpl; [done|].
  destruct (Ticket.id t =? id) eqn:Hid; simpl.
  - apply Z.eqb_eq in Hid. rewrite IH.
    replace (Ticket.id t =? id') with false by (symmetry; apply Z.eqb_neq; lia).
    done.
  - rewrite IH. done.
Qed.

Lemma history_rows_other id id' d :
  id' <> id ->
  history_rows id' (rows_without id d) = history_rows id' d.
Proof.
  intros Hne. unfold history_rows, rows_without. simpl.
  induction (ticket_updates d) as [|x l IH]; simpl; [done|].
  destruct (Update.ticket_id x =? id) eqn:Hid; simpl.
  - apply Z.eqb_eq in Hid. rewrite IH.
    replace (Update.ticket_id x =? id') with false by (symmetry; apply Z.eqb_neq; lia).
    done.
  - rewrite IH. done.
Qed.

(** X8.  Whatever the driver does, a deletion is all or nothing on the
    tables and exact: without the 200 answer the rows are as before; with
    it, no ticket of the asked id and none of its update rows is left
    (the cascade); and in either case the tickets of every other id and
    their update rows are untouched. *)
Theorem deletion_is_exact F u id w :
  let r := delete_ticket F u id w in
  (http r.2 <> 200 -> db r.1 = db w) /\
  (http r.2 = 200 ->
   find_tickets id None (db r.1) = [] /\ history_rows id (db r.1) = []) /\
  (forall id' owner, id' <> id ->
     find_tickets id' owner (db r.1) = find_tickets id' owner (db w) /\
     history_rows id' (db r.1) = history_rows id' (db w)).
Proof.
  intros r. subst r.
  destruct (delete_ticket_cases F u id w)
    as (_ & [Hdb|(t & rest & Hf & Hopen & Hr & Hdb)]).
  - rewrite Hdb. split; [done|]. split; [|done].
    intros H200. exfalso. revert H200 Hdb. unfold delete_ticket.
    apply (try_catch_wp _ _ (fun w' r => http r = 200 -> db w' = db w -> False)).
    unfold delete_ticket_try.
    apply wp_bind, wp_pool_query; [done|]. intros _.
    destruct (find_tickets id (owner_filter u) (db w)) as [|t rest] eqn:Hf;
      [by apply wp_send|].
    destruct (bool_decide (Ticket.status t = Closed)) eqn:Hc; [by apply wp_send|].
    apply wp_bind.
    apply (wp_mono _ (fun w1 o =>
      db w1 = db w /\ match o with Sent _ => False | _ => True end)).
    { destruct (truthy (Ticket.photo_url t)) as [p|]; [|by apply wp_ret].
      unfold wp, mbind, handler_bind, get_world, when, existsSync, unlinkSync. simpl.
      destruct (uploads w !! p) as [[]|] eqn:Hup; simpl; rewrite ?Hup; simpl; done. }
    intros w1 [[]|r|e] (Hdb1 & Ho); simpl; [|done|done].
    apply wp_bind, wp_pool_execute; [done|]. intros _.
    unfold delete_ticket_row. simpl. apply wp_send. simpl. intros _ Hrows.
    rewrite Hdb1 in Hrows.
    apply (f_equal tickets) in Hrows. simpl in Hrows.
    apply find_tickets_head in Hf as (Hin & Hid & _).
    rewrite <- Hrows in Hin. apply filter_In in Hin as [_ Hin].
    apply negb_true_iff, Z.eqb_neq in Hin. done.
  - rewrite Hdb, Hr. split; [done|]. split.
    + intros _. split; [apply find_tickets_rows_without|apply updates_rows_without].
    + intros id' owner Hne.
      split; [by apply find_tickets_other|by apply history_rows_other].
Qed.

(** ** Creation *)

Lemma last_ticket_number_other_years y d :
  (forall t, In t (tickets d) -> year (Ticket.created_at t) <> y) ->
  last_ticket_number y d = [].
Proof.
  intros H. unfold last_ticket_number.
  replace (List.filter _ (tickets d)) with (@nil Ticket.t); [done|].
  symmetry. induction (tickets d) as [|t l IH]; simpl; [done|].
  replace (year (Ticket.created_at t) =? y) with false.
  - apply IH. intros t' Ht'. apply H. by right.
  - symmetry. apply Z.eqb_neq. apply H. by left.
Qed.

(** X9.  The sequence restarts with every calendar year: when no ticket of
    the table was created in the current year, however many there are from
    other years, the number allocated is [TKT<year>0001], and a valid
    creation with the driver answering stores it unless that very number
    is in the table already. *)
Theorem first_ticket_of_a_year isISO8601 now u b file dep w :
  validate_create isISO8601 b = [] ->
  department_is u b dep ->
  (forall t, In t (tickets (db w)) -> year (Ticket.created_at t) <> year now) ->
  let number := "TKT" ++ Js.toString (year now) ++ "0001" in
  let r := post_ticket isISO8601 no_faults now u b file w in
  next_ticket_number (year now) (last_ticket_number (year now) (db w)) = number /\
  (number_taken number (db w) = false ->
   r.2 = created_response (tickets_auto (autos w)) number dep b file /\
   db r.1 = created_by_request now u dep b file (autos w) (db w)).
Proof.
  intros Hval Hdep Hyears number r. subst r.
  assert (Hnext : next_ticket_number (year now) (last_ticket_number (year now) (db w)) =
                  number)
    by (by rewrite last_ticket_number_other_years).
  split; [done|]. intros Hfree.
  pose proof (post_ticket_no_faults isISO8601 now u b file w dep Hval Hdep) as H.
  simpl in H. rewrite Hnext, Hfree in H. done.
Qed.

Lemma first_ticket_of_a_year_witness :
  validate_create (fun _ => true) (sample_body Absent) = [] /\
  department_is sample_owner (sample_body Absent) "Sales" /\
  (forall t, In t (tickets (db (sample_world Done None ∅))) ->
             year (Ticket.created_at t) <> 2026) /\
  next_ticket_number 2026 (last_ticket_number 2026 (db (sample_world Done None ∅))) =
    "TKT20260001".
Proof.
  assert (H1 : validate_create (fun _ => true) (sample_body Absent) = [])
    by reflexivity.
  assert (H2 : department_is sample_owner (sample_body Absent) "Sales")
    by (left; split; reflexivity).
  assert (H3 : forall t, In t (tickets (db (sample_world Done None ∅))) ->
               year (Ticket.created_at t) <> year {| year := 2026; instant := 1 |}).
  { intros t [<-|[]]. discriminate. }
  split; [exact H1|]. split; [exact H2|]. split; [exact H3|].
  exact (proj1 (first_ticket_of_a_year (fun _ => true) {| year := 2026; instant := 1 |}
    sample_owner (sample_body Absent) None "Sales" (sample_world Done None ∅) H1 H2 H3)).
Defined.

(** X10.  An admin files tickets for any department: with a non-empty
    department in the body, a valid request and the driver answering, the
    stored ticket and the 201 answer carry that department, not the
    admin's own. *)
Theorem admin_creates_for_named_department isISO8601 now u b file d w :
  is_admin u = true ->
  validate_create isISO8601 b = [] ->
  CreateBody.department b = Text d -> d <> "" ->
  let number := next_ticket_number (year now) (last_ticket_number (year now) (db w)) in
  number_taken number (db w) = false ->
  let r := post_ticket isISO8601 no_faults now u b file w in
  r.2 = created_response (tickets_auto (autos w)) number d b file /\
  tickets (db r.1) =
    (tickets (db w) ++ [created_ticket now u d b file (autos w) (db w)])%list /\
  Ticket.department (created_ticket now u d b file (autos w) (db w)) = d.
Proof.
  intros Ha Hval Hd Hne number Hfree r. subst r.
  assert (Hdep : department_is u b d) by (right; done).
  pose proof (post_ticket_no_faults isISO8601 now u b file w d Hval Hdep) as H.
  simpl in H. fold number in H. rewrite Hfree in H. destruct H as [-> ->]. done.
Qed.

Lemma admin_creates_witness :
  is_admin sample_admin = true /\
  validate_create (fun _ => true) (sample_body (Text "Finance")) = [] /\
  (post_ticket (fun _ => true) no_faults sample_now sample_admin
     (sample_body (Text "Finance")) None empty_world).2 =
    created_response 1 "TKT20250001" "Finance" (sample_body (Text "Finance")) None.
Proof.
  assert (H1 : is_admin sample_admin = true) by reflexivity.
  assert (H2 : validate_create (fun _ => true) (sample_body (Text "Finance")) = [])
    by reflexivity.
  split; [exact H1|]. split; [exact H2|].
  exact (proj1 (admin_creates_for_named_department (fun _ => true) sample_now
    sample_admin (sample_body (Text "Finance")) None "Finance" empty_world H1 H2
    eq_refl ltac:(discriminate) eq_refl)).
Defined.

Lemma filter_none {A} (f : A -> bool) (l : list A) :
  (forall x, In x l -> f x = false) -> List.filter f l = [].
Proof.
  induction l as [|x l IH]; simpl; [done|]. intros H.
  rewrite (H x) by (by left). apply IH. intros y Hy. apply H. by right.
Qed.

Lemma filter_all {A} (f : A -> bool) (l : list A) :
  (forall x, In x l -> f x = true) -> List.filter f l = l.
Proof.
  induction l as [|x l IH]; simpl; [done|]. intros H.
  rewrite (H x) by (by left). f_equal. apply IH. intros y Hy. apply H. by right.
Qed.

Lemma created_rows_find now u dep b file a d o :
  unused_id (tickets_auto a) d ->
  (forall uid, o = Some uid -> uid = User.id u) ->
  find_tickets (tickets_auto a) o (created_by_request now u dep b file a d) =
    [created_ticket now u dep b file a d].
Proof.
  intros [Hnew _] Ho. unfold find_tickets, created_by_request, created_rows. simpl.
  rewrite List.filter_app. simpl. rewrite Z.eqb_refl. simpl.
  rewrite filter_none.
  - destruct o as [uid|]; [|done]. by rewrite (Ho uid eq_refl), Z.eqb_refl.
  - intros x Hx. apply andb_false_iff. left. apply Z.eqb_neq. by apply Hnew.
Qed.

Lemma created_rows_history now u dep b file a d :
  unused_id (tickets_auto a) d ->
  history_rows (tickets_auto a) (created_by_request now u dep b file a d) =
    [created_update now u a].
Proof.
  intros [_ Hnew]. unfold history_rows, created_by_request, created_rows. simpl.
  rewrite List.filter_app. simpl. rewrite Z.eqb_refl. simpl.
  rewrite filter_none; [done|].
  intros x Hx. apply Z.eqb_neq. by apply Hnew.
Qed.

Lemma owner_filter_some u uid : owner_filter u = Some uid -> uid = User.id u.
Proof. unfold owner_filter. destruct (is_user u); by intros [= <-]. Qed.

(** X11.  What a creation stored is what its creator reads back: after a
    201 answer, with an id not in use before, GET /:id of the returned id
    by the creator shows the stored ticket, with status Pending, and a
    history of exactly one row, the status_change to "Pending". *)
Theorem created_ticket_is_read_back isISO8601 F now u b file w :
  unused_id (tickets_auto (autos w)) (db w) ->
  let r := post_ticket isISO8601 F now u b file w in
  http r.2 = 201 ->
  exists dep,
    department_is u b dep /\
    (get_ticket no_faults u (tickets_auto (autos w)) r.1).2 =
      json (TicketDetail (created_ticket now u dep b file (autos w) (db w))
              [created_update now u (autos w)]) /\
    (get_history no_faults u (tickets_auto (autos w)) r.1).2 =
      json (History [created_update now u (autos w)]).
Proof.
  intros Hnew r H201. subst r.
  destruct (post_ticket_cases isISO8601 F now u b file w)
    as [(dep & _ & Hdep & _ & Hr & Hdb)|[_ Hr]].
  - exists dep. split; [done|].
    pose proof (created_rows_find now u dep b file (autos w) (db w) (owner_filter u)
                  Hnew (owner_filter_some u)) as Hf.
    rewrite <- Hdb in Hf.
    pose proof (created_rows_history now u dep b file (autos w) (db w) Hnew) as Hh.
    rewrite <- Hdb in Hh. unfold history_rows in Hh.
    split.
    + rewrite (get_ticket_found u _ _ _ _ Hf). unfold updates_of. by rewrite Hh.
    + rewrite (get_history_found u _ _ _ _ Hf). unfold updates_of. by rewrite Hh.
  - exfalso. destruct Hr as [Hr|[Hr|Hr]]; rewrite Hr in H201; done.
Qed.

Lemma created_ticket_read_back_witness :
  unused_id (tickets_auto (autos empty_world)) (db empty_world) /\
  http (post_ticket (fun _ => true) no_faults sample_now sample_owner
          (sample_body Absent) None empty_world).2 = 201 /\
  exists dep,
    department_is sample_owner (sample_body Absent) dep /\
    (get_ticket no_faults sample_owner (tickets_auto (autos empty_world))
       (post_ticket (fun _ => true) no_faults sample_now sample_owner
          (sample_body Absent) None empty_world).1).2 =
      json (TicketDetail
              (created_ticket sample_now sample_owner dep (sample_body Absent) None
                 (autos empty_world) (db empty_world))
              [created_update sample_now sample_owner (autos empty_world)]) /\
    (get_history no_faults sample_owner (tickets_auto (autos empty_world))
       (post_ticket (fun _ => true) no_faults sample_now sample_owner
          (sample_body Absent) None empty_world).1).2 =
      json (History [created_update sample_now sample_owner (autos empty_world)]).
Proof.
  assert (H1 : unused_id (tickets_auto (autos empty_world)) (db empty_world))
    by (split; intros ? []).
  assert (H2 : http (post_ticket (fun _ => true) no_faults sample_now sample_owner
                       (sample_body Absent) None empty_world).2 = 201) by reflexivity.
  split; [exact H1|]. split; [exact H2|].
  exact (created_ticket_is_read_back (fun _ => true) no_faults sample_now sample_owner
           (sample_body Absent) None empty_world H1 H2).
Defined.

(** ** Closed is terminal *)

Lemma post_ticket_counter isISO8601 F now u b file w :
  let r := post_ticket isISO8601 F now u b file w in
  tickets_auto (autos w) <= tickets_auto (autos r.1) /\
  (http r.2 = 201 -> tickets_auto (autos r.1) = tickets_auto (autos w) + 1).
Proof.
  intros r. subst r. unfold post_ticket.
  apply (try_catch_wp _ _ (fun w' r =>
    tickets_auto (autos w) <= tickets_auto (autos w') /\
    (http r = 201 -> tickets_auto (autos w') = tickets_auto (autos w) + 1))).
  assert (Hcatch : forall e w', tickets_auto (autos w) <= tickets_auto (autos w') ->
            tickets_auto (autos w) <= tickets_auto (autos (post_ticket_catch e w').1) /\
            (http (post_ticket_catch e w').2 = 201 ->
             tickets_auto (autos (post_ticket_catch e w').1) = tickets_auto (autos w) + 1)).
  { intros e w' H. unfold post_ticket_catch, rollback_release.
    destruct (String.eqb _ _), (conn w'); simpl; split; done. }
  unfold post_ticket_try.
  apply wp_bind, wp_when; [intros _; apply wp_send; split; [lia|done]|]. intros _.
  apply wp_bind.
  eapply wp_mono; [apply determine_department_wp|].
  intros w1 [dep|r|e] [-> Hdep]; simpl; [|split; [lia|by rewrite Hdep]|done].
  apply wp_bind. unfold create_transaction.
  apply wp_bind, wp_driver_call; [intros; apply Hcatch; simpl; lia|intros _; simpl].
  apply wp_bind, wp_driver_call; [intros; apply Hcatch; simpl; lia|intros _; simpl].
  apply wp_bind, wp_driver_call; [intros; apply Hcatch; simpl; lia|intros _; simpl].
  apply wp_bind, wp_driver_call; [intros; apply Hcatch; simpl; lia|intros _; simpl].
  unfold insert_ticket. destruct (existsb _ _); [apply Hcatch; simpl; lia|simpl].
  apply wp_bind, wp_driver_call; [intros; apply Hcatch; simpl; lia|intros _; simpl].
  unfold insert_update. simpl. rewrite existsb_id_snoc by done. simpl.
  apply wp_bind, wp_driver_call; [intros; apply Hcatch; simpl; lia|intros _; simpl].
  apply wp_bind. unfold wp. simpl. split; [lia|done].
Qed.

Lemma sealed_same t h w w' :
  sealed t h w -> db w' = db w ->
  tickets_auto (autos w) <= tickets_auto (autos w') -> sealed t h w'.
Proof.
  intros (H1 & H2 & H3 & H4) Hdb Ha. unfold sealed. rewrite Hdb.
  repeat split; try done. intros t' Ht'. specialize (H3 t' Ht'). lia.
Qed.

Lemma sealed_closed t h w :
  sealed t h w -> Ticket.status t = Closed -> closed_in (Ticket.id t) (db w).
Proof. intros (_ & H2 & _) Hc t' Hin Hid. by rewrite (H2 t' Hin Hid). Qed.

Lemma sealed_created t h w w' now u dep b file :
  sealed t h w ->
  db w' = created_by_request now u dep b file (autos w) (db w) ->
  tickets_auto (autos w') = tickets_auto (autos w) + 1 ->
  sealed t h w'.
Proof.
  intros (H1 & H2 & H3 & H4) Hdb Ha. unfold sealed. rewrite Hdb, Ha.
  unfold created_by_request, created_rows, history_rows. simpl.
  pose proof (H3 t H1) as Hlt.
  split; [apply in_or_app; by left|]. split; [|split].
  - intros t' [Hin|[<-|[]]]%in_app_or Hid; [by apply H2|]. simpl in Hid. lia.
  - intros t' [Hin|[<-|[]]]%in_app_or; [specialize (H3 t' Hin); lia|simpl; lia].
  - rewrite List.filter_app. simpl.
    replace (tickets_auto (autos w) =? Ticket.id t) with false
      by (symmetry; apply Z.eqb_neq; lia).
    by rewrite app_nil_r.
Qed.

Lemma sealed_status t h w w' id s now :
  sealed t h w -> id <> Ticket.id t ->
  db w' = rows_with_status id s now (db w) ->
  tickets_auto (autos w') = tickets_auto (autos w) ->
  sealed t h w'.
Proof.
  intros (H1 & H2 & H3 & H4) Hne Hdb Ha. unfold sealed. rewrite Hdb, Ha.
  pose proof (rows_with_status_rows id s now (db w)) as Hrows.
  assert (Hin : forall t', In t' (tickets (rows_with_status id s now (db w))) ->
            exists x, In x (tickets (db w)) /\ Ticket.id x = Ticket.id t' /\
                      (Ticket.id x <> id -> t' = x)).
  { unfold rows_with_status. simpl. intros t' (x & <- & Hx)%in_map_iff.
    exists x. split; [done|].
    destruct (Ticket.id x =? id) eqn:E; simpl.
    - apply Z.eqb_eq in E. split; [by destruct (negb _)|done].
    - done. }
  split; [|split; [|split]].
  - unfold rows_with_status. simpl. apply in_map_iff. exists t. split; [|done].
    replace (Ticket.id t =? id) with false by (symmetry; apply Z.eqb_neq; lia). done.
  - intros t' Ht' Hid. destruct (Hin t' Ht') as (x & Hx & Hidx & Hsame).
    assert (x = t) by (apply H2; [done|lia]). subst x. apply Hsame. lia.
  - intros t' Ht'. destruct (Hin t' Ht') as (x & Hx & Hidx & _).
    specialize (H3 x Hx). lia.
  - done.
Qed.

Lemma sealed_update t h w w' (x : Update.t) :
  sealed t h w -> Update.ticket_id x <> Ticket.id t ->
  tickets (db w') = tickets (db w) ->
  ticket_updates (db w') = (ticket_updates (db w) ++ [x])%list ->
  tickets_auto (autos w') = tickets_auto (autos w) ->
  sealed t h w'.
Proof.
  intros (H1 & H2 & H3 & H4) Hne Ht Hu Ha. unfold sealed, history_rows.
  rewrite Ht, Hu, Ha. repeat split; try done.
  rewrite List.filter_app. simpl.
  replace (Update.ticket_id x =? Ticket.id t) with false
    by (symmetry; apply Z.eqb_neq; lia).
  by rewrite app_nil_r.
Qed.

Lemma sealed_without t h w w' id :
  sealed t h w -> id <> Ticket.id t ->
  db w' = rows_without id (db w) ->
  tickets_auto (autos w') = tickets_auto (autos w) ->
  sealed t h w'.
Proof.
  intros (H1 & H2 & H3 & H4) Hne Hdb Ha. unfold sealed. rewrite Hdb, Ha.
  split; [|split; [|split]].
  - unfold rows_without. simpl. apply filter_In. split; [done|].
    apply negb_true_iff, Z.eqb_neq. lia.
  - unfold rows_without. simpl. intros t' [Ht' _]%filter_In. by apply H2.
  - unfold rows_without. simpl. intros t' [Ht' _]%filter_In. by apply H3.
  - rewrite history_rows_other by lia. done.
Qed.

Lemma serve_keeps_sealed isISO8601 Number t h r w :
  Ticket.status t = Closed -> sealed t h w ->
  sealed t h (serve isISO8601 Number r w).1.
Proof.
  intros Hc Hs. unfold serve. change (sealed t h (restart w)) in Hs.
  generalize dependent (restart w). clear w. intros w Hs.
  pose proof (sealed_closed t h w Hs Hc) as Hclosed.
  destruct r as [F now u b file|F u q|F u id|F now u id status notes
                |F now u id notes|F u id|F u id]; simpl.
  - destruct (post_ticket_counter isISO8601 F now u b file w) as [Hle H201].
    destruct (post_ticket_cases isISO8601 F now u b file w)
      as [(dep & _ & _ & _ & Hr & Hdb)|[Hdb _]].
    + apply (sealed_created t h w _ now u dep b file); [done|done|].
      apply H201. by rewrite Hr.
    + by apply (sealed_same t h w).
  - destruct (get_tickets_same_state Number F u q w) as (Hdb & _ & Ha & _).
    apply (sealed_same t h w); [done|done|]. rewrite Ha. lia.
  - destruct (get_ticket_same_state F u id w) as (Hdb & _ & Ha & _).
    apply (sealed_same t h w); [done|done|]. rewrite Ha. lia.
  - destruct (put_status_cases F now u id status notes w)
      as (_ & Ha & [Hdb|(t0 & rest & s & Hf & Hopen & _ & Hcase)]).
    + apply (sealed_same t h w); [done|done|lia].
    + assert (Hne : id <> Ticket.id t).
      { intros ->. by rewrite (closed_in_found _ _ _ _ _ Hclosed Hf) in Hopen. }
      destruct Hcase as [[Hdb _]|[Hdb _]].
      * by apply (sealed_status t h w _ id s now).
      * set (w1 := with_db (rows_with_status id s now (db w)) w).
        assert (H1 : sealed t h w1) by (by apply (sealed_status t h w w1 id s now)).
        apply (sealed_update t h w1 _
                 (Update.mk (updates_auto (autos w)) id (User.id u) status_change
                    (Some (status_name (Ticket.status t0))) status notes now));
          [done|exact Hne|by rewrite Hdb|by rewrite Hdb|done].
  - destruct (post_notes_cases F now u id notes w)
      as (_ & Ha & [Hdb|(t0 & rest & Hf & Hopen & _ & _ & Hdb)]).
    + apply (sealed_same t h w); [done|done|lia].
    + assert (Hne : id <> Ticket.id t).
      { intros ->. by rewrite (closed_in_found _ _ _ _ _ Hclosed Hf) in Hopen. }
      apply (sealed_update t h w _
               (Update.mk (updates_auto (autos w)) id (User.id u) note None None
                  notes now));
        [done|exact Hne|by rewrite Hdb|by rewrite Hdb|done].
  - destruct (get_history_same_state F u id w) as (Hdb & _ & Ha & _).
    apply (sealed_same t h w); [done|done|]. rewrite Ha. lia.
  - destruct (delete_ticket_cases F u id w)
      as (Ha & [Hdb|(t0 & rest & Hf & Hopen & _ & Hdb)]).
    + apply (sealed_same t h w); [done|done|]. rewrite Ha. lia.
    + assert (Hne : id <> Ticket.id t).
      { intros ->. by rewrite (closed_in_found _ _ _ _ _ Hclosed Hf) in Hopen. }
      apply (sealed_without t h w _ id); [done|done|done|by rewrite Ha].
Qed.

(** X12.  Closed is terminal.  Take a closed ticket that is alone under
    its id in a table whose ids are all below the AUTO_INCREMENT counter.
    After any sequence of requests to the routes of the router, by any
    callers, with the driver failing wherever it likes, the row of the
    ticket is still in the table exactly as it was (status, [updated_at]
    and all), and so is its history, row for row. *)
Theorem closed_ticket_outlives_every_request isISO8601 Number rs t w :
  Ticket.status t = Closed ->
  In t (tickets (db w)) ->
  (forall t', In t' (tickets (db w)) -> Ticket.id t' = Ticket.id t -> t' = t) ->
  (forall t', In t' (tickets (db w)) -> Ticket.id t' < tickets_auto (autos w)) ->
  let w' := serve_all isISO8601 Number rs w in
  In t (tickets (db w')) /\
  (forall t', In t' (tickets (db w')) -> Ticket.id t' = Ticket.id t -> t' = t) /\
  history_rows (Ticket.id t) (db w') = history_rows (Ticket.id t) (db w).
Proof.
  intros Hc H1 H2 H3 w'. subst w'.
  assert (Hs : sealed t (history_rows (Ticket.id t) (db w)) w) by done.
  revert Hs. generalize (history_rows (Ticket.id t) (db w)) as h. intros h.
  revert w H1 H2 H3. induction rs as [|r rs IH]; intros w _ _ _ Hs.
  - simpl. destruct Hs as (? & ? & _ & ?). done.
  - simpl. pose proof (serve_keeps_sealed isISO8601 Number t h r w Hc Hs) as Hs'.
    destruct Hs' as (Ha & Hb & Hc' & Hd).
    apply IH; done.
Qed.

Lemma closed_ticket_outlives_witness :
  Ticket.status (sample_ticket Closed None) = Closed /\
  In (sample_ticket Closed None)
    (tickets (db (serve_all (fun _ => true) (fun _ => None)
       [PutStatus no_faults sample_now sample_admin 1 (Some "Pending") None;
        DeleteTicket no_faults sample_admin 1;
        PostTicket no_faults sample_now sample_owner (sample_body Absent) None;
        PostNotes no_faults sample_now sample_owner 1 (Some "please reopen")]
       (sample_world Closed None ∅)))).
Proof.
  assert (H0 : Ticket.status (sample_ticket Closed None) = Closed) by reflexivity.
  assert (H1 : In (sample_ticket Closed None)
                 (tickets (db (sample_world Closed None ∅)))) by (by left).
  assert (H2 : forall t', In t' (tickets (db (sample_world Closed None ∅))) ->
               Ticket.id t' = Ticket.id (sample_ticket Closed None) ->
               t' = sample_ticket Closed None) by (by intros t' [<-|[]]).
  assert (H3 : forall t', In t' (tickets (db (sample_world Closed None ∅))) ->
               Ticket.id t' < tickets_auto (autos (sample_world Closed None ∅)))
    by (by intros t' [<-|[]]).
  split; [exact H0|].
  exact (proj1 (closed_ticket_outlives_every_request (fun _ => true) (fun _ => None)
    _ _ _ H0 H1 H2 H3)).
Defined.

(** ** Numbers after a deletion *)

Lemma post_ticket_success_state isISO8601 now u b file w dep :
  validate_create isISO8601 b = [] ->
  department_is u b dep ->
  number_taken (next_ticket_number (year now) (last_ticket_number (year now) (db w)))
    (db w) = false ->
  let r := post_ticket isISO8601 no_faults now u b file w in
  autos r.1 = {| tickets_auto := tickets_auto (autos w) + 1;
                 updates_auto := updates_auto (autos w) + 1 |} /\
  uploads r.1 = uploads w.
Proof.
  intros Hval Hdep Hfree r. subst r.
  unfold post_ticket, try_catch, post_ticket_try.
  rewrite Hval. simpl.
  assert (Hd : determine_department u b = mret dep).
  { unfold determine_department.
    destruct Hdep as [[-> ->]|(-> & -> & Hne)]; [done|].
    by destruct (String.eqb_spec dep ""). }
  rewrite Hd.
  unfold mbind, handler_bind, mret, handler_ret, create_transaction.
  unfold mbind, handler_bind, mret, handler_ret, getConnection, beginTransaction,
    conn_execute, commit, release, driver_call, no_faults. simpl.
  unfold insert_ticket. unfold number_taken in Hfree. rewrite Hfree. simpl.
  unfold insert_update. simpl. rewrite existsb_id_snoc by done. simpl. done.
Qed.

Lemma rows_without_created now u dep b file a d :
  unused_id (tickets_auto a) d ->
  rows_without (tickets_auto a) (created_by_request now u dep b file a d) = d.
Proof.
  intros [Ht Hu]. unfold rows_without, created_by_request, created_rows. simpl.
  rewrite !List.filter_app. simpl. rewrite Z.eqb_refl. simpl. rewrite !app_nil_r.
  rewrite !filter_all.
  - by destruct d.
  - intros x Hx. apply negb_true_iff, Z.eqb_neq. by apply Hu.
  - intros x Hx. apply negb_true_iff, Z.eqb_neq. by apply Ht.
Qed.

(** X13.  Ticket numbers are reused, ids are not.  When a ticket is
    created and then deleted by its creator (valid requests, the driver
    answering, the id not in use before, the photo file removable), the
    tables are back as they were, and the next creation of that year is
    given the very same ticket number under the next id. *)
Theorem deleted_number_is_given_again isISO8601 now u b file dep now' u' b' file' dep' w :
  validate_create isISO8601 b = [] -> department_is u b dep ->
  validate_create isISO8601 b' = [] -> department_is u' b' dep' ->
  year now' = year now ->
  unused_id (tickets_auto (autos w)) (db w) ->
  (forall f, file = Some f -> uploads w !! ("/uploads/" ++ f) <> Some Stuck) ->
  let number := next_ticket_number (year now) (last_ticket_number (year now) (db w)) in
  number_taken number (db w) = false ->
  let r1 := post_ticket isISO8601 no_faults now u b file w in
  let r2 := delete_ticket no_faults u (tickets_auto (autos w)) r1.1 in
  let r3 := post_ticket isISO8601 no_faults now' u' b' file' r2.1 in
  r1.2 = created_response (tickets_auto (autos w)) number dep b file /\
  r2.2 = json (Message "Ticket deleted successfully") /\
  db r2.1 = db w /\
  r3.2 = created_response (tickets_auto (autos w) + 1) number dep' b' file'.
Proof.
  intros Hv Hd Hv' Hd' Hy Hnew Hfile number Hfree r1 r2 r3.
  pose proof (post_ticket_no_faults isISO8601 now u b file w dep Hv Hd) as H1.
  simpl in H1. fold number in H1. rewrite Hfree in H1. fold r1 in H1.
  destruct H1 as [Hr1 Hdb1].
  destruct (post_ticket_success_state isISO8601 now u b file w dep Hv Hd Hfree)
    as [Ha1 Hup1]. fold r1 in Ha1, Hup1.
  pose proof (created_rows_find now u dep b file (autos w) (db w) (owner_filter u)
                Hnew (owner_filter_some u)) as Hf.
  rewrite <- Hdb1 in Hf.
  assert (Hphoto : photo_removable (created_ticket now u dep b file (autos w) (db w)) r1.1).
  { intros p Hp. rewrite Hup1. unfold created_ticket in Hp. simpl in Hp.
    destruct file as [f|]; simpl in Hp; [|done].
    injection Hp as <-. by apply Hfile. }
  destruct (delete_ticket_open u (tickets_auto (autos w)) r1.1 _ _ Hf
              ltac:(discriminate) Hphoto) as (Hr2 & Hdb2 & _). fold r2 in Hr2, Hdb2.
  rewrite Hdb1, rows_without_created in Hdb2 by done.
  destruct (delete_ticket_cases no_faults u (tickets_auto (autos w)) r1.1) as [Ha2 _].
  fold r2 in Ha2.
  split; [done|]. split; [done|]. split; [done|].
  pose proof (post_ticket_no_faults isISO8601 now' u' b' file' r2.1 dep' Hv' Hd') as H3.
  simpl in H3. fold r3 in H3. rewrite Hdb2, Hy in H3. fold number in H3.
  rewrite Hfree in H3. destruct H3 as [-> _].
  by rewrite Ha2, Ha1.
Qed.

Lemma deleted_number_witness :
  validate_create (fun _ => true) (sample_body Absent) = [] /\
  department_is sample_owner (sample_body Absent) "Sales" /\
  unused_id (tickets_auto (autos empty_world)) (db empty_world) /\
  (post_ticket (fun _ => true) no_faults sample_now sample_owner (sample_body Absent) None
     (delete_ticket no_faults sample_owner 1
        (post_ticket (fun _ => true) no_faults sample_now sample_owner
           (sample_body Absent) None empty_world).1).1).2 =
    created_response 2 "TKT20250001" "Sales" (sample_body Absent) None.
Proof.
  assert (H1 : validate_create (fun _ => true) (sample_body Absent) = [])
    by reflexivity.
  assert (H2 : department_is sample_owner (sample_body Absent) "Sales")
    by (left; split; reflexivity).
  assert (H3 : unused_id (tickets_auto (autos empty_world)) (db empty_world))
    by (split; intros ? []).
  split; [exact H1|]. split; [exact H2|]. split; [exact H3|].
  exact (proj2 (proj2 (proj2 (deleted_number_is_given_again (fun _ => true)
    sample_now sample_owner (sample_body Absent) None "Sales"
    sample_now sample_owner (sample_body Absent) None "Sales" empty_world
    H1 H2 H1 H2 eq_refl H3 ltac:(discriminate) eq_refl)))).
Defined.

(** ** Pages of the list *)

Lemma positive_param_ge v fallback : 1 <= positive_param v fallback.
Proof. unfold positive_param. lia. Qed.

Lemma ceil_div_bounds a b :
  0 <= a -> 1 <= b ->
  a <= ceil_div a b * b /\ (1 <= a -> (ceil_div a b - 1) * b < a) /\
  ceil_div a b <= a.
Proof.
  intros Ha Hb. unfold ceil_div.
  pose proof (Z.div_mod (a + b - 1) b ltac:(lia)) as Hdm.
  pose proof (Z.mod_pos_bound (a + b - 1) b ltac:(lia)) as Hm.
  split; [nia|]. split; [intros H1; nia|].
  destruct (Z_le_gt_dec ((a + b - 1) / b) a) as [H|H]; [done|]. nia.
Qed.

Lemma ordered_drop {A} (before : A -> A -> bool) (n : nat) (l : list A) :
  ordered before l -> ordered before (drop n l).
Proof.
  revert l. induction n as [|n IH]; intros [|x l]; simpl; try done.
  intros [_ H]. by apply IH.
Qed.

Lemma ordered_take {A} (before : A -> A -> bool) (n : nat) (l : list A) :
  ordered before l -> ordered before (take n l).
Proof.
  revert l. induction n as [|n IH]; intros [|x l]; simpl; try done.
  intros [Hx H]. split; [|by apply IH].
  destruct l as [|y l]; [by destruct n|]. by destruct n.
Qed.

(** X14.  A 200 answer of the list route, whatever the query parameters
    and the driver: page and limit are at least 1 (a missing, zero or
    unparsable value is replaced by 1 and 10, a negative one by 1);
    [totalItems] counts all
    rows that match the filters, [total] is the least number of pages of
    that size that holds them (1 when nothing matches); the rows are at
    most [limit], all among the matching rows, newest first; and a page
    beyond the last is empty. *)
Theorem list_page_shape Number F u q w rows p :
  body (get_tickets Number F u q w).2 = TicketList rows p ->
  let limit := positive_param (ListQuery.limit q) 10 in
  let matching := List.filter (where_sql (list_where Number u q)) (tickets (db w)) in
  current p = positive_param (ListQuery.page q) 1 /\
  1 <= current p /\ 1 <= limit /\
  totalItems p = Z.of_nat (length matching) /\
  1 <= total p /\
  totalItems p <= total p * limit /\
  (total p - 1) * limit < Z.max 1 (totalItems p) /\
  Z.of_nat (length rows) <= limit /\
  (forall t, In t rows -> In t matching) /\
  newest_first_tickets rows /\
  (total p < current p -> rows = []).
Proof.
  intros Hbody limit matching. revert Hbody. unfold get_tickets.
  apply (try_catch_wp _ _ (fun w' r =>
    body r = TicketList rows p ->
    current p = positive_param (ListQuery.page q) 1 /\
    1 <= current p /\ 1 <= limit /\
    totalItems p = Z.of_nat (length matching) /\
    1 <= total p /\
    totalItems p <= total p * limit /\
    (total p - 1) * limit < Z.max 1 (totalItems p) /\
    Z.of_nat (length rows) <= limit /\
    (forall t, In t rows -> In t matching) /\
    newest_first_tickets rows /\
    (total p < current p -> rows = []))).
  unfold get_tickets_try.
  apply wp_bind, wp_pool_query; [done|]. intros _.
  apply wp_bind, wp_pool_query; [done|]. intros _.
  apply wp_send. simpl. intros [= <- <-]. simpl.
  fold limit. fold matching.
  pose proof (positive_param_ge (ListQuery.page q) 1) as Hpage.
  pose proof (positive_param_ge (ListQuery.limit q) 10) as Hlimit. fold limit in Hlimit.
  set (page := positive_param (ListQuery.page q) 1) in *.
  set (n := Z.of_nat (length matching)).
  assert (Hn : 0 <= n) by lia.
  destruct (ceil_div_bounds n limit Hn Hlimit) as (Hup & Hlow & Hle).
  set (sorted := sort_by (fun x y => later (Ticket.created_at x) (Ticket.created_at y))
                   matching).
  assert (Hlen : length sorted = length matching).
  { unfold sorted. clear. induction matching as [|x l IH]; simpl; [done|].
    rewrite <- IH. generalize (sort_by (fun x y => later (Ticket.created_at x)
                                         (Ticket.created_at y)) l) as s.
    clear. induction s as [|y s IH]; simpl; [done|].
    destruct (later _ _); simpl; [by rewrite IH|done]. }
  split; [done|]. split; [lia|]. split; [lia|]. split; [done|]. split; [lia|].
  split; [fold n; nia|]. split; [fold n; destruct (Z.max_spec 1 (ceil_div n limit));
    destruct (Z.max_spec 1 n); nia|].
  split; [rewrite length_take; lia|].
  split; [by intros t Ht%in_take%in_drop%in_sort_by|].
  split.
  - apply ordered_take, ordered_drop, ordered_sort_by. intros a b. apply later_asym.
  - intros Hbeyond. rewrite drop_ge; [by destruct (Z.to_nat limit)|].
    fold sorted. rewrite Hlen. fold n in Hbeyond. nia.
Qed.

Lemma list_page_witness :
  body (get_tickets (fun _ => None) no_faults sample_owner
          (ListQuery.mk (Some "0") (Some "abc") None None None None)
          (sample_world Pending None ∅)).2 =
    TicketList [sample_ticket Pending None]
      {| current := 1; total := 1; totalItems := 1 |} /\
  1 = positive_param (Some "0") 1.
Proof.
  assert (H : body (get_tickets (fun _ => None) no_faults sample_owner
                      (ListQuery.mk (Some "0") (Some "abc") None None None None)
                      (sample_world Pending None ∅)).2 =
              TicketList [sample_ticket Pending None]
                {| current := 1; total := 1; totalItems := 1 |}) by reflexivity.
  split; [exact H|].
  exact (proj1 (list_page_shape _ _ _ _ _ _ _ H)).
Defined.

(** X15.  Filters that are blank are no filters: a search term and a
    created_by value made only of white space (or empty) give the same
    answer and the same world as a request without them. *)
Theorem blank_filters_are_ignored Number F u page limit status department
    search created_by w :
  Js.trim search = "" -> Js.trim created_by = "" ->
  get_tickets Number F u
    (ListQuery.mk page limit status department (Some search) (Some created_by)) w =
  get_tickets Number F u (ListQuery.mk page limit status department None None) w.
Proof.
  intros Hs Hc. unfold get_tickets, get_tickets_try. simpl.
  assert (Hw : list_where Number u
                 (ListQuery.mk page limit status department (Some search) (Some created_by)) =
               list_where Number u (ListQuery.mk page limit status department None None)).
  { unfold list_where. simpl.
    assert (Ht : forall s, Js.trim s = "" ->
              match truthy (Some s) with
              | Some x => if 0 <? Z.of_nat (String.length (Js.trim x)) then true else false
              | None => false
              end = false).
    { intros s H. destruct s; simpl; [done|]. by rewrite H. }
    f_equal.
    - destruct (negb (is_admin u)); [done|].
      destruct created_by as [|c cs]; simpl; [done|]. by rewrite Hc.
    - do 2 f_equal. destruct search as [|c cs]; simpl; [done|]. by rewrite Hs. }
  by rewrite Hw.
Qed.

Lemma blank_filters_witness :
  Js.trim "   " = "" /\ Js.trim "" = "" /\
  get_tickets (fun _ => None) no_faults sample_admin
    (ListQuery.mk None None None None (Some "   ") (Some "")) (sample_world Pending None ∅) =
  get_tickets (fun _ => None) no_faults sample_admin
    (ListQuery.mk None None None None None None) (sample_world Pending None ∅).
Proof.
  assert (H1 : Js.trim "   " = "") by reflexivity.
  assert (H2 : Js.trim "" = "") by reflexivity.
  split; [exact H1|]. split; [exact H2|].
  exact (blank_filters_are_ignored _ _ _ _ _ _ _ _ _ _ H1 H2).
Defined.

(** X16.  An admin may list by creator: with a created_by parameter that
    is a number, every ticket answered was created by the user of that
    number; the same parameter has no effect for any other caller, who is
    kept to his own tickets. *)
Theorem admin_lists_by_creator Number F u q w rows p c n :
  ListQuery.created_by q = Some c ->
  Js.trim c <> "" ->
  Number c = Some n ->
  body (get_tickets Number F u q w).2 = TicketList rows p ->
  Forall (fun t => Ticket.created_by t = if is_admin u then n else User.id u) rows.
Proof.
  intros Hc Htrim Hn Hbody. apply List.Forall_forall. intros t Hin.
  destruct (get_tickets_rows Number F u q w rows p t Hbody Hin) as [_ Hw].
  revert Hw. unfold list_where. rewrite Hc.
  destruct (is_admin u); simpl.
  - assert (Hc' : c <> "") by (by intros ->).
    destruct c as [|a c']; [done|]. simpl.
    destruct (Js.trim (String a c')) as [|a' r] eqn:E; [done|]. simpl.
    rewrite Hn. simpl. intros [H _]%andb_true_iff. by apply Z.eqb_eq.
  - intros [H _]%andb_true_iff. by apply Z.eqb_eq.
Qed.

Lemma admin_lists_by_creator_witness :
  ListQuery.created_by (ListQuery.mk None None None None None (Some "2")) = Some "2" /\
  Js.trim "2" <> "" /\
  body (get_tickets (fun _ => Some 2) no_faults sample_admin
          (ListQuery.mk None None None None None (Some "2"))
          (sample_world Pending None ∅)).2 =
    TicketList [sample_ticket Pending None]
      {| current := 1; total := 1; totalItems := 1 |} /\
  Forall (fun t => Ticket.created_by t = if is_admin sample_admin then 2 else 1)
    [sample_ticket Pending None].
Proof.
  assert (H1 : ListQuery.created_by (ListQuery.mk None None None None None (Some "2")) =
               Some "2") by reflexivity.
  assert (H2 : Js.trim "2" <> "") by discriminate.
  assert (H3 : body (get_tickets (fun _ => Some 2) no_faults sample_admin
                       (ListQuery.mk None None None None None (Some "2"))
                       (sample_world Pending None ∅)).2 =
               TicketList [sample_ticket Pending None]
                 {| current := 1; total := 1; totalItems := 1 |})
    by reflexivity.
  split; [exact H1|]. split; [exact H2|]. split; [exact H3|].
  exact (admin_lists_by_creator (fun _ => Some 2) no_faults sample_admin _ _ _ _ "2" 2
           H1 H2 eq_refl H3).
Defined.

(** ** Reading back a ticket number *)

Lemma readDigits_step (c : ascii) (s : string) (seen : bool) (acc : Z) :
  Js.isDigit c = true ->
  Js.readDigits (String c s) seen acc =
    Js.readDigits s true (10 * acc + Js.digitValue c).
Proof. intros H. cbn [Js.readDigits]. by rewrite H. Qed.

Ltac read_digit IH :=
  cbn [NilEmpty.string_of_uint Pos.of_uint_acc Pos.of_uint nonnil];
  rewrite readDigits_step by reflexivity;
  match goal with
  | |- context [Js.digitValue ?c] =>
      let v := eval vm_compute in (Js.digitValue c) in
      change (Js.digitValue c) with v
  end;
  rewrite ?orb_true_r.

Lemma readDigits_acc (d : Decimal.uint) (seen : bool) (a : positive) :
  Js.readDigits (NilEmpty.string_of_uint d) seen (Z.pos a) =
    (seen || nonnil d, Z.pos (Pos.of_uint_acc d a)).
Proof.
  revert seen a. induction d; intros seen a.
  - simpl. by rewrite orb_false_r.
  - read_digit IHd. replace (10 * Z.pos a + 0) with (Z.pos (10 * a)) by lia.
    by rewrite IHd.
  - read_digit IHd. replace (10 * Z.pos a + 1) with (Z.pos (1 + 10 * a)) by lia.
    by rewrite IHd.
  - read_digit IHd. replace (10 * Z.pos a + 2) with (Z.pos (2 + 10 * a)) by lia.
    by rewrite IHd.
  - read_digit IHd. replace (10 * Z.pos a + 3) with (Z.pos (3 + 10 * a)) by lia.
    by rewrite IHd.
  - read_digit IHd. replace (10 * Z.pos a + 4) with (Z.pos (4 + 10 * a)) by lia.
    by rewrite IHd.
  - read_digit IHd. replace (10 * Z.pos a + 5) with (Z.pos (5 + 10 * a)) by lia.
    by rewrite IHd.
  - read_digit IHd. replace (10 * Z.pos a + 6) with (Z.pos (6 + 10 * a)) by lia.
    by rewrite IHd.
  - read_digit IHd. replace (10 * Z.pos a + 7) with (Z.pos (7 + 10 * a)) by lia.
    by rewrite IHd.
  - read_digit IHd. replace (10 * Z.pos a + 8) with (Z.pos (8 + 10 * a)) by lia.
    by rewrite IHd.
  - read_digit IHd. replace (10 * Z.pos a + 9) with (Z.pos (9 + 10 * a)) by lia.
    by rewrite IHd.
Qed.

Lemma readDigits_uint (d : Decimal.uint) (seen : bool) :
  Js.readDigits (NilEmpty.string_of_uint d) seen 0 =
    (seen || nonnil d, Z.of_N (Pos.of_uint d)).
Proof.
  revert seen. induction d; intros seen.
  - simpl. by rewrite orb_false_r.
  - read_digit IHd. change (10 * 0 + 0) with 0. by rewrite IHd.
  - read_digit IHd. change (10 * 0 + 1) with (Z.pos 1). by rewrite readDigits_acc.
  - read_digit IHd. change (10 * 0 + 2) with (Z.pos 2). by rewrite readDigits_acc.
  - read_digit IHd. change (10 * 0 + 3) with (Z.pos 3). by rewrite readDigits_acc.
  - read_digit IHd. change (10 * 0 + 4) with (Z.pos 4). by rewrite readDigits_acc.
  - read_digit IHd. change (10 * 0 + 5) with (Z.pos 5). by rewrite readDigits_acc.
  - read_digit IHd. change (10 * 0 + 6) with (Z.pos 6). by rewrite readDigits_acc.
  - read_digit IHd. change (10 * 0 + 7) with (Z.pos 7). by rewrite readDigits_acc.
  - read_digit IHd. change (10 * 0 + 8) with (Z.pos 8). by rewrite readDigits_acc.
  - read_digit IHd. change (10 * 0 + 9) with (Z.pos 9). by rewrite readDigits_acc.
Qed.

Lemma readDigits_zeros (m : nat) (s : string) (seen : bool) :
  Js.readDigits (Js.repeat "0" m ++ s) seen 0 =
    Js.readDigits s (seen || negb (Nat.eqb m 0)) 0.
Proof.
  revert seen. induction m as [|m IH]; intros seen; simpl.
  - by rewrite orb_false_r.
  - rewrite IH. simpl. by rewrite orb_true_r.
Qed.

(** A string that starts with a digit is parsed from its first character. *)
Lemma parseInt_digit_first (c : ascii) (r : string) :
  Js.isDigit c = true ->
  Js.parseInt (String c r) =
    match Js.readDigits (String c r) false 0 with
    | (true, v) => Some (Js.toNumber v)
    | (false, _) => None
    end.
Proof.
  intros Hc.
  assert (Ht : Js.trimStart (String c r) = String c r).
  { destruct c as [[] [] [] [] [] [] [] []]; try discriminate;
      by destruct r as [|b [|d r]]. }
  unfold Js.parseInt. rewrite Ht.
  destruct c as [[] [] [] [] [] [] [] []]; try discriminate; reflexivity.
Qed.

Lemma string_of_uint_digit_first (d : Decimal.uint) :
  d <> Decimal.Nil ->
  exists c r, NilEmpty.string_of_uint d = String c r /\ Js.isDigit c = true.
Proof. destruct d; [done|..]; intros _; simpl; eauto. Qed.

(** Above the safe integers a Number stays above them. *)
Lemma toNumber_big (v : Z) :
  Js.MAX_SAFE_INTEGER < v -> Js.MAX_SAFE_INTEGER < Js.toNumber v.
Proof.
  unfold Js.MAX_SAFE_INTEGER. intros Hv. unfold Js.toNumber, Js.MAX_SAFE_INTEGER.
  rewrite Z.abs_eq by lia.
  replace (v <=? 9007199254740991) with false by (symmetry; lia).
  cbv zeta. set (e := Z.log2 v - 52).
  assert (Hlog : 53 <= Z.log2 v).
  { apply Z.log2_le_pow2; [lia|]. change (2 ^ 53) with 9007199254740992. lia. }
  destruct (Z.log2_spec v ltac:(lia)) as [Hlo _].
  assert (Hpow : 2 ^ Z.log2 v = 4503599627370496 * 2 ^ e).
  { change 4503599627370496 with (2 ^ 52). rewrite <- Z.pow_add_r by lia.
    f_equal. lia. }
  assert (H2e : 2 <= 2 ^ e).
  { change 2 with (2 ^ 1) at 1. apply Z.pow_le_mono_r; lia. }
  assert (Hq : 4503599627370496 <= v / 2 ^ e).
  { apply Z.div_le_lower_bound; lia. }
  rewrite Z.sgn_pos by lia.
  destruct (_ || _); nia.
Qed.

(** A safe integer is its own shortest decimal. *)
Lemma shortest_safe (x : Z) (j : nat) :
  0 <= x <= Js.MAX_SAFE_INTEGER -> Js.shortest x j = x.
Proof.
  intros Hx. induction j as [|j IH]; cbn [Js.shortest]; cbv zeta.
  all: set (p := 10 ^ Z.of_nat _);
    assert (Hp : 0 < p) by (apply Z.pow_pos_nonneg; lia);
    pose proof (Z.div_mod x p ltac:(lia)) as Hdm;
    pose proof (Z.mod_pos_bound x p Hp) as Hm;
    pose proof (Z.div_pos x p ltac:(lia) Hp) as Hd;
    assert (Hlo : 0 <= x / p * p <= x) by nia;
    rewrite (toNumber_safe (x / p * p)) by lia;
    assert (Hhi : (Js.toNumber (x / p * p + p) =? x) = false)
      by (apply Z.eqb_neq;
          destruct (Z_le_gt_dec (x / p * p + p) Js.MAX_SAFE_INTEGER);
          [rewrite toNumber_safe by lia; lia
          |pose proof (toNumber_big (x / p * p + p) ltac:(lia)); lia]);
    rewrite Hhi;
    destruct (Z.eqb_spec (x / p * p) x) as [Heq|Hne]; [done|done..].
Qed.

Lemma toString_safe (k : Z) :
  0 <= k <= Js.MAX_SAFE_INTEGER -> Js.toString k = Js.decimal k.
Proof.
  intros Hk. unfold Js.toString.
  rewrite Z.abs_eq, shortest_safe by lia.
  replace (k <? 0) with false by (symmetry; lia).
  replace (k <? 10 ^ 21) with true; [done|].
  symmetry. apply Z.ltb_lt. change (10 ^ 21) with 1000000000000000000000.
  unfold Js.MAX_SAFE_INTEGER in Hk. lia.
Qed.

Lemma parse_sequence_suffix (k : Z) :
  0 <= k <= Js.MAX_SAFE_INTEGER -> Js.parseInt (sequence_suffix k) = Some k.
Proof.
  intros Hk. unfold sequence_suffix. rewrite toString_safe by done.
  destruct k as [|p|p]; [reflexivity| |lia].
  unfold Js.decimal, Js.padStart. simpl.
  pose proof (Unsigned.to_uint_nonnil p) as Hnil.
  assert (Hs : NilZero.string_of_uint (Pos.to_uint p) =
               NilEmpty.string_of_uint (Pos.to_uint p))
    by (by destruct (Pos.to_uint p)).
  rewrite Hs.
  set (s := NilEmpty.string_of_uint (Pos.to_uint p)).
  set (m := (4 - String.length s)%nat).
  assert (Hfirst : exists c r, Js.repeat "0" m ++ s = String c r /\ Js.isDigit c = true).
  { destruct m as [|m]; simpl; [by apply string_of_uint_digit_first|eauto]. }
  destruct Hfirst as (c & r & Heq & Hc).
  rewrite Heq, (parseInt_digit_first c r Hc), <- Heq.
  rewrite readDigits_zeros. unfold s. rewrite readDigits_uint.
  rewrite DecimalPos.Unsigned.of_to.
  replace (nonnil (Pos.to_uint p)) with true by (by destruct (Pos.to_uint p)).
  rewrite orb_true_r. f_equal. apply toNumber_safe. simpl. lia.
Qed.

(** X17.  The allocator reads back what it wrote as long as the sequence
    is a safe integer: for every year and every sequence from 0 to
    2^53 - 1, of any number of digits, the row numbered [TKT<year><seq>]
    is followed by sequence [seq + 1]; none of these numbers makes the
    allocator fall back to 1.  At 2^53 the arithmetic of Numbers ends the
    sequence: 2^53 + 1 is rounded to 2^53, and the number computed after
    [TKT<year>9007199254740992] is that same number. *)
Theorem allocator_reads_back_its_numbers (y k : Z) :
  0 <= k <= Js.MAX_SAFE_INTEGER ->
  (Js.parseInt (Js.replace ("TKT" ++ Js.toString y) "" (format_ticket_number y k)) =
     Some k /\
   next_count y [format_ticket_number y k] = k + 1 /\
   next_ticket_number y [format_ticket_number y k] = format_ticket_number y (k + 1)) /\
  next_ticket_number y [format_ticket_number y (Js.MAX_SAFE_INTEGER + 1)] =
    format_ticket_number y (Js.MAX_SAFE_INTEGER + 1).
Proof.
  intros Hk. split.
  - assert (Hp : Js.parseInt (Js.replace ("TKT" ++ Js.toString y) ""
                                (format_ticket_number y k)) = Some k)
      by (by rewrite format_ticket_number_split, replace_prefix, parse_sequence_suffix).
    assert (Hn : next_count y [format_ticket_number y k] = k + 1).
    { unfold next_count.
      replace (negb (String.eqb (format_ticket_number y k) "")) with true by reflexivity.
      rewrite Hp. unfold Js.plus, Js.toNumber, Js.MAX_SAFE_INTEGER in *.
      destruct (Z.leb_spec (Z.abs (k + 1)) 9007199254740991) as [|Hbig]; [done|].
      replace k with 9007199254740991 by lia. reflexivity. }
    split; [done|]. split; [done|]. unfold next_ticket_number. by rewrite Hn.
  - unfold next_ticket_number, next_count.
    replace (negb (String.eqb (format_ticket_number y (Js.MAX_SAFE_INTEGER + 1)) ""))
      with true by reflexivity.
    rewrite (format_ticket_number_split y (Js.MAX_SAFE_INTEGER + 1)), replace_prefix.
    replace (Js.parseInt (sequence_suffix (Js.MAX_SAFE_INTEGER + 1)))
      with (Some (Js.MAX_SAFE_INTEGER + 1)) by (vm_compute; reflexivity).
    replace (Js.plus (Js.MAX_SAFE_INTEGER + 1) 1) with (Js.MAX_SAFE_INTEGER + 1)
      by (vm_compute; reflexivity).
    apply format_ticket_number_split.
Qed.

Lemma allocator_reads_back_witness :
  0 <= 123456 <= Js.MAX_SAFE_INTEGER /\
  next_ticket_number 2025 ["TKT2025123456"] = "TKT2025123457".
Proof.
  assert (H : 0 <= 123456 <= Js.MAX_SAFE_INTEGER) by (unfold Js.MAX_SAFE_INTEGER; lia).
  split; [exact H|].
  exact (proj2 (proj2 (proj1 (allocator_reads_back_its_numbers 2025 123456 H)))).
Defined.

(** ** Notes and history *)

(** X18.  A note is stored exactly when the answer is 200, whatever the
    driver does: then the tickets are untouched and one update row of type
    note, by the caller, with the notes and no old or new value, is
    appended; with any other answer the tables are as before. *)
Theorem note_is_stored_iff_200 F now u id notes w :
  let r := post_notes F now u id notes w in
  (http r.2 = 200 ->
   db r.1 = rows_with_note now u id notes (autos w) (db w) /\
   exists t rest, find_tickets id (owner_filter u) (db w) = t :: rest /\
                  Ticket.status t <> Closed) /\
  (http r.2 <> 200 -> db r.1 = db w).
Proof.
  intros r. subst r. unfold post_notes.
  apply (try_catch_wp _ _ (fun w' r =>
    (http r = 200 ->
     db w' = rows_with_note now u id notes (autos w) (db w) /\
     exists t rest, find_tickets id (owner_filter u) (db w) = t :: rest /\
                    Ticket.status t <> Closed) /\
    (http r <> 200 -> db w' = db w))).
  unfold post_notes_try.
  apply wp_bind, wp_when; [intros _; apply wp_send; done|]. intros _.
  apply wp_bind, wp_pool_query; [done|]. intros _.
  destruct (find_tickets id (owner_filter u) (db w)) as [|t rest] eqn:Hf;
    [by apply wp_send|].
  destruct (bool_decide (Ticket.status t = Closed)) eqn:Hc; [by apply wp_send|].
  apply bool_decide_eq_false in Hc.
  apply wp_bind, wp_pool_execute; [done|]. intros _.
  unfold insert_update. simpl. rewrite (find_tickets_exists _ _ _ _ _ Hf).
  apply wp_send. simpl. split; [|done]. intros _. split; [done|]. eauto.
Qed.

(** X19.  A 200 answer of GET /:id/history carries exactly the update rows
    of the asked ticket, oldest first, and is given only when a ticket of
    that id is in the table, created by the caller if the caller has role
    [user]. *)
Theorem history_is_complete_and_oldest_first F u id w ups :
  body (get_history F u id w).2 = History ups ->
  (forall x, In x ups <-> In x (ticket_updates (db w)) /\ Update.ticket_id x = id) /\
  oldest_first_updates ups /\
  exists t, In t (tickets (db w)) /\ Ticket.id t = id /\
            (User.role u = Some user -> Ticket.created_by t = User.id u).
Proof.
  unfold get_history.
  apply (try_catch_wp _ _ (fun w' r =>
    body r = History ups ->
    (forall x, In x ups <-> In x (ticket_updates (db w)) /\ Update.ticket_id x = id) /\
    oldest_first_updates ups /\
    exists t, In t (tickets (db w)) /\ Ticket.id t = id /\
              (User.role u = Some user -> Ticket.created_by t = User.id u))).
  unfold get_history_try.
  apply wp_bind, wp_pool_query; [done|]. intros _.
  destruct (find_tickets id (owner_filter u) (db w)) as [|t0 rest] eqn:Hf;
    [by apply wp_send|].
  apply wp_bind, wp_pool_query; [done|]. intros _.
  apply wp_send. simpl. intros [= <-].
  apply find_tickets_head in Hf as (Hin & Hid & Ho).
  split; [intros x; apply (in_updates_of x id false (db w))|]. split.
  - apply ordered_sort_by. intros a b. apply later_asym.
  - exists t0. split; [done|]. split; [done|].
    intros Hrole. unfold owner_filter, is_user in Ho. by rewrite Hrole in Ho.
Qed.

Lemma history_witness :
  body (get_history no_faults sample_owner 1 (sample_world Pending None ∅)).2 =
    History [sample_update] /\
  oldest_first_updates [sample_update].
Proof.
  assert (H : body (get_history no_faults sample_owner 1 (sample_world Pending None ∅)).2 =
              History [sample_update]) by reflexivity.
  split; [exact H|].
  exact (proj1 (proj2 (history_is_complete_and_oldest_first _ _ _ _ _ H))).
Defined.

(** ** The search term *)








(** ** The first tickets of a year *)

Lemma tickets_of_year_created y now u dep b file a d :
  year now = y ->
  tickets_of_year y (created_by_request now u dep b file a d) =
    (tickets_of_year y d ++ [created_ticket now u dep b file a d])%list.
Proof.
  intros <-. unfold tickets_of_year, created_by_request, created_rows. simpl.
  rewrite List.filter_app. simpl. by rewrite Z.eqb_refl.
Qed.

(** The number the allocator computes when the tickets of the year are the
    first [n], [n < 10000]. *)
Lemma next_ticket_number_of_year y n d :
  Z.of_nat n <= 9999 ->
  map Ticket.ticket_number (tickets_of_year y d) = year_numbers y n ->
  next_ticket_number y (last_ticket_number y d) =
    format_ticket_number y (Z.of_nat n + 1).
Proof.
  intros Hn Hd. unfold last_ticket_number. fold (tickets_of_year y d). rewrite Hd.
  unfold next_ticket_number. destruct n as [|n]; [done|].
  by rewrite greatest_year_numbers, next_count_after by lia.
Qed.

(** One creation of the year on tables that hold the first [n] tickets of
    the year: either the ticket numbered [n + 1] is appended and the
    answer is 201, or the tables stay and the answer is another one. *)
Lemma creation_step isISO8601 F now u b file w (n : nat) :
  Z.of_nat n <= 9999 ->
  map Ticket.ticket_number (tickets_of_year (year now) (db w)) =
    year_numbers (year now) n ->
  let r := post_ticket isISO8601 F now u b file w in
  (created r.2 = true /\
   map Ticket.ticket_number (tickets_of_year (year now) (db r.1)) =
     year_numbers (year now) (S n) /\
   (forall t, In t (tickets (db r.1)) ->
              In t (tickets (db w)) \/ year (Ticket.created_at t) = year now)) \/
  (created r.2 = false /\ db r.1 = db w).
Proof.
  intros Hn Hd r. subst r.
  destruct (post_ticket_cases isISO8601 F now u b file w)
    as [(dep & _ & _ & _ & -> & ->)|[-> Hr]].
  - left. split; [done|]. split.
    + rewrite tickets_of_year_created, map_app, Hd, year_numbers_S by done. simpl.
      rewrite (next_ticket_number_of_year _ n) by done.
      do 3 f_equal. lia.
    + unfold created_by_request, created_rows. simpl.
      intros t [Ht|[<-|[]]]%in_app_or; [by left|by right].
  - right. split; [|done]. by destruct Hr as [Hr|[->| ->]]; [unfold created; rewrite Hr|..].
Qed.

(** A valid creation of the year, the driver answering, on such tables
    where no ticket of another year holds a number of the year: it
    creates. *)
Lemma creation_step_answered isISO8601 F now u b file w (n : nat) :
  Z.of_nat n <= 9999 ->
  map Ticket.ticket_number (tickets_of_year (year now) (db w)) =
    year_numbers (year now) n ->
  (forall t k, In t (tickets (db w)) -> year (Ticket.created_at t) <> year now ->
               Ticket.ticket_number t <> format_ticket_number (year now) k) ->
  answered_creation isISO8601 (PostTicket F now u b file) ->
  created (post_ticket isISO8601 F now u b file w).2 = true.
Proof.
  intros Hn Hd Hother (HF & Hval & dep & Hdep).
  pose proof (post_ticket_answered isISO8601 F now u b file w dep HF Hval Hdep) as H.
  simpl in H. rewrite (next_ticket_number_of_year _ n) in H by done.
  destruct (number_taken _ (db w)) eqn:Htaken; [|by destruct H as [-> _]].
  exfalso. apply number_taken_iff, in_map_iff in Htaken as (t & Hnum & Ht).
  destruct (Z.eq_dec (year (Ticket.created_at t)) (year now)) as [Hy|Hy].
  - assert (Hin : In (Ticket.ticket_number t) (year_numbers (year now) n)).
    { rewrite <- Hd. apply in_map. apply filter_In. split; [done|]. by apply Z.eqb_eq. }
    apply in_year_numbers in Hin as (k & Hk & Heq). rewrite Hnum in Heq.
    apply format_ticket_number_inj in Heq; lia.
  - by apply (Hother t (Z.of_nat n + 1) Ht Hy).
Qed.

Lemma creations_in_sequence isISO8601 Number y rs :
  Forall (creation_in y) rs ->
  forall w (n : nat),
  Z.of_nat n + Z.of_nat (length rs) <= 10000 ->
  map Ticket.ticket_number (tickets_of_year y (db w)) = year_numbers y n ->
  let m := length (List.filter created (answers isISO8601 Number rs w)) in
  map Ticket.ticket_number (tickets_of_year y (db (serve_all isISO8601 Number rs w))) =
    year_numbers y (n + m) /\
  (Forall (answered_creation isISO8601) rs ->
   (forall t k, In t (tickets (db w)) -> year (Ticket.created_at t) <> y ->
                Ticket.ticket_number t <> format_ticket_number y k) ->
   m = length rs).
Proof.
  induction 1 as [|r rs Hr Hrs IH]; intros w n Hn Hd; simpl.
  { by rewrite Nat.add_0_r. }
  destruct r as [F now u b file| | | | | |]; try done. simpl in Hr. subst y.
  simpl in Hn. unfold serve.
  change (db w) with (db (restart w)) in Hd.
  change (db w) with (db (restart w)).
  generalize dependent (restart w). clear w. intros w Hd.
  destruct (creation_step isISO8601 F now u b file w n ltac:(lia) Hd)
    as [(Hc & Hd' & Hin)|(Hc & Hdb)].
  - rewrite Hc. simpl.
    destruct (IH (post_ticket isISO8601 F now u b file w).1 (S n) ltac:(lia) Hd')
      as [IH1 IH2].
    split; [by rewrite IH1, Nat.add_succ_r|].
    intros [_ Hall]%Forall_cons Hother. f_equal. apply IH2; [done|].
    intros t k Ht Hy. destruct (Hin t Ht) as [Hw|Hy']; [by apply Hother|done].
  - rewrite Hc.
    assert (Hd' : map Ticket.ticket_number
                    (tickets_of_year (year now)
                       (db (post_ticket isISO8601 F now u b file w).1)) =
                  year_numbers (year now) n) by (by rewrite Hdb).
    destruct (IH (post_ticket isISO8601 F now u b file w).1 n ltac:(lia) Hd')
      as [IH1 IH2].
    split; [done|].
    intros [Ha _]%Forall_cons Hother. exfalso.
    pose proof (creation_step_answered isISO8601 F now u b file w n ltac:(lia) Hd
                  Hother Ha) as Hc'.
    congruence.
Qed.

(** X21.  The first tickets of a year are numbered in sequence.  Take
    tables without a ticket of year [y] (tickets of other years may be
    there) and any sequence of at most 10000 creation requests made in
    that year, by any callers, with any bodies and files, at any instants,
    valid or not, and with the driver failing wherever it likes.
    Afterwards the tickets of the year carry exactly the numbers
    [TKT<y>0001], [TKT<y>0002], ... in order of creation, one for each
    request that was answered 201.  When all the requests are valid, the
    driver answers every call and no ticket of another year holds a number
    of the year, every request is answered 201. *)
Theorem first_creations_are_numbered_in_sequence isISO8601 Number y rs w0 :
  Forall (creation_in y) rs ->
  tickets_of_year y (db w0) = [] ->
  Z.of_nat (length rs) <= 10000 ->
  let w := serve_all isISO8601 Number rs w0 in
  let n := length (List.filter created (answers isISO8601 Number rs w0)) in
  map Ticket.ticket_number (tickets_of_year y (db w)) =
    map (format_ticket_number y) (zrange 1 n) /\
  (Forall (answered_creation isISO8601) rs ->
   (forall t k, In t (tickets (db w0)) ->
                Ticket.ticket_number t <> format_ticket_number y k) ->
   n = length rs).
Proof.
  intros Hrs Hempty Hlen w n. subst w n.
  destruct (creations_in_sequence isISO8601 Number y rs Hrs w0 0%nat ltac:(lia)
              ltac:(by rewrite Hempty)) as [H1 H2].
  split; [exact H1|]. intros Hall Hother. apply H2; [done|]. eauto.
Qed.

Lemma first_creations_witness :
  Forall (creation_in 2026)
    [PostTicket no_faults {| year := 2026; instant := 10 |} sample_owner
       (sample_body Absent) None;
     PostTicket (fault_at 4 connection_lost) {| year := 2026; instant := 20 |}
       sample_stranger (sample_body (Text "Sales")) (Some "ticket-20.png");
     PostTicket no_faults {| year := 2026; instant := 30 |} sample_it
       (CreateBody.mk Absent (Some "Laptop") None (Some "2026-01-03")) None;
     PostTicket no_faults {| year := 2026; instant := 40 |} sample_admin
       (CreateBody.mk (Text "Finance") (Some "Laptop") (Some "No sound")
          (Some "2026-01-04")) (Some "ticket-40.png")] /\
  tickets_of_year 2026 (db (sample_world Done None ∅)) = [] /\
  map Ticket.ticket_number
    (tickets (db (serve_all (fun _ => true) (fun _ => None)
       [PostTicket no_faults {| year := 2026; instant := 10 |} sample_owner
          (sample_body Absent) None;
        PostTicket (fault_at 4 connection_lost) {| year := 2026; instant := 20 |}
          sample_stranger (sample_body (Text "Sales")) (Some "ticket-20.png");
        PostTicket no_faults {| year := 2026; instant := 30 |} sample_it
          (CreateBody.mk Absent (Some "Laptop") None (Some "2026-01-03")) None;
        PostTicket no_faults {| year := 2026; instant := 40 |} sample_admin
          (CreateBody.mk (Text "Finance") (Some "Laptop") (Some "No sound")
             (Some "2026-01-04")) (Some "ticket-40.png")]
       (sample_world Done None ∅)))) =
    ["TKT20250001"; "TKT20260001"; "TKT20260002"] /\
  map Ticket.ticket_number
    (tickets_of_year 2026 (db (serve_all (fun _ => true) (fun _ => None)
       [PostTicket no_faults {| year := 2026; instant := 10 |} sample_owner
          (sample_body Absent) None;
        PostTicket (fault_at 4 connection_lost) {| year := 2026; instant := 20 |}
          sample_stranger (sample_body (Text "Sales")) (Some "ticket-20.png");
        PostTicket no_faults {| year := 2026; instant := 30 |} sample_it
          (CreateBody.mk Absent (Some "Laptop") None (Some "2026-01-03")) None;
        PostTicket no_faults {| year := 2026; instant := 40 |} sample_admin
          (CreateBody.mk (Text "Finance") (Some "Laptop") (Some "No sound")
             (Some "2026-01-04")) (Some "ticket-40.png")]
       (sample_world Done None ∅)))) =
    map (format_ticket_number 2026) (zrange 1 2).
Proof.
  assert (H1 : Forall (creation_in 2026)
    [PostTicket no_faults {| year := 2026; instant := 10 |} sample_owner
       (sample_body Absent) None;
     PostTicket (fault_at 4 connection_lost) {| year := 2026; instant := 20 |}
       sample_stranger (sample_body (Text "Sales")) (Some "ticket-20.png");
     PostTicket no_faults {| year := 2026; instant := 30 |} sample_it
       (CreateBody.mk Absent (Some "Laptop") None (Some "2026-01-03")) None;
     PostTicket no_faults {| year := 2026; instant := 40 |} sample_admin
       (CreateBody.mk (Text "Finance") (Some "Laptop") (Some "No sound")
          (Some "2026-01-04")) (Some "ticket-40.png")])
    by (repeat constructor).
  assert (H2 : tickets_of_year 2026 (db (sample_world Done None ∅)) = [])
    by reflexivity.
  split; [exact H1|]. split; [exact H2|]. split; [reflexivity|].
  exact (proj1 (first_creations_are_numbered_in_sequence (fun _ => true)
    (fun _ => None) 2026 _ (sample_world Done None ∅) H1 H2 ltac:(simpl; lia))).
Defined.

(** ** The constraints of the schema *)










